(* ===== verification/_CoqProject ===== *)
-Q . S2P
Prelude.v
Js.v
Wallet.v
Config.v
ClientState.v
Samples.v
Pipeline.v
Session.v
UserAgent.v
Workflow.v
Account.v
Scheduler.v
Main.v
Register.v
