(* ===== verification/Prelude.v ===== *)
(** * A verification development of the Flow3 account runner

    The repository is a Node.js bot that drives many wallet accounts
    against the Flow3 rewards API.  Two source files are modelled:

    - [src/main.js]: the class [ClientAPI] (one instance per account)
      with its request pipeline [makeRequest], its token lifecycle
      [getValidToken], the endpoint wrappers ([auth], [hb],
      [getRefereshToken], [getBalance], ...), the workflow handlers
      ([handleSyncData], [handleCheckin], [handleTasks], [handleHB],
      [handleCheckPoint]) and [runAccount]; the global interval registry
      [intervalIds] with [stopInterVal]; and [main], which validates the
      inputs and runs the accounts in consecutive batches of
      [maxThreads] with [Promise.all].
    - [src/autoref.js]: the separate registration flow ([register],
      [checkProxyIP], [main]).

    How the parts interact: [main] builds one [ClientAPI] per account and
    awaits each batch; [runAccount] calls [getValidToken], then the
    handlers, each of which calls an endpoint wrapper, which calls
    [makeRequest]; on HTTP 401 [makeRequest] calls back into
    [getValidToken(true)], which itself issues requests through
    [makeRequest] (refresh and login).  This mutual recursion is the
    central structure of the model.

    Layout of the library (each file opens with its own summary):
    - [Prelude] (this file): the state-and-exception monad [st] with
      fuel exhaustion, its notations (scope [flow_scope]), the hint
      database [flow] and the shared lemmas and tactics.
    - [Js]: the JavaScript values the code manipulates ([JVal]), property
      access with optional chaining, truthiness, loose equality, the
      relational comparison with [undefined], [String()] and a JSON
      printer.  This is language semantics, not code of the repository.
    - [Wallet]: [getWalletFromPrivateKey] (lines 22-26) over models of
      the libraries it calls: the [bs58] codec (the [base-x] conversion
      between bases 256 and 58 with its leading-zero count, over the
      Bitcoin alphabet) and [Keypair.fromSecretKey] of
      [@solana/web3.js]; the ed25519 public-key derivation is a
      parameter.  [bs58_encode] also gives the account address and the
      base58 signature of [auth].
    - [Config]: the configuration object of [config/config.js], the
      helpers of [utils.js] ([isTokenExpired], [sleep] delays), and the
      external collaborators (remote server, JWT decoding, signing,
      randomness) as an environment record.  These files are not under
      [src/]; they are modelled from the spec.
    - [ClientState]: the fields of a [ClientAPI] object, the process
      world (clock, request counter, event trace, the file
      [localStorage.json], the interval registry), the primitive
      effects ([log], [sleep], the HTTP call, [saveJson]).
    - [Pipeline]: [makeRequest] and its retry loop, parameterised by the
      token provider it calls back on 401, with its theorems.
    - [Session]: [getValidToken], which ties the knot with [makeRequest],
      with its theorems.
    - [UserAgent]: the constructor of [ClientAPI], the per-session
      user-agent cache and [#set_headers].
    - [Workflow]: the handlers [checkProxyIP], [handleSyncData],
      [handleCheckin], [handleTasks], [handleHB], [handleCheckPoint].
    - [Account]: [runAccount], composed of the above, with the spec's
      first-run scenario and a three-start check-in scenario.
    - [Scheduler]: the batch loop of [main] ([js_slice], [batch_starts],
      [batches]), the execution of the batches with [Promise.all] as the
      step relation [sched_step], the input check, and [stopInterVal].
    - [Main]: the start-up of [main] up to its batch loop (input check,
      snapshot reads, endpoint, items, exits) and the [ClientAPI]
      objects each batch builds.
    - [Register]: the separate registration script [src/autoref.js].

    What the theorems show (the claims of the manifest, by group):
    - request pipeline ([Pipeline]): [makeRequest] refines the pure
      retry policy [retry_spec] when no 401 occurs; 400 ends at once;
      transient failures give [r+1] attempts and [r+1] pauses; one 401
      re-authenticates once; an options object without [retries]
      attempts once;
    - token lifecycle ([Session]): the fast path makes no call; an
      expired token is refreshed, never re-logged; a 401 on every call
      makes [makeRequest] and [getValidToken] diverge (every fuel is
      exhausted); [getValidToken] changes no field but the token;
    - workflow and run ([Workflow], [Account], [UserAgent]): the sync
      loop never retries; the TypeError and ReferenceError paths; every
      pending task is attempted; the check-in is recorded even when it
      fails; the first-run scenario makes exactly the requests of
      [happy_urls] (and a concrete three-start scenario, not a claim,
      shows a second check-in two hours after the first); the
      cached user agent is reused and the headers agree with it; a
      heartbeat tick never throws, a balance tick throws only on a
      successful answer without data; with proxies in use, a failing
      proxy probe ends the run after the probe alone, with no direct
      fallback;
    - scheduler ([Scheduler]): rule induction over [sched_step] gives
      the invariant [sched_inv], from which batch ordering and the
      [maxThreads] concurrency bound follow for the batches of [main];
      the batches partition the accounts; the execution completes when
      every run fulfils; in every execution a rejection is the last
      event: the process exits and the later batches never launch;
      [maxThreads <= 0] makes the loop diverge; the SIGINT handler
      cancels every timer and empties [intervalIds] (clearing a timer
      leaves the array as it is, the reset of line 489 empties it);
    - wallets and start-up ([Wallet], [Main]): [bs58] is a bijection
      between byte arrays and base58 strings (decode after encode and
      encode after decode are identities); [getWalletFromPrivateKey]
      accepts exactly the encodings of 64-byte secret keys whose upper
      half is the public key of the lower half; one rejected key makes
      [main] exit with code 1 before any account runs; the clients get
      the account indices, keys and proxy lines by position; a missing
      or corrupt snapshot exits the process before any account runs;
    - registration ([Register]): the loop never throws and attempts
      every account in order; a failed probe or a missing proxy falls
      back to a direct connection; the success and CAPTCHA-failure
      paths.

    Fuel.  [makeRequest] and [getValidToken] recurse without a bound in
    the source (a 401 answer re-enters [makeRequest] with a fresh retry
    budget).  Each model function takes a [nat] fuel; one unit is spent
    per request attempt and per [getValidToken] call, and exhaustion is
    the distinguished outcome [OutOfFuel], never a result.  Termination
    theorems state that enough fuel gives a result ([retries + 2] units
    for one request without 401, a few units per handler call in the
    scenarios); divergence theorems state that every fuel is exhausted.
    The loop of [main] ([batch_starts]) takes fuel too: [n + 1]
    iterations always suffice when [maxThreads > 0], since each one
    advances the index by at least one; the execution of the batches
    is a step relation and needs none.  The [bs58]
    conversion writes at most twice as many digits as it reads, which is
    enough both ways since [256 <= 58 ^ 2] and [58 <= 256 ^ 2].

    Not modelled: the ed25519 arithmetic behind [getPublicKey] and
    [nacl.sign.detached] (cryptographic primitives, parameters of the
    model), [checkBaseUrl], [loadData] and the file reads of [main] (network and
    file I/O: their results are inputs of [Main]), [process.exit],
    the interleaving of the runs of one batch (the scheduler's step
    relation abstracts each run to whether it fulfils, and every run
    settles: a run that never returns, as under an always-401 server,
    is outside the step relation), the exception the [HttpsProxyAgent]
    constructor raises outside the [try] of [makeRequest] on a malformed
    proxy URL (the model builds the agent from any string), a parse
    error of [session_user_agents.json], the colours of
    the console output, and the readline interface of [autoref.js].  [config.js],
    [utils.js], [captcha.js] and axios are not under [src/]; the parts
    the code calls are modelled from the spec. *)

From stdpp Require Export base gmap strings list pretty.
From Stdlib Require Export ZArith Lia.

(** ** Outcomes and the state monad *)

(** The result of running a computation: a value, a thrown JavaScript
    exception, or exhaustion of the fuel that bounds recursion. *)
Inductive outcome (E A : Type) : Type :=
  | Ok (a : A)
  | Throw (e : E)
  | OutOfFuel.
Arguments Ok {E A} a.
Arguments Throw {E A} e.
Arguments OutOfFuel {E A}.

(** A computation over a state [S] that may throw an [E]: the state is
    returned in every case, as the effects performed before an exception
    or before fuel exhaustion are observable. *)
Definition st (S E A : Type) : Type := S -> outcome E A * S.

Section Monad.
Context {S E : Type}.

Definition ret {A} (a : A) : st S E A := fun s => (Ok a, s).

Definition bind {A B} (m : st S E A) (k : A -> st S E B) : st S E B :=
  fun s =>
    match m s with
    | (Ok a, s') => k a s'
    | (Throw e, s') => (Throw e, s')
    | (OutOfFuel, s') => (OutOfFuel, s')
    end.

Definition get_st : st S E S := fun s => (Ok s, s).
Definition put_st (s : S) : st S E unit := fun _ => (Ok tt, s).
Definition modify_st (f : S -> S) : st S E unit := fun s => (Ok tt, f s).
Definition throw {A} (e : E) : st S E A := fun s => (Throw e, s).
Definition out_of_fuel {A} : st S E A := fun s => (OutOfFuel, s).

(** [try { m } catch (e) { h(e) }]: fuel exhaustion is not an exception
    and is not caught. *)
Definition catch {A} (m : st S E A) (h : E -> st S E A) : st S E A :=
  fun s =>
    match m s with
    | (Throw e, s') => h e s'
    | r => r
    end.

(** Sequencing a list of computations, as a [for ... of] loop with an
    [await] in its body does. *)
Fixpoint for_each {A} (l : list A) (body : A -> st S E unit) : st S E unit :=
  match l with
  | [] => ret tt
  | x :: l' => bind (body x) (fun _ => for_each l' body)
  end.
End Monad.

Arguments bind : simpl never.
Arguments ret : simpl never.
Arguments catch : simpl never.

Declare Scope flow_scope.
Delimit Scope flow_scope with flow.
Notation "x <- m ;; k" := (bind m (fun x => k))
  (at level 100, m at next level, right associativity) : flow_scope.
Notation "m ;; k" := (bind m (fun _ => k))
  (at level 100, right associativity) : flow_scope.
Open Scope flow_scope.

(** ** Monad laws and run lemmas *)

Create HintDb flow discriminated.
Create Rewrite HintDb flow.

Section MonadLemmas.
Context {S E : Type}.

Lemma bind_ret_l {A B} (a : A) (k : A -> st S E B) s :
  bind (ret a) k s = k a s.
Proof. reflexivity. Qed.

Lemma bind_ret_r {A} (m : st S E A) s : bind m ret s = m s.
Proof. unfold bind, ret. by destruct (m s) as [[] ?]. Qed.

Lemma bind_assoc {A B C} (m : st S E A) (k : A -> st S E B)
  (h : B -> st S E C) s :
  bind (bind m k) h s = bind m (fun a => bind (k a) h) s.
Proof. unfold bind. by destruct (m s) as [[] ?]. Qed.

(** Running a bind whose first computation is known. *)
Lemma bind_Ok {A B} (m : st S E A) (k : A -> st S E B) s a s' :
  m s = (Ok a, s') -> bind m k s = k a s'.
Proof. unfold bind. by intros ->. Qed.

Lemma bind_Throw {A B} (m : st S E A) (k : A -> st S E B) s e s' :
  m s = (Throw e, s') -> bind m k s = (Throw e, s').
Proof. unfold bind. by intros ->. Qed.

Lemma bind_OutOfFuel {A B} (m : st S E A) (k : A -> st S E B) s s' :
  m s = (OutOfFuel, s') -> bind m k s = (OutOfFuel, s').
Proof. unfold bind. by intros ->. Qed.

(** A bind is exhausted when its first computation is, or when that
    computation returns and the continuation is exhausted. *)
Lemma bind_OutOfFuel_k {A B} (m : st S E A) (k : A -> st S E B) s a s' :
  m s = (Ok a, s') -> fst (k a s') = OutOfFuel -> fst (bind m k s) = OutOfFuel.
Proof. unfold bind. by intros ->. Qed.

Lemma bind_fst_OutOfFuel {A B} (m : st S E A) (k : A -> st S E B) s :
  fst (m s) = OutOfFuel -> fst (bind m k s) = OutOfFuel.
Proof. unfold bind. destruct (m s) as [[] ?]; cbn; congruence. Qed.

Lemma catch_Ok {A} (m : st S E A) h s a s' :
  m s = (Ok a, s') -> catch m h s = (Ok a, s').
Proof. unfold catch. by intros ->. Qed.

Lemma catch_Throw {A} (m : st S E A) h s e s' :
  m s = (Throw e, s') -> catch m h s = h e s'.
Proof. unfold catch. by intros ->. Qed.

Lemma for_each_nil {A} (body : A -> st S E unit) s :
  for_each [] body s = (Ok tt, s).
Proof. reflexivity. Qed.

Lemma for_each_app {A} (l1 l2 : list A) (body : A -> st S E unit) s :
  for_each (l1 ++ l2) body s = bind (for_each l1 body) (fun _ => for_each l2 body) s.
Proof.
  revert s; induction l1 as [|x l1 IH]; intros s; [reflexivity|].
  cbn [app for_each]. rewrite bind_assoc. unfold bind at 1 2.
  destruct (body x s) as [[] s']; [|done|done]. apply IH.
Qed.
End MonadLemmas.

#[export] Hint Rewrite @bind_ret_l @bind_assoc : flow.

(** ** Invariants of computations

    [respects R m]: every run of [m], whatever its outcome, relates its
    initial and final states by [R].  [nothrow m]: no run of [m] ends in
    an exception.  Both are closed under [bind], so a property of a
    whole method follows from the property of each effect it performs. *)

Section Invariants.
Context {S E : Type}.

Definition respects (R : S -> S -> Prop) {A} (m : st S E A) : Prop :=
  forall s o s', m s = (o, s') -> R s s'.

Definition nothrow {A} (m : st S E A) : Prop :=
  forall s e s', m s <> (Throw e, s').

Context (R : S -> S -> Prop) `{!PreOrder R}.

Lemma respects_ret {A} (a : A) : respects R (ret a).
Proof. intros s o s' [= _ <-]. reflexivity. Qed.

Lemma respects_out_of_fuel {A} : respects R (@out_of_fuel S E A).
Proof. intros s o s' [= _ <-]. reflexivity. Qed.

Lemma respects_throw {A} e : respects R (@throw S E A e).
Proof. intros s o s' [= _ <-]. reflexivity. Qed.

Lemma respects_bind {A B} (m : st S E A) (k : A -> st S E B) :
  respects R m -> (forall a, respects R (k a)) -> respects R (bind m k).
Proof.
  intros Hm Hk s o s'. unfold bind.
  destruct (m s) as [[a|e|] s1] eqn:E1; intros Hrun.
  - etrans; [exact (Hm _ _ _ E1)|]. exact (Hk a _ _ _ Hrun).
  - injection Hrun as _ <-. exact (Hm _ _ _ E1).
  - injection Hrun as _ <-. exact (Hm _ _ _ E1).
Qed.

(** [ensures P m]: every value [m] returns satisfies [P]. *)
Definition ensures {A} (P : A -> Prop) (m : st S E A) : Prop :=
  forall s a s', m s = (Ok a, s') -> P a.

Lemma ensures_ret {A} (P : A -> Prop) a : P a -> ensures P (ret a).
Proof. by intros Ha s a' s' [= <- _]. Qed.

Lemma ensures_bind {A B} (P : B -> Prop) (m : st S E A) (k : A -> st S E B) :
  (forall a, ensures P (k a)) -> ensures P (bind m k).
Proof.
  intros Hk s b s'. unfold bind.
  destruct (m s) as [[a|e|] s1]; [apply Hk|done|done].
Qed.

Lemma ensures_throw {A} (P : A -> Prop) e : ensures P (throw e).
Proof. by intros s a s'. Qed.

Lemma ensures_out_of_fuel {A} (P : A -> Prop) : ensures P out_of_fuel.
Proof. by intros s a s'. Qed.

Lemma nothrow_ret {A} (a : A) : nothrow (@ret S E A a).
Proof. by intros s e s'. Qed.

Lemma nothrow_out_of_fuel {A} : nothrow (@out_of_fuel S E A).
Proof. by intros s e s'. Qed.

Lemma nothrow_bind {A B} (m : st S E A) (k : A -> st S E B) :
  nothrow m -> (forall a, nothrow (k a)) -> nothrow (bind m k).
Proof.
  intros Hm Hk s e s'. unfold bind.
  destruct (m s) as [[a|e'|] s1] eqn:E1; [apply Hk|by destruct (Hm _ _ _ E1)|done].
Qed.
Lemma nothrow_for_each {A} (l : list A) (body : A -> st S E unit) :
  (forall x, nothrow (body x)) -> nothrow (for_each l body).
Proof.
  intros Hb. induction l as [|x l IH]; cbn [for_each]; [apply nothrow_ret|].
  by apply nothrow_bind.
Qed.

Lemma respects_catch {A} (m : st S E A) (h : E -> st S E A) :
  respects R m -> (forall e, respects R (h e)) -> respects R (catch m h).
Proof.
  intros Hm Hh s o s'. unfold catch.
  destruct (m s) as [[a|e|] s1] eqn:E1; intros Hrun.
  - injection Hrun as _ <-. exact (Hm _ _ _ E1).
  - etrans; [exact (Hm _ _ _ E1)|]. exact (Hh e _ _ _ Hrun).
  - injection Hrun as _ <-. exact (Hm _ _ _ E1).
Qed.

Lemma respects_for_each {A} (l : list A) (body : A -> st S E unit) :
  (forall x, respects R (body x)) -> respects R (for_each l body).
Proof.
  intros Hb. induction l as [|x l IH]; cbn [for_each]; [apply respects_ret|].
  by apply respects_bind.
Qed.
(** [returns m]: every run of [m] returns a value, neither throwing
    nor running out of fuel. *)
Definition returns {A} (m : st S E A) : Prop :=
  forall s, exists a s', m s = (Ok a, s').

Lemma returns_ret {A} (a : A) : returns (@ret S E A a).
Proof. intros s. by exists a, s. Qed.

Lemma returns_bind {A B} (m : st S E A) (k : A -> st S E B) :
  returns m -> (forall a, returns (k a)) -> returns (bind m k).
Proof.
  intros Hm Hk s. destruct (Hm s) as (a & s1 & E1). rewrite (bind_Ok _ _ _ _ _ E1). apply Hk.
Qed.

Lemma returns_for_each {A} (l : list A) (body : A -> st S E unit) :
  (forall x, returns (body x)) -> returns (for_each l body).
Proof.
  intros Hb. induction l as [|x l IH]; cbn [for_each]; [apply returns_ret|].
  by apply returns_bind.
Qed.
End Invariants.

#[export] Hint Resolve respects_ret respects_out_of_fuel respects_throw
  nothrow_ret nothrow_out_of_fuel ensures_throw ensures_out_of_fuel : flow.

(** Decompose an invariant goal along the structure of a computation:
    binds, [if] and [match] in the code become cases. *)
(** Reduce a goal [m s <> (Throw e, s')] to [nothrow m]. *)
Ltac goal_nothrow :=
  match goal with
  | |- ?m ?s <> (Throw _, _) => let H := fresh "Hnt" in assert (H : nothrow m); [|apply H]
  end.

Ltac solve_struct :=
  repeat match goal with
  | |- respects _ (bind _ _) => refine (respects_bind _ _ _ _ _); [|intros ?]
  | |- nothrow (bind _ _) => apply nothrow_bind; [|intros ?]
  | |- ensures _ (bind _ _) => apply ensures_bind; intros ?
  | |- nothrow (for_each _ _) => apply nothrow_for_each; intros ?
  | |- returns (bind _ _) => apply returns_bind; [|intros ?]
  | |- returns (for_each _ _) => apply returns_for_each; intros ?
  | |- returns (ret _) => apply returns_ret
  | |- returns (match ?x with _ => _ end) => destruct x
  | |- returns (if ?b then _ else _) => destruct b
  | |- returns _ => solve [eauto with flow]
  | |- respects _ (for_each _ _) => refine (respects_for_each _ _ _ _); intros ?
  | |- respects _ (catch _ _) => refine (respects_catch _ _ _ _ _); [|intros ?]
  | |- ensures _ (ret _) => apply ensures_ret
  | |- ensures _ (match ?x with _ => _ end) => destruct x
  | |- ensures _ (if ?b then _ else _) => destruct b
  | |- ensures _ _ => solve [eauto with flow]
  | |- respects _ (ret _) => refine (respects_ret _ _)
  | |- respects _ out_of_fuel => refine (respects_out_of_fuel _)
  | |- respects _ (throw _) => refine (respects_throw _ _)
  | |- respects _ (match ?x with _ => _ end) => destruct x
  | |- nothrow (match ?x with _ => _ end) => destruct x
  | |- respects _ (if ?b then _ else _) => destruct b
  | |- nothrow (if ?b then _ else _) => destruct b
  | |- respects _ _ => solve [eauto with flow]
  | |- nothrow _ => solve [eauto with flow]
  end.

(** [run_bind H] rewrites a goal [bind m k s = ...] or [fst (bind m k s)]
    with the known run [H : m s = (o, s')] of the first computation. *)
Ltac run_bind H :=
  first [ rewrite (bind_Ok _ _ _ _ _ H)
        | rewrite (bind_Throw _ _ _ _ _ H)
        | rewrite (bind_OutOfFuel _ _ _ _ H) ].

(** Unfold the monad plumbing of a goal without unfolding the model's
    own definitions. *)
Ltac flow_simpl :=
  repeat (autorewrite with flow; cbn [bind ret get_st put_st modify_st throw
                                       out_of_fuel fst snd]).

(** ** Shared lemmas on lists and options *)

(** stdpp's [fmap] on lists and the Standard Library's [map]. *)
Lemma fmap_list_map {A B} (f : A -> B) (l : list A) : f <$> l = map f l.
Proof. induction l as [|x l IH]; cbn; [done|by rewrite IH]. Qed.

Lemma length_filter_app {A} (P : A -> Prop) `{!∀ x, Decision (P x)} (l1 l2 : list A) :
  length (filter P (l1 ++ l2)) = length (filter P l1) + length (filter P l2).
Proof. by rewrite filter_app, length_app. Qed.

Lemma Z_of_nat_succ_add (n : nat) (z : Z) : (Z.of_nat (S n) + z = Z.of_nat n + (z + 1))%Z.
Proof. lia. Qed.
