(* ===== verification/Js.v ===== *)
(** * JavaScript values as the bot manipulates them

    The source is untyped JavaScript: API answers, the persisted session
    record, the options object of [makeRequest] and the request headers
    are plain objects.  [JVal] models those values; objects are
    association lists in insertion order, as JavaScript keeps them.

    The operations are the language constructs the source uses:
    optional chaining [v?.k] ([jget]) and plain access [v.k], which throws
    on [null]/[undefined] ([jget_strict]); assignment [v[k] = x] ([jset]);
    object spread ([spread]); truthiness ([truthy]); loose equality with a
    number ([loose_eq_num]); the relational operators against a possibly
    [undefined] operand ([num_le], [num_gt]), which are false on NaN;
    strict equality ([strict_eq]); [String(v)] and template literals
    ([to_str]); [JSON.stringify] ([stringify], without string escaping);
    [Array.prototype.find]/[filter]/[includes].

    Numbers are integers ([Z]): the code only handles status codes,
    counters, task ids and millisecond timestamps.  [ToNumber] of a string
    reads a decimal numeral and is NaN otherwise.  A [Date] object is
    [JDate ms]; [JSON.stringify] followed by [JSON.parse] is modelled as
    the identity on [JVal] (the persisted form of a value is the value). *)

From S2P Require Import Prelude.
From Stdlib Require Import Ascii.

Local Open Scope string_scope.
Local Set Warnings "-register-all".

Inductive JVal : Type :=
  | JUndef
  | JNull
  | JBool (b : bool)
  | JNum (n : Z)
  | JStr (s : string)
  | JArr (xs : list JVal)
  | JObj (fields : list (string * JVal))
  | JDate (ms : Z).

(** The exceptions the modelled code can raise. *)
Inductive Exn : Type :=
  | TypeError (msg : string)
  | ReferenceError (name : string)
  | JsError (msg : string).

(** ** Property access *)

Fixpoint assoc_get (fs : list (string * JVal)) (k : string) : JVal :=
  match fs with
  | [] => JUndef
  | (k', v) :: fs' => if String.eqb k' k then v else assoc_get fs' k
  end.

(** [v?.k]: [undefined] on a non-object or a missing key. *)
Definition jget (v : JVal) (k : string) : JVal :=
  match v with
  | JObj fs => assoc_get fs k
  | _ => JUndef
  end.

(** [v.k]: a [TypeError] on [null] and [undefined]. *)
Definition jget_strict (v : JVal) (k : string) : option JVal :=
  match v with
  | JUndef | JNull => None
  | _ => Some (jget v k)
  end.

Fixpoint assoc_set (fs : list (string * JVal)) (k : string) (x : JVal)
    : list (string * JVal) :=
  match fs with
  | [] => [(k, x)]
  | (k', v) :: fs' =>
      if String.eqb k' k then (k', x) :: fs' else (k', v) :: assoc_set fs' k x
  end.

(** [v[k] = x] on an object: replaces the key in place or appends it. *)
Definition jset (v : JVal) (k : string) (x : JVal) : JVal :=
  match v with
  | JObj fs => JObj (assoc_set fs k x)
  | _ => v
  end.

Definition obj_fields (v : JVal) : list (string * JVal) :=
  match v with
  | JObj fs => fs
  | _ => []
  end.

(** [{ ...a, ...b }]: the keys of [b] override those of [a]; spreading
    [undefined] or [null] adds nothing. *)
Definition spread (a b : JVal) : JVal :=
  JObj (fold_left (fun acc kv => assoc_set acc kv.1 kv.2) (obj_fields b) (obj_fields a)).

(** ** Conversions and comparisons *)

Definition truthy (v : JVal) : bool :=
  match v with
  | JUndef | JNull => false
  | JBool b => b
  | JNum n => negb (n =? 0)%Z
  | JStr s => negb (String.eqb s "")
  | JArr _ | JObj _ | JDate _ => true
  end.

Definition digit_val (c : ascii) : option Z :=
  let n := nat_of_ascii c in
  if (48 <=? n)%nat && (n <=? 57)%nat then Some (Z.of_nat n - 48)%Z else None.

Fixpoint parse_digits (s : string) (acc : Z) : option Z :=
  match s with
  | EmptyString => Some acc
  | String c s' =>
      match digit_val c with
      | Some d => parse_digits s' (10 * acc + d)%Z
      | None => None
      end
  end.

(** [ToNumber]; [None] is NaN. *)
Definition to_number (v : JVal) : option Z :=
  match v with
  | JNum n => Some n
  | JNull => Some 0%Z
  | JBool b => Some (if b then 1 else 0)%Z
  | JStr s => parse_digits s 0
  | JDate ms => Some ms
  | JUndef | JArr _ | JObj _ => None
  end.

(** [v == n] for a number literal [n]: [null] and [undefined] equal no
    number; booleans and strings are converted. *)
Definition loose_eq_num (v : JVal) (n : Z) : bool :=
  match v with
  | JNum m => (m =? n)%Z
  | JBool _ | JStr _ =>
      match to_number v with Some m => (m =? n)%Z | None => false end
  | _ => false
  end.

(** [a <= v] and [a > v] for a number [a]: false when [v] is NaN, as
    with [undefined]. *)
Definition num_le (a : Z) (v : JVal) : bool :=
  match to_number v with Some b => (a <=? b)%Z | None => false end.

Definition num_gt (a : Z) (v : JVal) : bool :=
  match to_number v with Some b => (b <? a)%Z | None => false end.

(** [a === b] on primitives; distinct object literals are never equal. *)
Definition strict_eq (a b : JVal) : bool :=
  match a, b with
  | JUndef, JUndef | JNull, JNull => true
  | JBool x, JBool y => Bool.eqb x y
  | JNum x, JNum y => (x =? y)%Z
  | JStr x, JStr y => String.eqb x y
  | _, _ => false
  end.

Definition dq : string := String "034"%char EmptyString.

Fixpoint join (sep : string) (l : list string) : string :=
  match l with
  | [] => ""
  | [x] => x
  | x :: l' => x ++ sep ++ join sep l'
  end.

(** [String(v)], as template literals render a value. *)
Fixpoint to_str (v : JVal) : string :=
  match v with
  | JUndef => "undefined"
  | JNull => "null"
  | JBool b => if b then "true" else "false"
  | JNum n => pretty n
  | JStr s => s
  | JArr xs =>
      join "," ((fix go (l : list JVal) : list string :=
                   match l with
                   | [] => []
                   | JUndef :: l' | JNull :: l' => "" :: go l'
                   | x :: l' => to_str x :: go l'
                   end) xs)
  | JObj _ => "[object Object]"
  | JDate ms => "Date(" ++ pretty ms ++ ")"
  end.

(** [JSON.stringify(v)]; fields holding [undefined] are omitted. *)
Fixpoint stringify (v : JVal) : string :=
  match v with
  | JUndef => "undefined"
  | JNull => "null"
  | JBool b => if b then "true" else "false"
  | JNum n => pretty n
  | JStr s => dq ++ s ++ dq
  | JArr xs =>
      "[" ++ join "," ((fix go (l : list JVal) : list string :=
                          match l with
                          | [] => []
                          | JUndef :: l' => "null" :: go l'
                          | x :: l' => stringify x :: go l'
                          end) xs) ++ "]"
  | JObj fs =>
      "{" ++ join "," ((fix go (l : list (string * JVal)) : list string :=
                          match l with
                          | [] => []
                          | (_, JUndef) :: l' => go l'
                          | (k, x) :: l' => (dq ++ k ++ dq ++ ":" ++ stringify x) :: go l'
                          end) fs) ++ "}"
  | JDate ms => dq ++ "Date(" ++ pretty ms ++ ")" ++ dq
  end.

(** [arr.find(p)]: [None] is the [TypeError] of calling [find] on a
    non-array (e.g. [null.find]); a miss is [undefined]. *)
Definition js_find (p : JVal -> bool) (v : JVal) : option JVal :=
  match v with
  | JArr xs => Some (match List.find p xs with Some x => x | None => JUndef end)
  | _ => None
  end.

Definition js_filter (p : JVal -> bool) (v : JVal) : option (list JVal) :=
  match v with
  | JArr xs => Some (List.filter p xs)
  | _ => None
  end.

Definition js_includes (xs : list JVal) (x : JVal) : bool :=
  existsb (strict_eq x) xs.

Definition ascii_lower (c : ascii) : ascii :=
  let n := nat_of_ascii c in
  if (65 <=? n)%nat && (n <=? 90)%nat then ascii_of_nat (n + 32) else c.

Fixpoint to_lower (s : string) : string :=
  match s with
  | EmptyString => EmptyString
  | String c s' => String (ascii_lower c) (to_lower s')
  end.

(** [s] starts with [p]. *)
Fixpoint prefix_of (p s : string) : bool :=
  match p, s with
  | EmptyString, _ => true
  | String a p', String b s' => Ascii.eqb a b && prefix_of p' s'
  | String _ _, EmptyString => false
  end.

(** [/sub/i.test(s)] for a literal lower-case pattern [sub]: some suffix
    of the lower-cased [s] starts with [sub]. *)
Fixpoint contains (s sub : string) : bool :=
  prefix_of sub s || match s with EmptyString => false | String _ s' => contains s' sub end.

Definition test_ci (sub : string) (v : JVal) : bool := contains (to_lower (to_str v)) sub.

(** Whether a value is an object, the only values [jset] writes into. *)
Definition is_obj (v : JVal) : bool := match v with JObj _ => true | _ => false end.

(** [null] and [undefined]: reading a property of them throws. *)
Definition nullish (v : JVal) : bool := match v with JUndef | JNull => true | _ => false end.

(** The message of the [TypeError] thrown by reading [k] of a nullish
    value, as V8 words it. *)
Definition read_error (v : JVal) (k : string) : string :=
  "Cannot read properties of " ++ (if strict_eq v JNull then "null" else "undefined") ++
  " (reading '" ++ k ++ "')".

(** [arr.find(p)] and [arr.filter(p)] with a predicate that reads a
    property of each element it visits: [None] is the [TypeError] of a
    non-array receiver or of a nullish element reached by the scan. *)
Fixpoint find_strict (p : JVal -> bool) (xs : list JVal) : option JVal :=
  match xs with
  | [] => Some JUndef
  | x :: xs' => if nullish x then None else if p x then Some x else find_strict p xs'
  end.

Fixpoint filter_strict (p : JVal -> bool) (xs : list JVal) : option (list JVal) :=
  match xs with
  | [] => Some []
  | x :: xs' =>
      if nullish x then None
      else match filter_strict p xs' with
           | Some ys => Some (if p x then x :: ys else ys)
           | None => None
           end
  end.

Definition js_find_strict (p : JVal -> bool) (v : JVal) : option JVal :=
  match v with JArr xs => find_strict p xs | _ => None end.

Definition js_filter_strict (p : JVal -> bool) (v : JVal) : option (list JVal) :=
  match v with JArr xs => filter_strict p xs | _ => None end.

(** [v[k] = x] in strict mode (class bodies are strict): on an object the
    property is written; an array or a date gets a named property that
    [JSON.stringify] ignores; on a primitive or a nullish value it throws
    a [TypeError] ([None]). *)
Definition jassign (v : JVal) (k : string) (x : JVal) : option JVal :=
  match v with
  | JObj _ => Some (jset v k x)
  | JArr _ | JDate _ => Some v
  | _ => None
  end.

(** [error.message] *)
Definition exn_message (e : Exn) : string :=
  match e with
  | TypeError m => m
  | ReferenceError n => n ++ " is not defined"
  | JsError m => m
  end.

(** [new Date(v)] as a time value, for the values the code stores:
    [None] is an invalid date.  Date strings are not parsed. *)
Definition date_value (v : JVal) : option Z :=
  match v with
  | JDate ms | JNum ms => Some ms
  | JBool b => Some (if b then 1 else 0)%Z
  | JNull => Some 0%Z
  | _ => None
  end.

(** ** Lemmas *)

Lemma assoc_get_set_eq fs k x : assoc_get (assoc_set fs k x) k = x.
Proof.
  induction fs as [|[k' v] fs IH]; cbn.
  - by rewrite String.eqb_refl.
  - destruct (String.eqb k' k) eqn:E; cbn; rewrite ?E; [done|]. exact IH.
Qed.

Lemma assoc_get_set_ne fs k k' x :
  k <> k' -> assoc_get (assoc_set fs k x) k' = assoc_get fs k'.
Proof.
  intros Hne. induction fs as [|[k0 v] fs IH]; cbn.
  - destruct (String.eqb_spec k k'); congruence.
  - destruct (String.eqb_spec k0 k) as [->|]; cbn.
    + destruct (String.eqb_spec k k'); congruence.
    + destruct (String.eqb k0 k'); [done|]. exact IH.
Qed.

Lemma jget_jset_eq fs k x : jget (jset (JObj fs) k x) k = x.
Proof. apply assoc_get_set_eq. Qed.

Lemma jget_jset_ne fs k k' x :
  k <> k' -> jget (jset (JObj fs) k x) k' = jget (JObj fs) k'.
Proof. apply assoc_get_set_ne. Qed.

#[export] Hint Rewrite jget_jset_eq : flow.

(** Writing a property of an object keeps an object; reading it back. *)
Lemma jset_is_obj v k x : is_obj v = true -> is_obj (jset v k x) = true.
Proof. by destruct v. Qed.

Lemma jget_jset_obj v k x k' :
  is_obj v = true -> jget (jset v k x) k' = if String.eqb k k' then x else jget v k'.
Proof.
  destruct v as [| | | | | |fs|]; try done. intros _.
  destruct (String.eqb_spec k k') as [<-|Hne].
  - apply jget_jset_eq.
  - by apply jget_jset_ne.
Qed.

Lemma truthy_jget_not_nullish v k : truthy (jget v k) = true -> nullish v = false.
Proof. by destruct v. Qed.

Lemma is_obj_not_nullish v : is_obj v = true -> nullish v = false.
Proof. by destruct v. Qed.

Lemma jassign_obj v k x : is_obj v = true -> jassign v k x = Some (jset v k x).
Proof. by destruct v. Qed.

Lemma filter_strict_ok p xs :
  forallb (fun x => negb (nullish x)) xs = true -> filter_strict p xs = Some (List.filter p xs).
Proof.
  induction xs as [|x xs IH]; cbn; [done|].
  destruct (nullish x); cbn; [done|]. intros H. rewrite IH by exact H.
  by destruct (p x).
Qed.

Lemma find_strict_some p xs :
  forallb (fun x => negb (nullish x)) xs = true -> exists x, find_strict p xs = Some x.
Proof.
  induction xs as [|x xs IH]; cbn; [by eexists|].
  destruct (nullish x); cbn; [done|]. intros H. destruct (p x); [by eexists|]. by apply IH.
Qed.

#[export] Hint Resolve jset_is_obj : flow.

Lemma loose_eq_num_JNum m n : loose_eq_num (JNum m) n = true <-> m = n.
Proof. cbn. apply Z.eqb_eq. Qed.

Lemma num_le_JNum a b : num_le a (JNum b) = true <-> (a <= b)%Z.
Proof. cbn. apply Z.leb_le. Qed.

Lemma num_gt_JNum a b : num_gt a (JNum b) = true <-> (b < a)%Z.
Proof. cbn. apply Z.ltb_lt. Qed.

(** Comparisons with [undefined] are always false: a loop guarded by
    [i <= undefined] runs its body once. *)
Lemma num_le_undef a : num_le a JUndef = false.
Proof. reflexivity. Qed.

Lemma num_gt_undef a : num_gt a JUndef = false.
Proof. reflexivity. Qed.

#[export] Hint Rewrite num_le_undef num_gt_undef : flow.

(** A value is loosely equal to at most one number. *)
Lemma loose_eq_num_unique v a b :
  loose_eq_num v a = true -> loose_eq_num v b = true -> a = b.
Proof.
  unfold loose_eq_num. intros H1 H2.
  repeat case_match; try done; apply Z.eqb_eq in H1, H2; lia.
Qed.

Lemma jget_strict_defined v k : jget v k <> JUndef -> jget_strict v k = Some (jget v k).
Proof. by destruct v. Qed.

Lemma truthy_jget_defined v k : truthy (jget v k) = true -> jget v k <> JUndef.
Proof. intros H E. by rewrite E in H. Qed.
