(* ===== verification/Wallet.v ===== *)
(** * Base58 and the keypair of [getWalletFromPrivateKey]

    [getWalletFromPrivateKey] ([src/main.js] lines 22-26) decodes the
    base58 private key with [bs58.decode] and builds a Solana keypair
    with [Keypair.fromSecretKey]; [main] then takes the address as
    [publicKey.toBase58()], that is [bs58.encode] of the public key, and
    [auth] sends the signature as [bs58.encode] of the detached
    signature.  [bs58] (the [base-x] codec over the Bitcoin alphabet)
    and [@solana/web3.js] are libraries outside [src/]: their behaviour
    is modelled here as the program relies on it.

    - [convert b_in b_out] is the [base-x] digit conversion: the leading
      zero digits are kept one for one (a [1] of the alphabet for a zero
      byte), the remaining digits are read as a number in base [b_in] and
      written in base [b_out] with no leading zero.  [digits_le] and
      [undigits_le] are the little-endian positional notation; the
      number of digits produced is bounded by a fuel of twice the input
      length, which is enough because [256 <= 58 ^ 2] and [58 <= 256 ^ 2]
      ([convert_roundtrip]).
    - [bs58_encode] and [bs58_decode] map digits to the alphabet and
      back; decoding fails ([None], the [Error('Non-base58 character')]
      of the library) on a character outside the alphabet.
    - [fromSecretKey] checks the size of the secret key and that its
      upper half is the public key of its lower half, as computed by the
      curve primitive [getPublicKey] (a parameter: ed25519 is not
      modelled).

    The theorems: [convert_roundtrip] (conversion to a base and back is
    the identity on digit lists), the bijection between byte lists and
    base58 strings ([bs58_decode_iff]) and the characterisation of the
    keys [getWalletFromPrivateKey] accepts. *)

From S2P Require Import Prelude Js.
From Stdlib Require Import Ascii.

Local Open Scope Z_scope.

(** ** Positional notation *)

Section Radix.
Context (base : Z).

(** The little-endian digits of [n], at most [fuel] of them. *)
Fixpoint digits_le (fuel : nat) (n : Z) : list Z :=
  match fuel with
  | O => []
  | S f => if n <=? 0 then [] else n mod base :: digits_le f (n / base)
  end.

Fixpoint undigits_le (ds : list Z) : Z :=
  match ds with
  | [] => 0
  | d :: ds' => d + base * undigits_le ds'
  end.

(** A digit of the base. *)
Definition is_digit (d : Z) : Prop := 0 <= d < base.
End Radix.

(** The number of leading zero digits of a big-endian digit list. *)
Fixpoint zeroes (ds : list Z) : nat :=
  match ds with
  | d :: ds' => if d =? 0 then S (zeroes ds') else O
  | [] => O
  end.

(** The [base-x] conversion of a big-endian digit list from base [b_in]
    to base [b_out]: leading zeroes one for one, then the value of the
    rest. *)
Definition convert (b_in b_out : Z) (ds : list Z) : list Z :=
  let z := zeroes ds in
  repeat 0 z ++ reverse (digits_le b_out (2 * length ds) (undigits_le b_in (reverse (drop z ds)))).

(** ** The [bs58] codec *)

(** The Bitcoin alphabet of [bs58]: no [0], [O], [I] or [l]. *)
Definition ALPHABET : string :=
  "123456789ABCDEFGHJKLMNPQRSTUVWXYZabcdefghijkmnopqrstuvwxyz".

Definition b58_char (d : Z) : ascii := nth (Z.to_nat d) (String.list_ascii_of_string ALPHABET) "1"%char.

(** The position of [c] in [l], the [ALPHABET_MAP] lookup of [base-x]. *)
Fixpoint index_of (c : ascii) (l : list ascii) : option Z :=
  match l with
  | [] => None
  | x :: l' => if Ascii.eqb x c then Some 0 else Z.succ <$> index_of c l'
  end.

Definition b58_index (c : ascii) : option Z := index_of c (String.list_ascii_of_string ALPHABET).

(** [bs58.encode(bytes)]. *)
Definition bs58_encode (bytes : list Z) : string :=
  String.string_of_list_ascii (b58_char <$> convert 256 58 bytes).

(** [bs58.decode(s)]: [None] is the [Error('Non-base58 character')] the
    library throws. *)
Definition bs58_decode (s : string) : option (list Z) :=
  match mapM b58_index (String.list_ascii_of_string s) with
  | Some ds => Some (convert 58 256 ds)
  | None => None
  end.

(** ** The keypair *)

(** A Solana [Keypair]: the 32-byte public key and the 64-byte secret
    key (private scalar followed by the public key). *)
Record Keypair : Type := mkKeypair {
  kp_publicKey : list Z;
  kp_secretKey : list Z;
}.

(** [Keypair.fromSecretKey(secretKey)] of [@solana/web3.js]: the size
    check, then the comparison, byte by byte over the 32 positions, of
    the stored public key with the one [getPublicKey] computes from the
    private scalar. *)
Definition fromSecretKey (getPublicKey : list Z -> list Z) (secretKey : list Z)
    : (Exn + Keypair)%type :=
  if negb (length secretKey =? 64)%nat then inl (JsError "bad secret key size")
  else
    let publicKey := drop 32 secretKey in
    let computedPublicKey := getPublicKey (take 32 secretKey) in
    if forallb (fun ii => bool_decide (publicKey !! ii = computedPublicKey !! ii)) (seq 0 32)
    then inr (mkKeypair publicKey secretKey)
    else inl (JsError "provided secretKey is invalid").

(** [getWalletFromPrivateKey(privateKeyBase58)] (lines 22-26). *)
Definition getWalletFromPrivateKey (getPublicKey : list Z -> list Z) (privateKeyBase58 : string)
    : (Exn + Keypair)%type :=
  match bs58_decode privateKeyBase58 with
  | None => inl (JsError "Non-base58 character")
  | Some secretKey => fromSecretKey getPublicKey secretKey
  end.

(** ** Lemmas on the positional notation *)

Section RadixLemmas.
Context (base : Z) (Hbase : 1 < base).

Lemma digits_le_digits f n : Forall (is_digit base) (digits_le base f n).
Proof.
  revert n. induction f as [|f IH]; intros n; cbn; [constructor|].
  destruct (n <=? 0); constructor; [|apply IH].
  unfold is_digit. pose proof (Z.mod_pos_bound n base). lia.
Qed.

Lemma undigits_le_bound ds :
  Forall (is_digit base) ds -> 0 <= undigits_le base ds < base ^ Z.of_nat (length ds).
Proof.
  induction 1 as [|d ds Hd _ IH]; cbn [undigits_le length]; [cbn; lia|].
  unfold is_digit in Hd. rewrite Nat2Z.inj_succ, Z.pow_succ_r by lia. nia.
Qed.

(** Enough fuel writes every digit of [n]. *)
Lemma undigits_digits_le f n :
  0 <= n < base ^ Z.of_nat f -> undigits_le base (digits_le base f n) = n.
Proof.
  revert n. induction f as [|f IH]; intros n Hn; cbn [digits_le undigits_le].
  - cbn in Hn. lia.
  - destruct (Z.leb_spec n 0); cbn [undigits_le]; [lia|].
    rewrite Nat2Z.inj_succ, Z.pow_succ_r in Hn by lia.
    rewrite IH; [pose proof (Z.div_mod n base); lia|].
    split; [apply Z.div_pos; lia|]. apply Z.div_lt_upper_bound; lia.
Qed.

(** The digits do not depend on the fuel once it is enough. *)
Lemma digits_le_fuel f1 f2 n :
  n < base ^ Z.of_nat f1 -> (f1 <= f2)%nat -> digits_le base f1 n = digits_le base f2 n.
Proof.
  revert f2 n. induction f1 as [|f1 IH]; intros f2 n Hn Hf.
  - cbn in Hn. destruct f2; cbn; [done|]. by rewrite (proj2 (Z.leb_le n 0)) by lia.
  - destruct f2 as [|f2]; [lia|]. cbn. destruct (Z.leb_spec n 0); [done|].
    rewrite Nat2Z.inj_succ, Z.pow_succ_r in Hn by lia.
    rewrite (IH f2); [done| |lia]. apply Z.div_lt_upper_bound; lia.
Qed.

(** With enough fuel the most significant digit is not zero. *)
Lemma digits_le_last f n :
  0 <= n < base ^ Z.of_nat f -> last (digits_le base f n) <> Some 0.
Proof.
  revert n. induction f as [|f IH]; intros n Hn; cbn [digits_le]; [done|].
  destruct (Z.leb_spec n 0); [done|].
  rewrite Nat2Z.inj_succ, Z.pow_succ_r in Hn by lia.
  assert (Hq : 0 <= n / base < base ^ Z.of_nat f).
  { split; [apply Z.div_pos; lia|]. apply Z.div_lt_upper_bound; lia. }
  destruct (digits_le base f (n / base)) as [|d ds] eqn:Hd.
  - cbn. intros [= H0]. destruct (Z.eq_dec (n / base) 0) as [Hz|Hz].
    + pose proof (Z.div_mod n base). lia.
    + rewrite <- (undigits_digits_le f (n / base)), Hd in Hz by done. done.
  - rewrite last_cons, <- Hd. destruct (last (digits_le base f (n / base))) eqn:Hl.
    + rewrite <- Hl. by apply IH.
    + rewrite Hd in Hl. by apply last_None in Hl.
Qed.

(** A digit list without a most significant zero is the digit list of
    its value. *)
Lemma digits_undigits_le ds :
  Forall (is_digit base) ds -> last ds <> Some 0 ->
  digits_le base (length ds) (undigits_le base ds) = ds.
Proof.
  induction 1 as [|d ds Hd Hds IH]; intros Hl; [done|].
  unfold is_digit in Hd. cbn [length digits_le undigits_le].
  assert (Hl' : last ds <> Some 0) by (destruct ds; [done|exact Hl]).
  specialize (IH Hl'). pose proof (undigits_le_bound ds Hds) as Hb.
  assert (Hpos : 0 < d + base * undigits_le base ds).
  { destruct ds as [|d' ds'].
    - cbn in Hl |- *. assert (d <> 0) by congruence. lia.
    - assert (undigits_le base (d' :: ds') <> 0); [|nia].
      intros H0. rewrite H0 in IH. by destruct (length (d' :: ds')). }
  rewrite (proj2 (Z.leb_gt _ 0) Hpos), (Z.mul_comm base), Z.mod_add, Z.div_add,
    Z.mod_small, Z.div_small by lia.
  by rewrite Z.add_0_l, IH.
Qed.
End RadixLemmas.

(** ** The conversion between two bases *)

Lemma zeroes_split ds : repeat 0 (zeroes ds) ++ drop (zeroes ds) ds = ds.
Proof.
  induction ds as [|d ds IH]; [done|]. cbn.
  destruct (Z.eqb_spec d 0) as [->|]; [cbn; by rewrite IH|done].
Qed.

Lemma zeroes_head ds : head (drop (zeroes ds) ds) <> Some 0.
Proof.
  induction ds as [|d ds IH]; [done|]. cbn.
  destruct (Z.eqb_spec d 0); [exact IH|cbn; congruence].
Qed.

Lemma zeroes_repeat z l : head l <> Some 0 -> zeroes (repeat 0 z ++ l) = z.
Proof.
  intros Hl. induction z as [|z IH]; cbn; [|by rewrite IH].
  destruct l as [|d l]; [done|]. cbn in Hl |- *.
  destruct (Z.eqb_spec d 0); [congruence|done].
Qed.

(** [k] digits of base [b1] fit in [2 k] digits of base [b2]. *)
Lemma pow_double b1 b2 k :
  1 < b1 -> b1 <= b2 ^ 2 -> b1 ^ Z.of_nat k <= b2 ^ Z.of_nat (2 * k).
Proof.
  intros H1 H2. rewrite Nat2Z.inj_mul, Z.pow_mul_r by lia.
  apply Z.pow_le_mono_l. lia.
Qed.

(** Two sufficient fuels give the same digits. *)
Lemma digits_le_fuel_eq b f1 f2 n :
  1 < b -> n < b ^ Z.of_nat f1 -> n < b ^ Z.of_nat f2 -> digits_le b f1 n = digits_le b f2 n.
Proof.
  intros Hb H1 H2. destruct (Nat.le_ge_cases f1 f2).
  - by apply digits_le_fuel.
  - symmetry. by apply digits_le_fuel.
Qed.

Lemma convert_digits b1 b2 ds : 1 < b2 -> Forall (is_digit b2) (convert b1 b2 ds).
Proof.
  intros Hb. unfold convert. apply Forall_app. split.
  - apply Forall_forall. intros x Hx. apply list_elem_of_In, repeat_spec in Hx as ->.
    unfold is_digit. lia.
  - apply Forall_reverse, digits_le_digits. lia.
Qed.

(** The value of the significant digits of [ds], the number both
    conversions go through. *)
Lemma convert_value b1 b2 ds :
  1 < b1 -> 1 < b2 -> b1 <= b2 ^ 2 -> Forall (is_digit b1) ds ->
  let rest := drop (zeroes ds) ds in
  let D := digits_le b2 (2 * length ds) (undigits_le b1 (reverse rest)) in
  convert b1 b2 ds = repeat 0 (zeroes ds) ++ reverse D /\
  undigits_le b2 D = undigits_le b1 (reverse rest) /\
  0 <= undigits_le b1 (reverse rest) < b1 ^ Z.of_nat (length rest) /\
  last D <> Some 0.
Proof.
  intros H1 H2 H12 Hds rest D.
  assert (Hr : Forall (is_digit b1) (reverse rest))
    by (apply Forall_reverse, Forall_drop, Hds).
  pose proof (undigits_le_bound b1 H1 _ Hr) as HN. rewrite length_reverse in HN.
  assert (Hf : undigits_le b1 (reverse rest) < b2 ^ Z.of_nat (2 * length ds)).
  { eapply Z.lt_le_trans; [apply HN|]. etrans; [|apply (pow_double b1); lia].
    apply Z.pow_le_mono_r; [lia|]. unfold rest. rewrite length_drop. lia. }
  split; [done|]. split; [apply undigits_digits_le; lia|].
  split; [done|]. apply digits_le_last; lia.
Qed.

(** Converting to a base and back is the identity on digit lists. *)
Lemma convert_roundtrip b1 b2 ds :
  1 < b1 -> 1 < b2 -> b1 <= b2 ^ 2 -> b2 <= b1 ^ 2 -> Forall (is_digit b1) ds ->
  convert b2 b1 (convert b1 b2 ds) = ds.
Proof.
  intros H1 H2 H12 H21 Hds.
  destruct (convert_value b1 b2 ds H1 H2 H12 Hds) as (Hc & HD & HN & Hl).
  set (rest := drop (zeroes ds) ds) in *.
  set (D := digits_le b2 _ _) in *.
  assert (HDd : Forall (is_digit b2) D) by apply digits_le_digits, H2.
  pose proof (undigits_le_bound b2 H2 D HDd) as HDb.
  unfold convert at 1. rewrite Hc.
  rewrite zeroes_repeat by (rewrite head_reverse; exact Hl).
  rewrite drop_app_length' by (by rewrite repeat_length).
  rewrite reverse_involutive, HD.
  rewrite (digits_le_fuel_eq b1 _ (length (reverse rest))); [| lia | |].
  - rewrite digits_undigits_le, reverse_involutive; [apply zeroes_split|lia| |].
    + apply Forall_reverse, Forall_drop, Hds.
    + rewrite last_reverse. apply zeroes_head.
  - rewrite <- HD. eapply Z.lt_le_trans; [apply HDb|]. etrans; [apply (pow_double b2 b1); lia|].
    apply Z.pow_le_mono_r; [lia|]. rewrite length_app, length_reverse. lia.
  - rewrite length_reverse. lia.
Qed.


(** ** The alphabet *)

Lemma index_of_Some c l d :
  index_of c l = Some d -> 0 <= d /\ (Z.to_nat d < length l)%nat /\ nth (Z.to_nat d) l "1"%char = c.
Proof.
  revert d. induction l as [|x l IH]; intros d H; cbn in H; [done|].
  destruct (Ascii.eqb_spec x c) as [<-|]; [injection H as <-; cbn; split; [lia|split; [lia|done]]|].
  destruct (index_of c l) as [d'|]; cbn in H; [|done]. injection H as <-.
  destruct (IH d' eq_refl) as (Hd & Hlt & Hn).
  rewrite Z2Nat.inj_succ by lia. cbn. split; [lia|]. split; [lia|done].
Qed.

Lemma index_of_nth l i :
  NoDup l -> (i < length l)%nat -> index_of (nth i l "1"%char) l = Some (Z.of_nat i).
Proof.
  intros Hnd. revert i. induction Hnd as [|x l Hx Hnd IH]; intros i Hi; cbn in Hi; [lia|].
  destruct i as [|i]; cbn.
  - by rewrite (proj2 (Ascii.eqb_eq x x) eq_refl).
  - destruct (Ascii.eqb_spec x (nth i l "1"%char)) as [Heq|].
    + destruct Hx. rewrite Heq. apply list_elem_of_In, nth_In. lia.
    + rewrite IH by lia. cbn. f_equal. lia.
Qed.

Lemma ALPHABET_NoDup : NoDup (String.list_ascii_of_string ALPHABET).
Proof. apply (bool_decide_unpack _). by vm_compute. Qed.

Lemma b58_index_char d : 0 <= d < 58 -> b58_index (b58_char d) = Some d.
Proof.
  intros Hd. unfold b58_index, b58_char.
  rewrite index_of_nth; [f_equal; lia|apply ALPHABET_NoDup|].
  change (length (String.list_ascii_of_string ALPHABET)) with 58%nat. lia.
Qed.

Lemma b58_index_Some c d : b58_index c = Some d -> is_digit 58 d /\ b58_char d = c.
Proof.
  intros H. apply index_of_Some in H as (Hd & Hlt & Hn).
  change (length (String.list_ascii_of_string ALPHABET)) with 58%nat in Hlt.
  split; [unfold is_digit; lia|exact Hn].
Qed.

(** Decoding the characters of a string yields base58 digits that spell
    the string back. *)
Lemma mapM_b58_index cs ds :
  mapM b58_index cs = Some ds -> Forall (is_digit 58) ds /\ b58_char <$> ds = cs.
Proof.
  revert ds. induction cs as [|c cs IH]; intros ds H; simplify_option_eq; [done|].
  match goal with Hc : b58_index c = Some _, Hr : mapM b58_index cs = Some _ |- _ =>
    apply b58_index_Some in Hc as [Hd <-]; destruct (IH _ Hr) as [Hf <-] end.
  split; [by constructor|done].
Qed.

(** The bases of [bs58] satisfy the side conditions of [convert_roundtrip]. *)
Lemma bs58_roundtrip_256 ds : Forall (is_digit 256) ds -> convert 58 256 (convert 256 58 ds) = ds.
Proof. apply convert_roundtrip; lia. Qed.

Lemma bs58_roundtrip_58 ds : Forall (is_digit 58) ds -> convert 256 58 (convert 58 256 ds) = ds.
Proof. apply convert_roundtrip; lia. Qed.

(** ** The codec *)

(** [bs58] is a bijection between byte arrays and the strings over its
    alphabet: a string decodes to a byte array exactly when it is the
    encoding of that array.  So [bs58.decode(bs58.encode(b))] is [b],
    [bs58.encode(bs58.decode(s))] is [s] whenever the decoding
    succeeds, and two keys that decode to the same bytes are the same
    string. *)
Theorem bs58_decode_iff s bytes :
  bs58_decode s = Some bytes <-> Forall (is_digit 256) bytes /\ bs58_encode bytes = s.
Proof.
  unfold bs58_decode, bs58_encode. split.
  - destruct (mapM b58_index _) as [ds|] eqn:Hm; [|done]. intros [= <-].
    destruct (mapM_b58_index _ _ Hm) as [Hd Hc].
    split; [apply convert_digits; lia|].
    by rewrite bs58_roundtrip_58, Hc, String.string_of_list_ascii_of_string.
  - intros [Hb <-]. rewrite String.list_ascii_of_string_of_list_ascii.
    rewrite (mapM_fmap_Forall_Some _ _ (convert 256 58 bytes)).
    + by rewrite bs58_roundtrip_256.
    + eapply Forall_impl; [apply convert_digits; lia|]. intros d Hd. by apply b58_index_char.
Qed.

(** ** The keypair *)

(** The byte loop of [fromSecretKey] accepts exactly when the first 32
    computed bytes are the stored public key. *)
Lemma public_key_check (publicKey computed : list Z) :
  length publicKey = 32%nat ->
  forallb (fun ii => bool_decide (publicKey !! ii = computed !! ii)) (seq 0 32) = true <->
  take 32 computed = publicKey.
Proof.
  intros Hl. rewrite forallb_forall. split.
  - intros H. apply list_eq. intros i. destruct (Nat.lt_ge_cases i 32).
    + rewrite lookup_take_lt by done. symmetry. apply (bool_decide_eq_true_1 _), H, in_seq. lia.
    + rewrite lookup_take_ge, lookup_ge_None_2; [done|lia|done].
  - intros H ii Hii%in_seq. apply bool_decide_eq_true_2. rewrite <- H, lookup_take_lt; [done|lia].
Qed.

(** A wallet comes from a key that is the base58 text of 64 bytes whose
    upper half is the public key of the lower half. *)
Lemma getWalletFromPrivateKey_inr getPublicKey key kp :
  getWalletFromPrivateKey getPublicKey key = inr kp ->
  exists secretKey,
    Forall (is_digit 256) secretKey /\ length secretKey = 64%nat /\
    take 32 (getPublicKey (take 32 secretKey)) = drop 32 secretKey /\
    key = bs58_encode secretKey /\ kp = mkKeypair (drop 32 secretKey) secretKey.
Proof.
  unfold getWalletFromPrivateKey, fromSecretKey.
  destruct (bs58_decode key) as [sk|] eqn:Hd; [|done].
  apply bs58_decode_iff in Hd as [Hb <-].
  destruct (Nat.eqb_spec (length sk) 64) as [Hl|]; [|done]. cbn [negb].
  destruct (forallb _ (seq 0 32)) eqn:Hc; [|done]. intros [= <-].
  apply public_key_check in Hc; [|rewrite length_drop; lia].
  by exists sk.
Qed.

(** C10. The keys [getWalletFromPrivateKey] accepts are exactly the base58
    encodings of 64 bytes whose upper half is the public key of the
    lower half; the wallet then holds those bytes as its secret key and
    their upper half as its public key.  Every other string throws:
    a character outside the alphabet, a size other than 64 bytes or a
    public key that does not match. *)
Theorem getWalletFromPrivateKey_accepts getPublicKey key kp :
  getWalletFromPrivateKey getPublicKey key = inr kp <->
  exists secretKey,
    Forall (is_digit 256) secretKey /\ length secretKey = 64%nat /\
    take 32 (getPublicKey (take 32 secretKey)) = drop 32 secretKey /\
    key = bs58_encode secretKey /\ kp = mkKeypair (drop 32 secretKey) secretKey.
Proof.
  split; [apply getWalletFromPrivateKey_inr|].
  intros (sk & Hb & Hl & Hp & -> & ->). unfold getWalletFromPrivateKey, fromSecretKey.
  rewrite (proj2 (bs58_decode_iff _ sk) (conj Hb eq_refl)), Hl. cbn [Nat.eqb negb].
  by rewrite (proj2 (public_key_check (drop 32 sk) (getPublicKey (take 32 sk))
                      ltac:(rewrite length_drop; lia)) Hp).
Qed.

