(* ===== verification/Config.v ===== *)
(** * Configuration, helpers and external collaborators

    [src/main.js] reads three modules that are not under [src/]:
    [config/config.js] (the [settings] object), [utils.js] ([sleep],
    [isTokenExpired], [saveJson], [getRandomNumber], [loadData]) and the
    npm packages it calls (axios, tweetnacl, jwt-decode; bs58 is in [Wallet]).  They are
    modelled here from the spec:

    - [Settings]: the fields of [settings] that the code reads.
    - [Req]/[Resp]: one HTTP call as axios performs it, and its answer:
      a 2xx response with its body, or the error axios throws, with
      [error.status] ([undefined] for a network error),
      [error.response.data] and [error.message].
    - [Env]: the remote server and the other collaborators as functions.
      [srv n rq] is the answer to the [n]-th HTTP call of the run; making
      the answer depend on the call index lets a theorem quantify over
      every behaviour of the network.  Randomness is indexed the same
      way: [random_below n k] is the index the [n]-th draw of
      [Math.random] selects among [k] choices, [random_between n lo hi]
      the value [getRandomNumber(lo, hi)] of [utils.js] returns.
      [sign sk msg] is the 64-byte detached signature
      [nacl.sign.detached(msg, sk)] of tweetnacl; its base58 text is
      computed by the [bs58] model of [Wallet].
    - [isTokenExpired]: a token is valid iff it is a string whose decoded
      expiry claim lies strictly in the future (spec, section 3). *)

From S2P Require Import Prelude Js.

Local Open Scope string_scope.

(** The fields of [config/config.js] that [src/main.js] and
    [src/autoref.js] read, and the list of [config/userAgents.js]. *)
Record Settings : Type := mkSettings {
  USE_PROXY : bool;
  AUTO_TASK : bool;
  AUTO_MINING : bool;
  SKIP_TASKS : list JVal;
  REF_CODE : JVal;
  DELAY_START_BOT : Z * Z;
  MAX_THEADS : Z;
  MAX_THEADS_NO_PROXY : Z;
  user_agents : list string;
}.

(** One axios call: method, url, headers, body ([undefined] for a GET,
    which the code sends without [data]) and the proxy agent ([null] for
    a direct connection). *)
Record Req : Type := mkReq {
  rq_method : string;
  rq_url : string;
  rq_headers : JVal;
  rq_data : JVal;
  rq_agent : JVal;
}.

Inductive Resp : Type :=
  | RespOk (status : Z) (body : JVal)
  | RespErr (status : JVal) (body : JVal) (message : string).

Record Env : Type := mkEnv {
  srv : nat -> Req -> Resp;
  jwt_exp : string -> option Z;
  sign : list Z -> string -> list Z;
  random_between : nat -> Z -> Z -> Z;
  random_below : nat -> nat -> nat;
}.

(** [isTokenExpired(token)] of [utils.js]: the flag and the expiry date
    rendered for the log.  The expiry claim is in seconds, the clock in
    milliseconds. *)
Definition isTokenExpired (env : Env) (now_ms : Z) (token : JVal) : bool * string :=
  match token with
  | JStr t =>
      match jwt_exp env t with
      | Some exp => (negb (now_ms <? exp * 1000)%Z, to_str (JDate (exp * 1000)))
      | None => (true, "")
      end
  | _ => (true, "")
  end.

Lemma isTokenExpired_valid env now t exp :
  jwt_exp env t = Some exp -> (now < exp * 1000)%Z ->
  (isTokenExpired env now (JStr t)).1 = false.
Proof. intros He Hlt. cbn. rewrite He. cbn. by rewrite (proj2 (Z.ltb_lt _ _) Hlt). Qed.

Lemma isTokenExpired_nonstring env now v :
  (forall t, v <> JStr t) -> (isTokenExpired env now v).1 = true.
Proof. intros H. destruct v; try done. by destruct (H s). Qed.
