(* ===== verification/ClientState.v ===== *)
(** * The state of a [ClientAPI] object and the effects it performs

    [Client] holds the fields the constructor of [ClientAPI]
    ([src/main.js], lines 28-53) sets and the methods update: the token,
    the parsed session record [authInfo], the session name, the proxy,
    the headers and the per-client copy of the user-agent cache.
    [World] is what the process shares between accounts: the clock, the
    count of HTTP calls and of random draws, the trace of observable
    events, the files [localStorage.json] (written by [saveJson]) and
    [session_user_agents.json], and the global array [intervalIds] of
    timers.

    Every change of the world is an [Event], and [apply_event] is its
    effect: an HTTP call counts one call, a sleep advances the clock, a
    save overwrites one key of [localStorage.json], [setInterval]
    creates a timer and pushes it on [intervalIds]; [clearInterval]
    cancels a timer and, as in Node.js, leaves the array [intervalIds]
    as it is (whether a timer is still active is read off the trace, see
    [timer_active]); a call of the CAPTCHA
    solver and an append to [accounts.txt] (both of [src/autoref.js])
    only enter the trace.  [CM] is the monad of the
    methods: a state monad over [St] that can throw an [Exn] or run out
    of fuel.  The primitive effects are [log] (lines 124-149), [sleep],
    one HTTP call [http] (answered by the environment's server),
    [saveJson] and the field updates.  The trace is kept newest first.

    [pushes evs s s'] is the frame of a computation that leaves the
    client alone: the world of [s'] is the world of [s] with the events
    [evs] applied.  The step tactics at the end run a computation one
    effect at a time and compose the frames. *)

From S2P Require Import Prelude Js Config.

Local Open Scope string_scope.

(** The per-account input built by [main] (lines 516-527). *)
Record ItemData : Type := mkItem {
  privateKey : string;
  secretKey : list Z;
  address : string;
  item_index : Z;
}.

Record Client : Type := mkClient {
  c_itemData : ItemData;
  c_accountIndex : Z;
  c_proxy : JVal;
  c_proxyIP : JVal;
  c_session_name : JVal;
  c_session_user_agents : JVal;
  c_token : JVal;
  c_authInfo : JVal;
  c_headers : JVal;
  c_baseURL : string;
  c_localStorage : gmap string JVal;
}.

(** The two recurring timers [runAccount] creates. *)
Inductive Job : Type :=
  | JobCheckPoint
  | JobHB.

Record Interval : Type := mkInterval {
  iv_id : nat;
  iv_account : Z;
  iv_job : Job;
  iv_period_ms : Z;
}.

(** The [type] argument of [log]; every other string is ["info"]. *)
Inductive LogType : Type :=
  | LInfo
  | LSuccess
  | LError
  | LWarning
  | LCustom.

Inductive Event : Type :=
  | EvHttp (n : nat) (rq : Req)
  | EvSleep (seconds : Z)
  | EvLog (ty : LogType) (line : string)
  | EvSave (key : string) (v : JVal)
  | EvSaveUserAgents (v : JVal)
  | EvSetInterval (iv : Interval)
  | EvClearInterval (id : nat)
  | EvCaptcha (token : JVal)                (* a call of the CAPTCHA solver *)
  | EvAppend (file : string) (text : string)  (* [fs.appendFileSync] *)
  | EvWriteStore (m : gmap string JVal).      (* [localStorage.json] rewritten whole *)

Record World : Type := mkWorld {
  w_now : Z;
  w_calls : nat;
  w_rand : nat;
  w_trace : list Event;
  w_file : gmap string JVal;
  w_ua_file : JVal;
  w_intervals : list Interval;
  w_next_id : nat;
}.

Record St : Type := mkSt {
  st_c : Client;
  st_w : World;
}.

Abbreviation CM := (st St Exn).

(** The effect of one event on the world, besides its entry in the
    trace. *)
Definition apply_event (e : Event) (w : World) : World :=
  let tr := e :: w_trace w in
  match e with
  | EvHttp _ _ =>
      mkWorld (w_now w) (S (w_calls w)) (w_rand w) tr (w_file w) (w_ua_file w)
        (w_intervals w) (w_next_id w)
  | EvSleep n =>
      mkWorld (w_now w + 1000 * n) (w_calls w) (w_rand w) tr (w_file w) (w_ua_file w)
        (w_intervals w) (w_next_id w)
  | EvSave k v =>
      mkWorld (w_now w) (w_calls w) (w_rand w) tr (<[k := v]> (w_file w)) (w_ua_file w)
        (w_intervals w) (w_next_id w)
  | EvSaveUserAgents v =>
      mkWorld (w_now w) (w_calls w) (w_rand w) tr (w_file w) v (w_intervals w) (w_next_id w)
  | EvSetInterval iv =>
      mkWorld (w_now w) (w_calls w) (w_rand w) tr (w_file w) (w_ua_file w)
        (w_intervals w ++ [iv])%list (S (w_next_id w))
  | EvWriteStore m =>
      mkWorld (w_now w) (w_calls w) (w_rand w) tr m (w_ua_file w) (w_intervals w) (w_next_id w)
  | EvLog _ _ | EvCaptcha _ | EvAppend _ _ | EvClearInterval _ =>
      mkWorld (w_now w) (w_calls w) (w_rand w) tr (w_file w) (w_ua_file w)
        (w_intervals w) (w_next_id w)
  end.

Definition apply_events (evs : list Event) (w : World) : World := foldr apply_event w evs.

(** Node's timer list: the timer [id] is active when the latest event
    about it in the trace (newest first) created it, not cancelled it. *)
Fixpoint timer_active (tr : list Event) (id : nat) : bool :=
  match tr with
  | [] => false
  | EvSetInterval iv :: tr' => if (iv_id iv =? id)%nat then true else timer_active tr' id
  | EvClearInterval id' :: tr' => if (id' =? id)%nat then false else timer_active tr' id
  | _ :: tr' => timer_active tr' id
  end.

(** ** Reading the trace *)

Definition ev_http (e : Event) : option Req :=
  match e with EvHttp _ rq => Some rq | _ => None end.

Definition ev_sleep (e : Event) : option Z :=
  match e with EvSleep n => Some n | _ => None end.

Definition ev_log (e : Event) : option (LogType * string) :=
  match e with EvLog ty l => Some (ty, l) | _ => None end.

Definition http_reqs (tr : list Event) : list Req := omap ev_http tr.
Definition sleeps (tr : list Event) : list Z := omap ev_sleep tr.
Definition logs (tr : list Event) : list (LogType * string) := omap ev_log tr.

(** ** Field updates *)

Definition with_token (t : JVal) (c : Client) : Client :=
  mkClient (c_itemData c) (c_accountIndex c) (c_proxy c) (c_proxyIP c)
    (c_session_name c) (c_session_user_agents c) t (c_authInfo c) (c_headers c)
    (c_baseURL c) (c_localStorage c).

Definition with_authInfo (a : JVal) (c : Client) : Client :=
  mkClient (c_itemData c) (c_accountIndex c) (c_proxy c) (c_proxyIP c)
    (c_session_name c) (c_session_user_agents c) (c_token c) a (c_headers c)
    (c_baseURL c) (c_localStorage c).

Definition with_proxyIP (ip : JVal) (c : Client) : Client :=
  mkClient (c_itemData c) (c_accountIndex c) (c_proxy c) ip
    (c_session_name c) (c_session_user_agents c) (c_token c) (c_authInfo c) (c_headers c)
    (c_baseURL c) (c_localStorage c).

Definition with_session_name (n : JVal) (c : Client) : Client :=
  mkClient (c_itemData c) (c_accountIndex c) (c_proxy c) (c_proxyIP c)
    n (c_session_user_agents c) (c_token c) (c_authInfo c) (c_headers c)
    (c_baseURL c) (c_localStorage c).

Definition with_session_user_agents (u : JVal) (c : Client) : Client :=
  mkClient (c_itemData c) (c_accountIndex c) (c_proxy c) (c_proxyIP c)
    (c_session_name c) u (c_token c) (c_authInfo c) (c_headers c)
    (c_baseURL c) (c_localStorage c).

Definition with_headers (h : JVal) (c : Client) : Client :=
  mkClient (c_itemData c) (c_accountIndex c) (c_proxy c) (c_proxyIP c)
    (c_session_name c) (c_session_user_agents c) (c_token c) (c_authInfo c) h
    (c_baseURL c) (c_localStorage c).

Section Effects.
Context (cfg : Settings) (env : Env).

Definition upd_client (f : Client -> Client) : CM unit :=
  modify_st (fun s => mkSt (f (st_c s)) (st_w s)).

Definition upd_world (f : World -> World) : CM unit :=
  modify_st (fun s => mkSt (st_c s) (f (st_w s))).

Definition get_client : CM Client := bind get_st (fun s => ret (st_c s)).
Definition get_world : CM World := bind get_st (fun s => ret (st_w s)).

Definition emit (e : Event) : CM unit := upd_world (apply_event e).

Definition set_token (t : JVal) : CM unit := upd_client (with_token t).

(** [new Date()] *)
Definition now_ms : CM Z := bind get_world (fun w => ret (w_now w)).

(** [sleep(seconds)] of [utils.js]: the calling task is suspended for
    that many seconds. *)
Definition sleep (seconds : Z) : CM unit := emit (EvSleep seconds).

(** One axios call, answered by the server. *)
Definition http (rq : Req) : CM Resp :=
  bind get_world (fun w =>
  bind (emit (EvHttp (w_calls w) rq)) (fun _ => ret (srv env (w_calls w) rq))).

(** [saveJson(key, JSON.stringify(v), "localStorage.json")]: the
    record of the key is overwritten, the other keys are kept. *)
Definition saveJson (key : JVal) (v : JVal) : CM unit := emit (EvSave (to_str key) v).

(** The next draw of [Math.random], as the index it selects below [n]. *)
Definition random_index (n : nat) : CM nat :=
  bind get_world (fun w =>
  bind (upd_world (fun w =>
          mkWorld (w_now w) (w_calls w) (S (w_rand w)) (w_trace w) (w_file w)
            (w_ua_file w) (w_intervals w) (w_next_id w)))
    (fun _ => ret (random_below env (w_rand w) n))).

(** [log(msg, type)] (lines 124-149): the line carries the account's
    ordinal, its address and the proxy's IP when proxies are used. *)
Definition log (msg : string) (type : LogType) : CM unit :=
  bind get_client (fun c =>
    let accountPrefix :=
      "[Flow3][Account " ++ pretty (c_accountIndex c + 1)%Z ++ "][" ++
      address (c_itemData c) ++ "]" in
    let ipPrefix :=
      if USE_PROXY cfg then
        (if truthy (c_proxyIP c) then "[" ++ to_str (c_proxyIP c) ++ "]"
         else "[Unknown IP]")
      else "[Local IP]" in
    emit (EvLog type (accountPrefix ++ ipPrefix ++ " " ++ msg))).
End Effects.

(** [console.log] and [console.error] outside [ClientAPI.log]. *)
Definition console_log (msg : string) : CM unit := emit (EvLog LInfo msg).
Definition console_error (msg : string) : CM unit := emit (EvLog LError msg).

(** ** Run lemmas of the primitive effects *)

Section EffectLemmas.
Context (cfg : Settings) (env : Env).

Lemma log_run msg ty s :
  exists line, log cfg msg ty s =
    (Ok tt, mkSt (st_c s) (apply_event (EvLog ty line) (st_w s))).
Proof. eexists. unfold log, get_client, emit, upd_world. cbn. reflexivity. Qed.

Lemma http_run rq s :
  http env rq s =
    (Ok (srv env (w_calls (st_w s)) rq),
     mkSt (st_c s) (apply_event (EvHttp (w_calls (st_w s)) rq) (st_w s))).
Proof. reflexivity. Qed.

Lemma sleep_run n s :
  sleep n s = (Ok tt, mkSt (st_c s) (apply_event (EvSleep n) (st_w s))).
Proof. reflexivity. Qed.

Lemma saveJson_run k v s :
  saveJson k v s = (Ok tt, mkSt (st_c s) (apply_event (EvSave (to_str k) v) (st_w s))).
Proof. reflexivity. Qed.

Lemma set_token_run t s :
  set_token t s = (Ok tt, mkSt (with_token t (st_c s)) (st_w s)).
Proof. reflexivity. Qed.
End EffectLemmas.

(** ** The frame of a computation that only appends events *)

Definition slept (tr : list Event) : Z := foldr Z.add 0%Z (sleeps tr).

(** The file after the writes of [evs] (newest first) are replayed on [m]. *)
Definition apply_saves (evs : list Event) (m : gmap string JVal) : gmap string JVal :=
  foldr (fun e acc => match e with
                      | EvSave k v => <[k := v]> acc
                      | EvWriteStore m' => m'
                      | _ => acc
                      end) m evs.

Definition pushes (evs : list Event) (s s' : St) : Prop :=
  st_c s' = st_c s /\ st_w s' = apply_events evs (st_w s).

Lemma http_reqs_app l1 l2 : http_reqs (l1 ++ l2) = (http_reqs l1 ++ http_reqs l2)%list.
Proof. apply omap_app. Qed.

Lemma sleeps_app l1 l2 : sleeps (l1 ++ l2) = (sleeps l1 ++ sleeps l2)%list.
Proof. apply omap_app. Qed.

Lemma apply_events_app l1 l2 w :
  apply_events (l1 ++ l2)%list w = apply_events l1 (apply_events l2 w).
Proof. apply foldr_app. Qed.

Lemma apply_saves_app l1 l2 m :
  apply_saves (l1 ++ l2)%list m = apply_saves l1 (apply_saves l2 m).
Proof. apply foldr_app. Qed.

(** What the events do to each field of the world. *)
Lemma apply_events_fields evs w :
  w_trace (apply_events evs w) = (evs ++ w_trace w)%list /\
  w_calls (apply_events evs w) = (length (http_reqs evs) + w_calls w)%nat /\
  w_now (apply_events evs w) = (w_now w + 1000 * slept evs)%Z /\
  w_file (apply_events evs w) = apply_saves evs (w_file w).
Proof.
  unfold apply_events, slept, http_reqs, sleeps, apply_saves.
  induction evs as [|e evs (IHt & IHc & IHn & IHf)]; [cbn; repeat split; lia|].
  destruct e; cbn; rewrite ?IHt, ?IHc, ?IHn, ?IHf; repeat split; try reflexivity; lia.
Qed.

Lemma pushes_fields evs s s' :
  pushes evs s s' ->
  st_c s' = st_c s /\
  w_trace (st_w s') = (evs ++ w_trace (st_w s))%list /\
  w_calls (st_w s') = (length (http_reqs evs) + w_calls (st_w s))%nat /\
  w_now (st_w s') = (w_now (st_w s) + 1000 * slept evs)%Z /\
  w_file (st_w s') = apply_saves evs (w_file (st_w s)).
Proof. intros [Hc ->]. split; [done|]. apply apply_events_fields. Qed.

Lemma pushes_nil s : pushes [] s s.
Proof. by split. Qed.

Lemma pushes_trans evs1 evs2 s1 s2 s3 :
  pushes evs1 s1 s2 -> pushes evs2 s2 s3 -> pushes (evs2 ++ evs1)%list s1 s3.
Proof.
  intros [Hc1 Hw1] [Hc2 Hw2]. split; [congruence|].
  by rewrite apply_events_app, Hw2, Hw1.
Qed.

Section FrameLemmas.
Context (cfg : Settings) (env : Env).

Lemma http_pushes rq s :
  exists s', http env rq s = (Ok (srv env (w_calls (st_w s)) rq), s') /\
             pushes [EvHttp (w_calls (st_w s)) rq] s s'.
Proof. eexists. split; [apply http_run|]. by split. Qed.

Lemma log_pushes msg ty s :
  exists line s', log cfg msg ty s = (Ok tt, s') /\ pushes [EvLog ty line] s s'.
Proof.
  destruct (log_run cfg msg ty s) as [line ->].
  eexists _, _. split; [reflexivity|]. by split.
Qed.

Lemma saveJson_pushes key v s :
  exists s', saveJson key v s = (Ok tt, s') /\ pushes [EvSave (to_str key) v] s s'.
Proof. eexists. split; [apply saveJson_run|]. by split. Qed.

Lemma sleep_pushes n s :
  exists s', sleep n s = (Ok tt, s') /\ pushes [EvSleep n] s s'.
Proof. eexists. split; [apply sleep_run|]. by split. Qed.
End FrameLemmas.

Arguments http : simpl never.
Arguments log : simpl never.
Arguments sleep : simpl never.
Arguments saveJson : simpl never.

(** [pushes] facts compose along a run: [chain_pushes] folds every pair
    of consecutive frames in the context into one. *)
Ltac chain_pushes :=
  repeat match goal with
  | H1 : pushes ?e1 ?a ?b, H2 : pushes ?e2 ?b ?c |- _ =>
      pose proof (pushes_trans _ _ _ _ _ H1 H2); clear H1 H2
  end.

(** Close a frame goal with the composed frame of the context. *)
Ltac exact_pushes :=
  match goal with H : pushes _ ?a ?b |- pushes _ ?a ?b => exact H end.

(** One step of a run through an HTTP call, a log line or a sleep:
    the bind is replaced by its continuation and the frame recorded. *)
(** Reassociate the binds applied to the current state, so that the
    next effect is at the head. *)
Ltac flatten := repeat rewrite bind_assoc.

Ltac step_http :=
  flatten;
  match goal with
  | |- context [bind (http ?env ?rq) _ ?s] =>
      let s1 := fresh "s" in let Hp := fresh "Hp" in let Hr := fresh "Hr" in
      destruct (http_pushes env rq s) as (s1 & Hr & Hp);
      rewrite (bind_Ok _ _ _ _ _ Hr); clear Hr
  end.

Ltac step_log :=
  flatten;
  match goal with
  | |- context [bind (log ?cfg ?msg ?ty) _ ?s] =>
      let s1 := fresh "s" in let Hp := fresh "Hp" in let Hr := fresh "Hr" in
      let l := fresh "line" in
      destruct (log_pushes cfg msg ty s) as (l & s1 & Hr & Hp);
      rewrite (bind_Ok _ _ _ _ _ Hr); clear Hr
  end.

Ltac step_sleep :=
  flatten;
  match goal with
  | |- context [bind (sleep ?n) _ ?s] =>
      let s1 := fresh "s" in let Hp := fresh "Hp" in let Hr := fresh "Hr" in
      destruct (sleep_pushes n s) as (s1 & Hr & Hp);
      rewrite (bind_Ok _ _ _ _ _ Hr); clear Hr
  end.

Ltac step_save :=
  flatten;
  match goal with
  | |- context [bind (saveJson ?key ?v) _ ?s] =>
      let s1 := fresh "s" in let Hp := fresh "Hp" in let Hr := fresh "Hr" in
      destruct (saveJson_pushes key v s) as (s1 & Hr & Hp);
      rewrite (bind_Ok _ _ _ _ _ Hr); clear Hr
  end.

Lemma get_client_run s : get_client s = (Ok (st_c s), s).
Proof. reflexivity. Qed.

Lemma now_ms_run s : now_ms s = (Ok (w_now (st_w s)), s).
Proof. reflexivity. Qed.

Lemma upd_client_run f s : upd_client f s = (Ok tt, mkSt (f (st_c s)) (st_w s)).
Proof. reflexivity. Qed.

Lemma emit_run e s : emit e s = (Ok tt, mkSt (st_c s) (apply_event e (st_w s))).
Proof. reflexivity. Qed.

(** The world after one draw of [Math.random]. *)
Definition bump_rand (w : World) : World :=
  mkWorld (w_now w) (w_calls w) (S (w_rand w)) (w_trace w) (w_file w) (w_ua_file w)
    (w_intervals w) (w_next_id w).

Lemma random_index_run env n s :
  random_index env n s =
    (Ok (random_below env (w_rand (st_w s)) n), mkSt (st_c s) (bump_rand (st_w s))).
Proof. reflexivity. Qed.

Lemma get_world_run s : get_world s = (Ok (st_w s), s).
Proof. reflexivity. Qed.

Lemma emit_pushes e s : pushes [e] s (mkSt (st_c s) (apply_event e (st_w s))).
Proof. by split. Qed.

(** Move the client of a later state back along the frames of the
    context. *)
Ltac client_back :=
  repeat match goal with
  | H : pushes _ ?a ?b |- context [st_c ?b] => rewrite (proj1 H)
  end.

(** Record the client equation of every frame of the context, so that
    it survives [chain_pushes]. *)
Ltac keep_clients :=
  repeat match goal with
  | H : pushes _ ?a ?b |- _ =>
      lazymatch goal with
      | _ : st_c b = st_c a |- _ => fail
      | _ => pose proof (proj1 H : st_c b = st_c a)
      end
  end.

Ltac clients_back :=
  repeat match goal with
  | H : st_c ?b = st_c ?a |- context [st_c ?b] => rewrite H
  end.

(** Step an [emit], recording its frame. *)
Ltac step_emit :=
  flatten;
  match goal with
  | |- context [bind (emit ?e) _ ?s] =>
      let Hp := fresh "Hp" in pose proof (emit_pushes e s) as Hp;
      rewrite (bind_Ok _ _ _ _ _ (emit_run e s))
  end.

Ltac step_read :=
  flatten;
  match goal with
  | |- context [bind get_world _ ?s] => rewrite (bind_Ok _ _ _ _ _ (get_world_run s))
  | |- context [bind (emit ?e) _ ?s] => rewrite (bind_Ok _ _ _ _ _ (emit_run e s))
  | |- context [bind (random_index ?env ?n) _ ?s] =>
      rewrite (bind_Ok _ _ _ _ _ (random_index_run env n s))
  | |- context [bind (upd_client ?f) _ ?s] => rewrite (bind_Ok _ _ _ _ _ (upd_client_run f s))
  | |- context [bind get_client _ ?s] => rewrite (bind_Ok _ _ _ _ _ (get_client_run s))
  | |- context [bind now_ms _ ?s] => rewrite (bind_Ok _ _ _ _ _ (now_ms_run s))
  end.

Ltac step_effect := first [step_read | step_http | step_log | step_sleep | step_save].

(** ** Only the token changes

    [same_but_token s s']: the client of [s'] is the client of [s] but
    for the [token] field.  The request pipeline and the token lifecycle
    preserve it (see [Pipeline] and [Session]). *)

Definition same_but_token (s s' : St) : Prop :=
  with_token (c_token (st_c s)) (st_c s') = st_c s.

#[export] Instance same_but_token_preorder : PreOrder same_but_token.
Proof.
  split.
  - intros [[] w]. reflexivity.
  - intros [[] w1] [[] w2] [[] w3]. unfold same_but_token, with_token; cbn.
    intros H12 H23. injection H12. injection H23. intros. subst. reflexivity.
Qed.

Lemma same_but_token_authInfo s s' :
  same_but_token s s' -> c_authInfo (st_c s') = c_authInfo (st_c s).
Proof. intros <-. reflexivity. Qed.

Lemma same_but_token_session_name s s' :
  same_but_token s s' -> c_session_name (st_c s') = c_session_name (st_c s).
Proof. intros <-. reflexivity. Qed.

Section EffectInvariants.
Context (cfg : Settings) (env : Env).

Lemma upd_world_same f : respects same_but_token (upd_world f).
Proof. intros [[] w] o s' [= _ <-]. reflexivity. Qed.

Lemma get_client_same : respects same_but_token get_client.
Proof. intros [[] w] o s' [= _ <-]. reflexivity. Qed.

Lemma now_ms_same : respects same_but_token now_ms.
Proof. intros [[] w] o s' [= _ <-]. reflexivity. Qed.

Lemma set_token_same t : respects same_but_token (set_token t).
Proof. intros [[] w] o s' [= _ <-]. reflexivity. Qed.

Lemma log_same msg ty : respects same_but_token (log cfg msg ty).
Proof. intros [[] w] o s' [= _ <-]. reflexivity. Qed.

Lemma http_same rq : respects same_but_token (http env rq).
Proof. intros [[] w] o s' [= _ <-]. reflexivity. Qed.

Lemma sleep_same n : respects same_but_token (sleep n).
Proof. intros [[] w] o s' [= _ <-]. reflexivity. Qed.

Lemma saveJson_same k v : respects same_but_token (saveJson k v).
Proof. intros [[] w] o s' [= _ <-]. reflexivity. Qed.

Lemma upd_world_nothrow f : nothrow (upd_world f).
Proof. by intros s e s'. Qed.
Lemma get_client_nothrow : nothrow get_client.
Proof. by intros s e s'. Qed.
Lemma now_ms_nothrow : nothrow now_ms.
Proof. by intros s e s'. Qed.
Lemma set_token_nothrow t : nothrow (set_token t).
Proof. by intros s e s'. Qed.
Lemma log_nothrow msg ty : nothrow (log cfg msg ty).
Proof. by intros s e s'. Qed.
Lemma http_nothrow rq : nothrow (http env rq).
Proof. by intros s e s'. Qed.
Lemma sleep_nothrow n : nothrow (sleep n).
Proof. by intros s e s'. Qed.
Lemma saveJson_nothrow k v : nothrow (saveJson k v).
Proof. by intros s e s'. Qed.
Lemma emit_same e : respects same_but_token (emit e).
Proof. intros [[] w] o s' [= _ <-]. reflexivity. Qed.
Lemma emit_nothrow e : nothrow (emit e).
Proof. by intros s e' s'. Qed.
End EffectInvariants.

#[export] Hint Resolve upd_world_same get_client_same now_ms_same set_token_same log_same
  http_same sleep_same saveJson_same upd_world_nothrow get_client_nothrow now_ms_nothrow
  set_token_nothrow log_nothrow http_nothrow sleep_nothrow saveJson_nothrow emit_same
  emit_nothrow : flow.

(** ** Growth of the trace

    [trace_grows P s s']: the run from [s] to [s'] appended events to the
    trace, and every HTTP request among them went to a URL satisfying
    [P].  It is a preorder, so the combinators of the prelude lift it
    from the effects to whole methods. *)

Definition trace_grows (P : string -> Prop) (s s' : St) : Prop :=
  exists evs, w_trace (st_w s') = (evs ++ w_trace (st_w s))%list /\
              Forall (fun rq => P (rq_url rq)) (http_reqs evs).

#[export] Instance trace_grows_preorder P : PreOrder (trace_grows P).
Proof.
  split.
  - intros s. exists []. split; [done|constructor].
  - intros s1 s2 s3 (e1 & H1 & F1) (e2 & H2 & F2). exists (e2 ++ e1)%list.
    split; [by rewrite H2, H1, app_assoc|]. rewrite http_reqs_app. by apply Forall_app.
Qed.

Lemma trace_grows_weaken (P Q : string -> Prop) s s' :
  (forall u, P u -> Q u) -> trace_grows P s s' -> trace_grows Q s s'.
Proof. intros HPQ (evs & H & F). exists evs. split; [done|]. eapply Forall_impl; eauto. Qed.

Lemma emit_grows P e :
  (forall n rq, e = EvHttp n rq -> P (rq_url rq)) -> respects (trace_grows P) (emit e).
Proof.
  intros He s o s'. rewrite emit_run. intros [= _ <-]. exists [e]. split; [by destruct e|].
  destruct e; cbn; repeat constructor. by eapply He.
Qed.

Section GrowthLemmas.
Context (cfg : Settings) (env : Env) (P : string -> Prop).

Lemma upd_client_grows f : respects (trace_grows P) (upd_client f).
Proof. intros s o s' [= _ <-]. by exists []. Qed.
Lemma get_client_grows : respects (trace_grows P) get_client.
Proof. intros s o s' [= _ <-]. by exists []. Qed.
Lemma get_world_grows : respects (trace_grows P) get_world.
Proof. intros s o s' [= _ <-]. by exists []. Qed.
Lemma now_ms_grows : respects (trace_grows P) now_ms.
Proof. intros s o s' [= _ <-]. by exists []. Qed.
Lemma set_token_grows t : respects (trace_grows P) (set_token t).
Proof. intros s o s' [= _ <-]. by exists []. Qed.
Lemma random_index_grows n : respects (trace_grows P) (random_index env n).
Proof. intros s o s'. rewrite random_index_run. intros [= _ <-]. by exists []. Qed.
Lemma log_grows msg ty : respects (trace_grows P) (log cfg msg ty).
Proof.
  unfold log. refine (respects_bind _ _ _ _ _); [apply get_client_grows|].
  intros c. apply emit_grows. done.
Qed.
Lemma sleep_grows n : respects (trace_grows P) (sleep n).
Proof. apply emit_grows. done. Qed.
Lemma saveJson_grows k v : respects (trace_grows P) (saveJson k v).
Proof. apply emit_grows. done. Qed.
Lemma http_grows rq : P (rq_url rq) -> respects (trace_grows P) (http env rq).
Proof.
  intros Hu. unfold http. refine (respects_bind _ _ _ _ _); [apply get_world_grows|].
  intros w. refine (respects_bind _ _ _ _ _); [|intros; refine (respects_ret _ _)].
  apply emit_grows. by intros n r [= _ <-].
Qed.
End GrowthLemmas.

#[export] Hint Resolve upd_client_grows get_client_grows get_world_grows now_ms_grows
  set_token_grows random_index_grows log_grows sleep_grows saveJson_grows : flow.

(** [appends evs s s']: the run from [s] to [s'] put [evs] (newest
    first) in front of the trace, whatever it did to the client. *)
Definition appends (evs : list Event) (s s' : St) : Prop :=
  w_trace (st_w s') = (evs ++ w_trace (st_w s))%list.

Lemma pushes_appends evs s s' : pushes evs s s' -> appends evs s s'.
Proof. intros Hp. unfold appends. by destruct (pushes_fields _ _ _ Hp) as (_ & -> & _). Qed.

Lemma appends_trans e1 e2 s1 s2 s3 :
  appends e1 s1 s2 -> appends e2 s2 s3 -> appends (e2 ++ e1) s1 s3.
Proof. unfold appends. intros H1 H2. by rewrite H2, H1, app_assoc. Qed.

Lemma appends_event e s c : appends [e] s (mkSt c (apply_event e (st_w s))).
Proof. by destruct e. Qed.

Lemma appends_nil s : appends [] s s.
Proof. done. Qed.

(** Turn the frames of the context into trace extensions and compose
    them. *)
Ltac chain_appends :=
  repeat match goal with H : pushes _ _ _ |- _ => apply pushes_appends in H end;
  repeat match goal with
  | H1 : appends ?e1 ?a ?b, H2 : appends ?e2 ?b ?c |- _ =>
      pose proof (appends_trans _ _ _ _ _ H1 H2); clear H1 H2
  end.

(** Chronological URLs of the requests among [evs]. *)
Definition urls (evs : list Event) : list string := reverse (map rq_url (http_reqs evs)).

Lemma urls_app e1 e2 : urls (e2 ++ e1) = (urls e1 ++ urls e2)%list.
Proof. unfold urls. by rewrite http_reqs_app, map_app, reverse_app. Qed.

#[export] Hint Rewrite urls_app : flow.

(** A loop that emits one event per element pushes them in order. *)
Lemma for_each_emit_pushes {A} (l : list A) (f : A -> Event) s :
  for_each l (fun x => emit (f x)) s =
  (Ok tt, mkSt (st_c s) (apply_events (reverse (map f l)) (st_w s))).
Proof.
  revert s. induction l as [|x l IH]; intros s; cbn [for_each map]; [by destruct s|].
  rewrite (bind_Ok _ _ _ tt _ (emit_run (f x) s)), IH, reverse_cons, apply_events_app.
  reflexivity.
Qed.

Lemma emit_returns e : returns (emit e).
Proof. intros s. eexists _, _. apply emit_run. Qed.
Lemma get_world_returns : returns get_world.
Proof. intros s. eexists _, _. apply get_world_run. Qed.
Lemma http_returns env rq : returns (http env rq).
Proof. intros s. eexists _, _. apply http_run. Qed.
Lemma saveJson_returns k v : returns (saveJson k v).
Proof. apply emit_returns. Qed.
Lemma sleep_returns n : returns (sleep n).
Proof. apply emit_returns. Qed.

#[export] Hint Resolve emit_returns get_world_returns http_returns saveJson_returns
  sleep_returns : flow.
