(* ===== verification/Samples.v ===== *)
(** * Concrete inputs for the witnesses

    A configuration without proxies, an environment whose server is a
    parameter, and one account's client and world at the start of a run.
    The clock reads 14 November 2023; a JWT named ["expired"] expired at
    the epoch, every other token expires in 2100. *)

From S2P Require Import Prelude Js Config ClientState.

Local Open Scope string_scope.

Definition sample_cfg : Settings :=
  mkSettings false true true [JNum 7] (JStr "REF") (1, 2)%Z 10%Z 10%Z
    ["Mozilla/5.0 (Linux; Android 13)"].

Definition sample_env (server : nat -> Req -> Resp) : Env :=
  mkEnv server
    (fun t => if String.eqb t "expired" then Some 0%Z else Some 4102444800%Z)
    (fun _ _ => [83; 73; 71]%Z) (fun _ lo _ => lo) (fun _ _ => 0%nat).

Definition sample_item : ItemData := mkItem "PRIVATE" [1; 2; 3]%Z "WALLET" 0.

Definition sample_client (token authInfo : JVal) : Client :=
  mkClient sample_item 0 JNull JNull (JStr "WALLET") (JObj []) token authInfo (JObj [])
    "https://api.flow3.tech/api" ∅.

Definition sample_world : World := mkWorld 1700000000000%Z 0 0 [] ∅ (JObj []) [] 0.

Definition sample_state (token authInfo : JVal) : St :=
  mkSt (sample_client token authInfo) sample_world.

(** Servers that answer every call alike. *)
Definition answer_all (r : Resp) : nat -> Req -> Resp := fun _ _ => r.

Definition sample_provider : bool -> CM JVal := fun _ => ret (JStr "fresh").
