(* ===== verification/Pipeline.v ===== *)
(** * The request pipeline: [makeRequest] and the endpoint wrappers

    [makeRequest(url, method, data, options)] ([src/main.js], lines
    166-238) builds the headers once, then runs a do-while loop of
    attempts.  An answer in the 2xx range returns a success object.  An
    error is logged, then classified by its status: 401 refreshes the
    token through [getValidToken(true)] and re-enters [makeRequest] from
    scratch; 400 returns a failure at once; 429 sleeps 60 seconds and
    falls through to the retry step, which sleeps 5 seconds and loops
    while [currRetries <= retries].

    The token provider is a parameter [gvt] of the model, so the
    pipeline's theorems hold for any provider; [Session] instantiates it
    with [getValidToken], which calls back into [makeRequest].

    The retry loop is [request_loop]: one fuel unit per attempt, the
    401 re-entry passed in as the computation [again].  [retry_spec] is
    the pipeline's policy as a pure function of the sequence of answers;
    [request_loop_refines] shows that the loop implements it whenever no
    answer is a 401, and [makeRequest_refines] lifts this to
    [makeRequest]. *)

From S2P Require Import Prelude Js Wallet Config ClientState Samples.

Local Open Scope string_scope.

(** The object [makeRequest] returns. *)
Record ReqResult : Type := mkRes {
  rr_status : JVal;
  rr_success : bool;
  rr_data : JVal;
  rr_error : JVal;
}.

Definition failure (status err : JVal) : ReqResult := mkRes status false JNull err.

(** The default value of the [options] parameter (lines 170-175). *)
Definition default_options : JVal :=
  JObj [("retries", JNum 2); ("isAuth", JBool false); ("extraHeaders", JObj []);
        ("refreshToken", JNull)].

(** Lines 177-190: [{...this.headers, ...extraHeaders}], then the bearer
    token unless [isAuth], then the refresh token when one is given. *)
Definition request_headers (c : Client) (options : JVal) : JVal :=
  let headers := spread (c_headers c) (jget options "extraHeaders") in
  let headers :=
    if negb (truthy (jget options "isAuth"))
    then jset headers "authorization" (JStr ("Bearer " ++ to_str (c_token c)))
    else headers in
  let refreshToken := jget options "refreshToken" in
  if truthy refreshToken
  then jset headers "authorization" (JStr ("Bearer " ++ to_str refreshToken))
  else headers.

(** Lines 192-195: the proxy agent, [null] without proxies. *)
Definition proxy_agent (cfg : Settings) (c : Client) : JVal :=
  if USE_PROXY cfg then c_proxy c else JNull.

(** The axios call of lines 202-209; a GET carries no body. *)
Definition axios_request (method url : string) (headers data agent : JVal) : Req :=
  mkReq method url headers
    (if String.eqb (to_lower method) "get" then JUndef else data) agent.

(** The 2xx branch (line 210-211): the [data] field of the body when it
    is truthy, the body otherwise. *)
Definition success_result (status : Z) (body : JVal) : ReqResult :=
  if truthy (jget body "data") then mkRes (JNum status) true (jget body "data") JNull
  else mkRes (JNum status) true body JNull.

(** The message kept from an error (line 214). *)
Definition error_message (body : JVal) (message : string) : JVal :=
  if truthy (jget body "message") then jget body "message" else JStr message.

Section Pipeline.
Context (cfg : Settings) (env : Env).

(** The do-while loop of lines 200-236, from attempt [currRetries]. *)
Fixpoint request_loop (k : nat) (gvt : bool -> CM JVal) (again : CM ReqResult)
    (url method : string) (data retries headers agent : JVal) (currRetries : Z)
    : CM ReqResult :=
  match k with
  | O => out_of_fuel
  | S k' =>
    resp <- http env (axios_request method url headers data agent);;
    match resp with
    | RespOk status body => ret (success_result status body)
    | RespErr errorStatus ebody emsg =>
      let errorMessage := error_message ebody emsg in
      log cfg ("Request failed: " ++ url ++ " | Status: " ++ to_str errorStatus ++
               " | " ++ stringify (if truthy errorMessage then errorMessage else JObj []) ++
               "...") LWarning;;
      if loose_eq_num errorStatus 401 then
        log cfg ("Unauthorized: " ++ url ++ " | trying get new token...") LInfo;;
        token <- gvt true;;
        set_token token;;
        again
      else if loose_eq_num errorStatus 400 then
        log cfg ("Invalid request for " ++ url ++ ", maybe have new update from server" ++
                 " | contact: https://t.me/airdrophuntersieutoc to get new update!") LError;;
        ret (failure errorStatus errorMessage)
      else
        (if loose_eq_num errorStatus 429 then
           log cfg ("Rate limit " ++ stringify errorMessage ++ ", waiting 60s to retries")
             LWarning;;
           sleep 60
         else ret tt);;
        if num_gt currRetries retries then ret (failure errorStatus errorMessage)
        else
          sleep 5;;
          if num_le (currRetries + 1) retries
          then request_loop k' gvt again url method data retries headers agent
                 (currRetries + 1)
          else ret (failure errorStatus errorMessage)
    end
  end.

(** [makeRequest] (lines 166-238).  On a 401 the loop re-enters
    [makeRequest] with the same arguments and one fuel unit less. *)
Fixpoint makeRequest (fuel : nat) (gvt : bool -> CM JVal)
    (url method : string) (data options : JVal) : CM ReqResult :=
  match fuel with
  | O => out_of_fuel
  | S f =>
    c <- get_client;;
    request_loop f gvt (makeRequest f gvt url method data options) url method data
      (jget options "retries") (request_headers c options) (proxy_agent cfg c) 0
  end.

(** ** Endpoint wrappers (lines 240-310) *)

Definition login_message : string :=
  "Please sign this message to connect your wallet to Flow 3 and verifying your ownership only.".

Definition extension_origin : JVal :=
  JObj [("extraHeaders",
         JObj [("Origin", JStr "chrome-extension://lhmminnoafalclkgcbokfcngkocoffcp")])].

(** The body of the login request (lines 241-251): the fixed message,
    the wallet address, the base58 signature of the message under the
    account's secret key, and the referral code. *)
Definition login_payload (c : Client) : JVal :=
  let signatureBase58 := bs58_encode (sign env (secretKey (c_itemData c)) login_message) in
  JObj [("message", JStr login_message);
        ("walletAddress", JStr (address (c_itemData c)));
        ("signature", JStr signatureBase58);
        ("referralCode", REF_CODE cfg)].

Definition auth_options : JVal := JObj [("isAuth", JBool true)].

Definition auth (fuel : nat) (gvt : bool -> CM JVal) : CM ReqResult :=
  c <- get_client;;
  makeRequest fuel gvt (c_baseURL c ++ "/v1/user/login") "post" (login_payload c)
    auth_options.

Definition hb (fuel : nat) (gvt : bool -> CM JVal) : CM ReqResult :=
  c <- get_client;;
  makeRequest fuel gvt (c_baseURL c ++ "/v1/bandwidth") "post" JNull extension_origin.

(** [this.authInfo.refreshToken] throws on a [null] record. *)
Definition getRefereshToken (fuel : nat) (gvt : bool -> CM JVal) : CM ReqResult :=
  c <- get_client;;
  match jget_strict (c_authInfo c) "refreshToken" with
  | None => throw (TypeError "Cannot read properties of null (reading 'refreshToken')")
  | Some rt =>
      makeRequest fuel gvt (c_baseURL c ++ "/v1/user/refresh") "post"
        (JObj [("refreshToken", rt)]) (JObj [("refreshToken", rt)])
  end.

Definition get_endpoint (path : string) (fuel : nat) (gvt : bool -> CM JVal)
    : CM ReqResult :=
  c <- get_client;;
  makeRequest fuel gvt (c_baseURL c ++ path) "get" (JObj []) default_options.

Definition getRef := get_endpoint "/v1/ref/stats".
Definition getUserData := get_endpoint "/v1/user/profile".
Definition getTasks := get_endpoint "/v1/tasks/".
Definition getDailyTasks := get_endpoint "/v1/tasks/daily".
Definition getTasksCompleted := get_endpoint "/user-tasks/social/completed".

Definition getBalance (fuel : nat) (gvt : bool -> CM JVal) : CM ReqResult :=
  c <- get_client;;
  makeRequest fuel gvt (c_baseURL c ++ "/v1/point/info") "get" JNull extension_origin.

Definition compleTask (id : JVal) (fuel : nat) (gvt : bool -> CM JVal) : CM ReqResult :=
  c <- get_client;;
  makeRequest fuel gvt (c_baseURL c ++ "/v1/tasks/" ++ to_str id ++ "/complete") "post"
    (JObj []) default_options.

Definition checkin (fuel : nat) (gvt : bool -> CM JVal) : CM ReqResult :=
  c <- get_client;;
  makeRequest fuel gvt (c_baseURL c ++ "/v1/tasks/complete-daily") "post" (JObj [])
    default_options.
End Pipeline.

(** ** The retry policy as a function of the answers

    [retry_spec budget answers n] is what the loop returns when the
    [n]-th call of the run is answered [answers n], the next one
    [answers (S n)], and so on, with [budget] retries left: the result,
    the number of attempts and the pauses in the order they happen. *)

Definition rate_limited (st : JVal) : bool := loose_eq_num st 429.

Fixpoint retry_spec (budget : nat) (answers : nat -> Resp) (n : nat)
    : ReqResult * nat * list Z :=
  match answers n with
  | RespOk status body => (success_result status body, 1%nat, [])
  | RespErr st body msg =>
      if loose_eq_num st 400 then (failure st (error_message body msg), 1%nat, [])
      else
        let pauses := ((if rate_limited st then [60%Z] else []) ++ [5%Z])%list in
        match budget with
        | O => (failure st (error_message body msg), 1%nat, pauses)
        | S b =>
            let '(r, k, ps) := retry_spec b answers (S n) in
            (r, S k, (pauses ++ ps)%list)
        end
  end.

(** The retries left when the counter is [cur]: [retries - cur] for a
    number, none when [retries] is not a number ([undefined]). *)
Definition budget_of (retries : JVal) (cur : Z) : nat :=
  match to_number retries with
  | Some r => Z.to_nat (r - cur)
  | None => O
  end.

Definition unauthorized (r : Resp) : Prop :=
  match r with
  | RespErr st _ _ => loose_eq_num st 401 = true
  | RespOk _ _ => False
  end.

(** ** Lemmas on the retry budget *)

Lemma budget_of_step retries cur :
  num_le (cur + 1) retries = true ->
  budget_of retries cur = S (budget_of retries (cur + 1)) /\
  num_gt (cur + 1) retries = false.
Proof.
  unfold num_le, num_gt, budget_of. destruct (to_number retries) as [r|]; [|done].
  intros Hle%Z.leb_le. split; [lia|]. apply Z.ltb_ge. lia.
Qed.

Lemma budget_of_last retries cur :
  num_gt cur retries = false -> num_le (cur + 1) retries = false ->
  budget_of retries cur = O.
Proof.
  unfold num_le, num_gt, budget_of. destruct (to_number retries) as [r|]; [|done].
  intros Hgt%Z.ltb_ge Hle%Z.leb_gt. lia.
Qed.

Lemma retry_spec_unfold budget answers n :
  retry_spec budget answers n =
  match answers n with
  | RespOk status body => (success_result status body, 1%nat, [])
  | RespErr st body msg =>
      if loose_eq_num st 400 then (failure st (error_message body msg), 1%nat, [])
      else
        let pauses := ((if rate_limited st then [60%Z] else []) ++ [5%Z])%list in
        match budget with
        | O => (failure st (error_message body msg), 1%nat, pauses)
        | S b => let '(r, k, ps) := retry_spec b answers (S n) in (r, S k, (pauses ++ ps)%list)
        end
  end.
Proof. by destruct budget. Qed.

Section LoopTheorems.
Context (cfg : Settings) (env : Env) (gvt : bool -> CM JVal) (again : CM ReqResult)
        (url method : string) (data retries headers agent : JVal).

Local Abbreviation rq := (axios_request method url headers data agent).
Local Abbreviation answers := (fun n => srv env n rq).

(** The frame and the answer of one failed attempt that is neither a
    401 nor a 400, up to the retry test. *)
Lemma attempt_error_frame st body msg cur s k' :
  srv env (w_calls (st_w s)) rq = RespErr st body msg ->
  loose_eq_num st 401 = false -> loose_eq_num st 400 = false ->
  num_gt cur retries = false ->
  exists s' evs,
    pushes evs s s' /\ http_reqs evs = [rq] /\
    reverse (sleeps evs) = ((if rate_limited st then [60%Z] else []) ++ [5%Z])%list /\
    request_loop cfg env (S k') gvt again url method data retries headers agent cur s =
    (if num_le (cur + 1) retries
     then request_loop cfg env k' gvt again url method data retries headers agent (cur + 1) s'
     else (Ok (failure st (error_message body msg)), s')).
Proof.
  intros Hans H401 H400 Hgt. cbn [request_loop].
  step_http. rewrite Hans. cbv zeta. step_log. rewrite H401, H400.
  unfold rate_limited. destruct (loose_eq_num st 429).
  - rewrite bind_assoc. step_log. step_sleep. rewrite Hgt. step_sleep.
    chain_pushes. eexists _, _. split; [eassumption|].
    cbn. by destruct (num_le (cur + 1) retries).
  - rewrite bind_ret_l, Hgt. step_sleep.
    chain_pushes. eexists _, _. split; [eassumption|].
    cbn. by destruct (num_le (cur + 1) retries).
Qed.

Lemma not_unauthorized_err n st body msg :
  ~ unauthorized (srv env n rq) -> srv env n rq = RespErr st body msg ->
  loose_eq_num st 401 = false.
Proof. intros H Hans. rewrite Hans in H. cbn in H. by destruct (loose_eq_num st 401). Qed.

(** The retry loop implements the policy: when no answer is a 401, it
    returns what [retry_spec] computes from the server's answers, sends
    the same request once per attempt that [retry_spec] counts, and
    pauses exactly as [retry_spec] lists. *)
Lemma request_loop_refines k cur s res attempts pauses :
  num_gt cur retries = false ->
  (budget_of retries cur < k)%nat ->
  (forall n, ~ unauthorized (srv env n rq)) ->
  retry_spec (budget_of retries cur) answers (w_calls (st_w s)) = (res, attempts, pauses) ->
  exists s' evs,
    request_loop cfg env k gvt again url method data retries headers agent cur s =
      (Ok res, s') /\
    pushes evs s s' /\ http_reqs evs = replicate attempts rq /\ reverse (sleeps evs) = pauses.
Proof.
  revert cur s res attempts pauses.
  induction k as [|k IH]; intros cur s res attempts pauses Hgt Hk H401 Hspec; [lia|].
  rewrite retry_spec_unfold in Hspec.
  destruct (srv env (w_calls (st_w s)) rq) as [status body|st body msg] eqn:Hans.
  - injection Hspec as <- <- <-. cbn [request_loop]. step_http. rewrite Hans.
    eexists _, _. by split; [reflexivity|].
  - pose proof (not_unauthorized_err _ _ _ _ (H401 _) Hans) as H401'.
    destruct (loose_eq_num st 400) eqn:H400.
    + injection Hspec as <- <- <-. cbn [request_loop]. step_http. rewrite Hans.
      cbv zeta. step_log. rewrite H401', H400. step_log. chain_pushes.
      eexists _, _. by split; [reflexivity|].
    + destruct (attempt_error_frame st body msg cur s k Hans H401' H400 Hgt)
        as (s' & evs & Hp & Hh & Hs & ->).
      destruct (num_le (cur + 1) retries) eqn:Hle.
      * destruct (budget_of_step _ _ Hle) as [Hb Hgt']. rewrite Hb in Hspec, Hk.
        destruct (retry_spec _ answers (S (w_calls (st_w s)))) as [[r k0] ps] eqn:Hrec.
        injection Hspec as <- <- <-.
        assert (Hcalls : w_calls (st_w s') = S (w_calls (st_w s)))
          by (destruct (pushes_fields _ _ _ Hp) as (_ & _ & -> & _); by rewrite Hh).
        destruct (IH (cur + 1)%Z s' r k0 ps Hgt' ltac:(lia) H401)
          as (s'' & evs' & Hrun & Hp' & Hh' & Hs'); [rewrite Hcalls; exact Hrec|].
        exists s'', (evs' ++ evs)%list. split; [exact Hrun|]. split.
        { eapply pushes_trans; eassumption. }
        rewrite http_reqs_app, sleeps_app, reverse_app, Hh, Hh', Hs, Hs'.
        by rewrite replicate_S_end.
      * rewrite (budget_of_last _ _ Hgt Hle) in Hspec. injection Hspec as <- <- <-.
        by exists s', evs.
Qed.
End LoopTheorems.

(** ** Answers of a given class *)

(** An error answer that is neither a 401, a 400 nor a 429: a network
    error (no status) or any other status. *)
Definition transient (r : Resp) : Prop :=
  match r with
  | RespErr st _ _ =>
      loose_eq_num st 401 = false /\ loose_eq_num st 400 = false /\ rate_limited st = false
  | RespOk _ _ => False
  end.

Lemma transient_not_unauthorized r : transient r -> ~ unauthorized r.
Proof. destruct r as [|st ? ?]; cbn; [done|]. intros (-> & _); done. Qed.

Lemma retry_spec_transient b answers n :
  (forall m, transient (answers m)) ->
  exists res, retry_spec b answers n = (res, S b, replicate (S b) 5%Z) /\
              rr_success res = false.
Proof.
  revert n; induction b as [|b IH]; intros n Ht; rewrite retry_spec_unfold;
    specialize (Ht n) as Hn; destruct (answers n) as [|st body msg]; try done;
    destruct Hn as (_ & H400 & H429); rewrite H400, H429; cbn.
  - by eexists.
  - destruct (IH (S n) Ht) as (res & -> & Hs). by exists res.
Qed.

Lemma retry_spec_budget_0 answers n : (retry_spec 0 answers n).1.2 = 1%nat.
Proof. rewrite retry_spec_unfold. by repeat case_match. Qed.

Section MakeRequestTheorems.
Context (cfg : Settings) (env : Env) (gvt : bool -> CM JVal).

Lemma makeRequest_unfold fuel url method data options s :
  makeRequest cfg env (S fuel) gvt url method data options s =
  request_loop cfg env fuel gvt (makeRequest cfg env fuel gvt url method data options)
    url method data (jget options "retries") (request_headers (st_c s) options)
    (proxy_agent cfg (st_c s)) 0 s.
Proof. reflexivity. Qed.

(** The request [makeRequest] sends for a client in state [c]. *)
Definition first_request (url method : string) (data options : JVal) (c : Client) : Req :=
  axios_request method url (request_headers c options) data (proxy_agent cfg c).

(** C2. Refinement of the retry policy by [makeRequest]: when no answer
    is a 401 and [retries] is not negative, [makeRequest] returns what
    [retry_spec] computes from the server's answers to its request,
    with the budget its [options] give, sends that request once per
    attempt the policy counts and pauses exactly as the policy lists. *)
Theorem makeRequest_refines fuel url method data options s res attempts pauses :
  num_gt 0 (jget options "retries") = false ->
  (S (budget_of (jget options "retries") 0) < fuel)%nat ->
  (forall n, ~ unauthorized (srv env n (first_request url method data options (st_c s)))) ->
  retry_spec (budget_of (jget options "retries") 0)
    (fun n => srv env n (first_request url method data options (st_c s))) (w_calls (st_w s)) =
    (res, attempts, pauses) ->
  exists s' evs,
    makeRequest cfg env fuel gvt url method data options s = (Ok res, s') /\
    pushes evs s s' /\
    http_reqs evs = replicate attempts (first_request url method data options (st_c s)) /\
    reverse (sleeps evs) = pauses.
Proof.
  intros Hgt Hfuel H401 Hspec. destruct fuel as [|f]; [lia|].
  rewrite makeRequest_unfold. unfold first_request in *.
  apply request_loop_refines; [exact Hgt|lia|exact H401|exact Hspec].
Qed.

(** C13. Exhausting the retry budget: with [retries = r >= 0] and a
    server that only fails transiently, [makeRequest] returns a failure
    without throwing after [r + 1] attempts and [r + 1] pauses of five
    seconds; the spec asks for [r] pauses, the code also pauses after
    the last attempt. *)
Theorem makeRequest_transient_exhausts fuel url method data options r s :
  jget options "retries" = JNum r -> (0 <= r)%Z -> (Z.to_nat r + 2 <= fuel)%nat ->
  (forall n rq, transient (srv env n rq)) ->
  exists res s' evs,
    makeRequest cfg env fuel gvt url method data options s = (Ok res, s') /\
    pushes evs s s' /\ rr_success res = false /\
    length (http_reqs evs) = S (Z.to_nat r) /\
    sleeps evs = replicate (S (Z.to_nat r)) 5%Z.
Proof.
  intros Hr Hpos Hfuel Ht. destruct fuel as [|f]; [lia|].
  rewrite makeRequest_unfold, Hr.
  set (rq := axios_request method url (request_headers (st_c s) options) data
               (proxy_agent cfg (st_c s))).
  destruct (retry_spec_transient (budget_of (JNum r) 0) (fun n => srv env n rq)
              (w_calls (st_w s)) (fun m => Ht m rq)) as (res & Hspec & Hfail).
  edestruct (request_loop_refines cfg env gvt (makeRequest cfg env f gvt url method data options)
               url method data (JNum r) (request_headers (st_c s) options)
               (proxy_agent cfg (st_c s)) f 0 s)
    as (s' & evs & Hrun & Hp & Hh & Hs); [..|exact Hspec|].
  - apply Z.ltb_ge. lia.
  - cbn. lia.
  - intros n. apply transient_not_unauthorized, Ht.
  - exists res, s', evs. rewrite Hh, length_replicate.
    rewrite <- (reverse_involutive (sleeps evs)), Hs, reverse_replicate.
    cbn. by rewrite Z.sub_0_r.
Qed.

(** C17. An options object without [retries] (the calls of [auth],
    [hb], [getRefereshToken] and [getBalance]) makes [currRetries <=
    retries] false: whatever the server answers, short of a 401, the
    request is attempted exactly once. *)
Theorem makeRequest_undefined_retries_once fuel url method data options s :
  jget options "retries" = JUndef -> (2 <= fuel)%nat ->
  (forall n rq, ~ unauthorized (srv env n rq)) ->
  exists res s' evs,
    makeRequest cfg env fuel gvt url method data options s = (Ok res, s') /\
    pushes evs s s' /\ http_reqs evs = [first_request url method data options (st_c s)].
Proof.
  intros Hr Hfuel H401. destruct fuel as [|f]; [lia|].
  rewrite makeRequest_unfold, Hr. unfold first_request.
  set (rq := axios_request method url (request_headers (st_c s) options) data
               (proxy_agent cfg (st_c s))).
  destruct (retry_spec (budget_of JUndef 0) (fun n => srv env n rq) (w_calls (st_w s)))
    as [[res k] ps] eqn:Hspec.
  pose proof (retry_spec_budget_0 (fun n => srv env n rq) (w_calls (st_w s))) as Hk.
  cbn [budget_of to_number] in Hspec. rewrite Hspec in Hk. cbn in Hk. subst k.
  edestruct (request_loop_refines cfg env gvt (makeRequest cfg env f gvt url method data options)
               url method data JUndef (request_headers (st_c s) options)
               (proxy_agent cfg (st_c s)) f 0 s)
    as (s' & evs & Hrun & Hp & Hh & Hs); [..|exact Hspec|]; [done|cbn; lia|auto|].
  by exists res, s', evs.
Qed.

(** C14. A 400 answer is final: one request, no pause, two log lines,
    and a failure carrying the status and the server's message. *)
Theorem makeRequest_bad_request fuel url method data options s st body msg :
  (2 <= fuel)%nat ->
  srv env (w_calls (st_w s)) (first_request url method data options (st_c s)) =
    RespErr st body msg ->
  loose_eq_num st 400 = true ->
  exists s' l1 l2,
    makeRequest cfg env fuel gvt url method data options s =
      (Ok (failure st (error_message body msg)), s') /\
    pushes [EvLog LError l1; EvLog LWarning l2;
            EvHttp (w_calls (st_w s)) (first_request url method data options (st_c s))] s s'.
Proof.
  intros Hfuel Hans H400. destruct fuel as [|[|f]]; [lia|lia|].
  rewrite makeRequest_unfold. unfold first_request in Hans. cbn [request_loop].
  step_http. rewrite Hans. cbv zeta. step_log.
  destruct (loose_eq_num st 401) eqn:H401.
  { by pose proof (loose_eq_num_unique _ _ _ H401 H400). }
  rewrite H400. step_log. chain_pushes. eexists _, _, _. split; [reflexivity|exact_pushes].
Qed.

(** A 2xx answer ends the call at once with the unwrapped payload; the
    run performs that one call and nothing else. *)
Lemma makeRequest_success fuel url method data options s status body :
  (2 <= fuel)%nat ->
  srv env (w_calls (st_w s)) (first_request url method data options (st_c s)) =
    RespOk status body ->
  exists s',
    makeRequest cfg env fuel gvt url method data options s =
      (Ok (success_result status body), s') /\
    pushes [EvHttp (w_calls (st_w s)) (first_request url method data options (st_c s))] s s'.
Proof.
  intros Hfuel Hans. destruct fuel as [|[|f]]; [lia|lia|].
  rewrite makeRequest_unfold. unfold first_request in Hans. cbn [request_loop].
  step_http. rewrite Hans. eexists. split; [reflexivity|exact Hp].
Qed.

(** Unbounded re-authentication, for any token provider that does not
    throw: when every answer is a 401, [makeRequest] never returns,
    whatever the fuel. *)
Lemma makeRequest_unauthorized_diverges fuel url method data options s :
  (forall n rq, unauthorized (srv env n rq)) ->
  (forall s0 e s1, gvt true s0 <> (Throw e, s1)) ->
  fst (makeRequest cfg env fuel gvt url method data options s) = OutOfFuel.
Proof.
  intros H401 Hg. revert s. induction fuel as [|f IH]; intros s; [done|].
  rewrite makeRequest_unfold. destruct f as [|f]; [done|]. cbn [request_loop].
  step_http.
  specialize (H401 (w_calls (st_w s))
                (axios_request method url (request_headers (st_c s) options) data
                   (proxy_agent cfg (st_c s)))).
  destruct (srv env _ _) as [|st b m]; [done|]. cbn in H401. cbv zeta.
  step_log. rewrite H401. step_log.
  match goal with |- context [bind (gvt true) _ ?s1] =>
    destruct (gvt true s1) as [[v|e|] sg] eqn:Hgv end.
  - rewrite (bind_Ok _ _ _ _ _ Hgv), (bind_Ok _ _ _ _ _ (set_token_run v _)). apply IH.
  - by destruct (Hg _ _ _ Hgv).
  - by rewrite (bind_OutOfFuel _ _ _ _ Hgv).
Qed.

(** C15. One 401 followed by a success: the provider is asked once for
    a fresh token, which becomes the client's token, and the request is
    sent once more, with the new token in its headers. *)
Theorem makeRequest_reauth_once fuel url method data options s st b m tok status body :
  (3 <= fuel)%nat ->
  loose_eq_num st 401 = true ->
  (forall n rq, srv env n rq =
     if (n =? w_calls (st_w s))%nat then RespErr st b m else RespOk status body) ->
  (forall s0, exists s1 evg, gvt true s0 = (Ok tok, s1) /\ pushes evg s0 s1) ->
  exists s' evg l1 l2,
    makeRequest cfg env fuel gvt url method data options s =
      (Ok (success_result status body), s') /\
    st_c s' = with_token tok (st_c s) /\
    w_trace (st_w s') =
      (EvHttp (length (http_reqs evg) + S (w_calls (st_w s)))
         (first_request url method data options (with_token tok (st_c s)))
       :: evg ++ [EvLog LInfo l1; EvLog LWarning l2;
                  EvHttp (w_calls (st_w s)) (first_request url method data options (st_c s))]
       ++ w_trace (st_w s))%list.
Proof.
  intros Hfuel H401 Hsrv Hg. destruct fuel as [|[|[|f]]]; try lia.
  rewrite makeRequest_unfold. cbn [request_loop]. step_http.
  rewrite Hsrv, Nat.eqb_refl. cbv zeta. step_log. rewrite H401. step_log.
  match goal with |- context [bind (gvt true) _ ?s1] =>
    destruct (Hg s1) as (sg & evg & Hgv & Hpg) end.
  rewrite (bind_Ok _ _ _ _ _ Hgv), (bind_Ok _ _ _ _ _ (set_token_run tok sg)).
  chain_pushes.
  match goal with H : pushes _ s _ |- _ => destruct (pushes_fields _ _ _ H) as (Hc & Ht & Hn & _) end.
  assert (Hidx : w_calls (st_w sg) = (length (http_reqs evg) + S (w_calls (st_w s)))%nat)
    by (rewrite Hn, !http_reqs_app, !length_app; cbn; lia).
  rewrite makeRequest_unfold. cbn [request_loop]. step_http.
  destruct (pushes_fields _ _ _ Hp) as (Hc1 & Ht1 & Hn1 & _). cbn [st_c st_w w_calls w_trace] in *.
  rewrite Hsrv, Hidx.
  destruct (Nat.eqb_spec (length (http_reqs evg) + S (w_calls (st_w s))) (w_calls (st_w s)));
    [lia|].
  eexists _, evg, _, _. split; [reflexivity|]. split; [by rewrite Hc1, Hc|].
  rewrite Ht1, Ht, Hidx. unfold first_request. rewrite Hc.
  by rewrite <- !app_assoc.
Qed.
End MakeRequestTheorems.

(** Where the bearer header comes from: the refresh token when the
    options carry one, otherwise the access token unless [isAuth]. *)
Lemma request_headers_authorization c options :
  jget (request_headers c options) "authorization" =
  if truthy (jget options "refreshToken")
  then JStr ("Bearer " ++ to_str (jget options "refreshToken"))
  else if truthy (jget options "isAuth")
       then jget (spread (c_headers c) (jget options "extraHeaders")) "authorization"
       else JStr ("Bearer " ++ to_str (c_token c)).
Proof.
  unfold request_headers, spread.
  destruct (truthy (jget options "refreshToken")), (truthy (jget options "isAuth"));
    cbn [negb jset jget]; by rewrite ?assoc_get_set_eq.
Qed.

(** ** Structural invariants of the pipeline *)

Section PipelineInvariants.
Context (cfg : Settings) (env : Env) (gvt : bool -> CM JVal).

Lemma request_loop_same k again url method data retries headers agent cur :
  (forall b, respects same_but_token (gvt b)) -> respects same_but_token again ->
  respects same_but_token
    (request_loop cfg env k gvt again url method data retries headers agent cur).
Proof.
  intros Hg Ha. revert cur. induction k; intros cur; cbn [request_loop]; cbv zeta;
    solve_struct.
Qed.

Lemma makeRequest_same fuel url method data options :
  (forall b, respects same_but_token (gvt b)) ->
  respects same_but_token (makeRequest cfg env fuel gvt url method data options).
Proof.
  intros Hg. induction fuel; cbn [makeRequest]; solve_struct.
  apply request_loop_same; assumption.
Qed.

Lemma request_loop_nothrow k again url method data retries headers agent cur :
  (forall b, nothrow (gvt b)) -> nothrow again ->
  nothrow (request_loop cfg env k gvt again url method data retries headers agent cur).
Proof.
  intros Hg Ha. revert cur. induction k; intros cur; cbn [request_loop]; cbv zeta;
    solve_struct.
Qed.

Lemma makeRequest_nothrow fuel url method data options :
  (forall b, nothrow (gvt b)) ->
  nothrow (makeRequest cfg env fuel gvt url method data options).
Proof.
  intros Hg. induction fuel; cbn [makeRequest]; solve_struct.
  apply request_loop_nothrow; assumption.
Qed.

(** Every failure [makeRequest] returns carries [data: null]: a caller
    that reads [data] of a failed result reads [null]. *)
Definition failure_null (r : ReqResult) : Prop := rr_success r = false -> rr_data r = JNull.

Lemma success_result_success status body : rr_success (success_result status body) = true.
Proof. unfold success_result. by destruct (truthy _). Qed.

(** The shape of every result of [makeRequest]: a success carries the
    numeric HTTP status and [error: null]; a failure carries
    [data: null]. *)
Definition rr_wf (r : ReqResult) : Prop :=
  if rr_success r then (exists n, rr_status r = JNum n) /\ rr_error r = JNull
  else rr_data r = JNull.

Lemma rr_wf_success_result status body : rr_wf (success_result status body).
Proof. unfold success_result. destruct (truthy _); cbn; split; eauto. Qed.

Lemma rr_wf_failure st err : rr_wf (failure st err).
Proof. done. Qed.

#[local] Hint Resolve rr_wf_success_result rr_wf_failure : flow.

Lemma request_loop_wf k again url method data retries headers agent cur :
  ensures rr_wf again ->
  ensures rr_wf (request_loop cfg env k gvt again url method data retries headers agent cur).
Proof.
  intros Ha. revert cur. induction k; intros cur; cbn [request_loop]; cbv zeta; solve_struct;
    auto with flow.
Qed.

Lemma makeRequest_wf fuel url method data options :
  ensures rr_wf (makeRequest cfg env fuel gvt url method data options).
Proof. induction fuel; cbn [makeRequest]; solve_struct. by apply request_loop_wf. Qed.

Lemma makeRequest_failure_null fuel url method data options :
  ensures failure_null (makeRequest cfg env fuel gvt url method data options).
Proof.
  intros s r s' Hr Hf. pose proof (makeRequest_wf fuel url method data options s r s' Hr) as Hw.
  unfold rr_wf in Hw. by rewrite Hf in Hw.
Qed.
End PipelineInvariants.

#[export] Hint Resolve makeRequest_same makeRequest_nothrow makeRequest_failure_null : flow.

(** ** Witnesses: the theorems at concrete inputs *)

Definition sample_url : string := "https://api.flow3.tech/api/v1/point/info".

Lemma makeRequest_refines_witness :
  exists s' evs,
    makeRequest sample_cfg (sample_env (answer_all (RespErr (JNum 503) JUndef "busy"))) 5
      sample_provider sample_url "get" JNull default_options (sample_state JNull (JObj [])) =
      (Ok (failure (JNum 503) (JStr "busy")), s') /\
    pushes evs (sample_state JNull (JObj [])) s' /\
    http_reqs evs = replicate 3 (first_request sample_cfg sample_url "get" JNull default_options
                                   (sample_client JNull (JObj []))) /\
    reverse (sleeps evs) = [5; 5; 5]%Z.
Proof.
  apply makeRequest_refines.
  - reflexivity.
  - cbn. lia.
  - intros n H. cbv in H. discriminate H.
  - reflexivity.
Defined.

Lemma makeRequest_transient_exhausts_witness :
  exists res s' evs,
    makeRequest sample_cfg (sample_env (answer_all (RespErr JUndef JUndef "ETIMEDOUT"))) 4
      sample_provider sample_url "get" JNull default_options (sample_state JNull (JObj [])) =
      (Ok res, s') /\
    pushes evs (sample_state JNull (JObj [])) s' /\ rr_success res = false /\
    length (http_reqs evs) = 3%nat /\ sleeps evs = [5; 5; 5]%Z.
Proof.
  apply (makeRequest_transient_exhausts _ _ _ _ _ _ _ _ 2%Z).
  - reflexivity.
  - lia.
  - cbn. lia.
  - intros n rq. cbv. repeat split.
Defined.

Lemma makeRequest_undefined_retries_once_witness :
  exists res s' evs,
    makeRequest sample_cfg (sample_env (answer_all (RespErr (JNum 502) JUndef "Bad Gateway"))) 5
      sample_provider sample_url "post" JNull auth_options (sample_state JNull (JObj [])) =
      (Ok res, s') /\
    pushes evs (sample_state JNull (JObj [])) s' /\
    http_reqs evs = [first_request sample_cfg sample_url "post" JNull auth_options
                       (sample_client JNull (JObj []))].
Proof.
  apply makeRequest_undefined_retries_once.
  - reflexivity.
  - lia.
  - intros n rq H. cbv in H. discriminate H.
Defined.

Lemma makeRequest_bad_request_witness :
  exists s' l1 l2,
    makeRequest sample_cfg
      (sample_env (answer_all (RespErr (JNum 400) (JObj [("message", JStr "bad")]) "Bad Request")))
      3 sample_provider sample_url "get" JNull default_options (sample_state JNull (JObj [])) =
      (Ok (failure (JNum 400) (JStr "bad")), s') /\
    pushes [EvLog LError l1; EvLog LWarning l2;
            EvHttp 0 (first_request sample_cfg sample_url "get" JNull default_options
                        (sample_client JNull (JObj [])))] (sample_state JNull (JObj [])) s'.
Proof.
  destruct (makeRequest_bad_request sample_cfg
     (sample_env (answer_all (RespErr (JNum 400) (JObj [("message", JStr "bad")]) "Bad Request")))
     sample_provider 3 sample_url "get" JNull default_options (sample_state JNull (JObj []))
     (JNum 400) (JObj [("message", JStr "bad")]) "Bad Request")
    as (s' & l1 & l2 & Hrun & Hp); [lia|reflexivity|reflexivity|].
  exists s', l1, l2. split; [exact Hrun|exact Hp].
Defined.

Definition reauth_server : nat -> Req -> Resp :=
  fun n _ => if (n =? 0)%nat then RespErr (JNum 401) JUndef "Unauthorized"
             else RespOk 200 (JObj [("data", JNum 1)]).

Lemma makeRequest_reauth_once_witness :
  exists s' evg l1 l2,
    makeRequest sample_cfg (sample_env reauth_server) 3 sample_provider sample_url "get" JNull
      default_options (sample_state (JStr "old") (JObj [])) =
      (Ok (success_result 200 (JObj [("data", JNum 1)])), s') /\
    st_c s' = with_token (JStr "fresh") (sample_client (JStr "old") (JObj [])) /\
    w_trace (st_w s') =
      (EvHttp (length (http_reqs evg) + 1)
         (first_request sample_cfg sample_url "get" JNull default_options
            (with_token (JStr "fresh") (sample_client (JStr "old") (JObj []))))
       :: evg ++ [EvLog LInfo l1; EvLog LWarning l2;
                  EvHttp 0 (first_request sample_cfg sample_url "get" JNull default_options
                              (sample_client (JStr "old") (JObj [])))] ++ [])%list.
Proof.
  destruct (makeRequest_reauth_once sample_cfg (sample_env reauth_server) sample_provider 3
     sample_url "get" JNull default_options (sample_state (JStr "old") (JObj []))
     (JNum 401) JUndef "Unauthorized" (JStr "fresh") 200 (JObj [("data", JNum 1)]))
    as (s' & evg & l1 & l2 & Hrun & Hc & Ht).
  - lia.
  - reflexivity.
  - intros n rq. reflexivity.
  - intros s0. exists s0, []. split; [reflexivity|apply pushes_nil].
  - exists s', evg, l1, l2. split; [exact Hrun|]. split; [exact Hc|exact Ht].
Defined.

