(* ===== verification/Session.v ===== *)
(** * Token lifecycle: [getValidToken]

    [getValidToken(isNew)] ([src/main.js], lines 312-344) returns the
    current access token when it is present, not expired and no refresh
    is forced; otherwise it tries the refresh endpoint when the session
    record holds an unexpired refresh token, and falls back to a full
    login ([auth]).  A token obtained either way is written to
    [localStorage.json] under the session name; the in-memory record
    [authInfo] is not updated.

    The model ties the knot with [Pipeline.makeRequest]: the requests of
    [getValidToken (S f)] are made with fuel [f] and with [getValidToken
    f] as their token provider, so the 401 path of a refresh or login
    request re-enters [getValidToken] with less fuel.

    The theorems: the fast path performs no I/O; an expired token with a
    valid refresh token costs exactly one refresh call and no login;
    without a refresh token a login is made and its tokens saved; no path
    changes a field of the client other than the token (so the stale
    refresh token stays in memory); the system made of [makeRequest] and
    [getValidToken] diverges when the server answers every call with a
    401. *)

From S2P Require Import Prelude Js Config ClientState Samples Pipeline.

Local Open Scope string_scope.

Section Session.
Context (cfg : Settings) (env : Env).

(** The refresh attempt of lines 322-332: [Some token] when the
    refresh endpoint returned an access token, [None] otherwise. *)
Definition try_refresh (f : nat) (gvt : bool -> CM JVal) (authInfo : JVal) (now : Z)
    : CM (option JVal) :=
  if truthy (jget authInfo "refreshToken") then
    let '(isExpRe, expirationDateRe) := isTokenExpired env now (jget authInfo "refreshToken") in
    log cfg ("RefereshToken token status: " ++ (if isExpRe then "Expired" else "Valid") ++
             " | RefereshToken token exp: " ++ expirationDateRe) LInfo;;
    if negb isExpRe then
      result <- getRefereshToken cfg env f gvt;;
      if truthy (jget (rr_data result) "accessToken") then
        c <- get_client;;
        saveJson (c_session_name c) (rr_data result);;
        ret (Some (jget (rr_data result) "accessToken"))
      else ret None
    else ret None
  else ret None.

(** The login fallback of lines 334-343. *)
Definition login_fallback (f : nat) (gvt : bool -> CM JVal) : CM JVal :=
  log cfg "No found token or experied..." LWarning;;
  loginRes <- auth cfg env f gvt;;
  if negb (rr_success loginRes) then ret JNull
  else
    let newToken := rr_data loginRes in
    if truthy (jget newToken "accessToken") then
      c <- get_client;;
      saveJson (c_session_name c) newToken;;
      ret (jget newToken "accessToken")
    else
      log cfg "Can't get new token..." LWarning;;
      ret JNull.

Fixpoint getValidToken (fuel : nat) (isNew : bool) : CM JVal :=
  match fuel with
  | O => out_of_fuel
  | S f =>
    c <- get_client;;
    now <- now_ms;;
    let existingToken := c_token c in
    let '(isExp, expirationDate) := isTokenExpired env now existingToken in
    log cfg ("Access token status: " ++ (if isExp then "Expired" else "Valid") ++
             " | Acess token exp: " ++ expirationDate) LInfo;;
    if truthy existingToken && negb isNew && negb isExp then
      log cfg "Using valid token" LSuccess;;
      ret existingToken
    else
      refreshed <- try_refresh f (getValidToken f) (c_authInfo c) now;;
      match refreshed with
      | Some token => ret token
      | None => login_fallback f (getValidToken f)
      end
  end.
End Session.

(** ** Structural invariants *)

Section SessionInvariants.
Context (cfg : Settings) (env : Env).

Lemma try_refresh_same f gvt authInfo now :
  (forall b, respects same_but_token (gvt b)) ->
  respects same_but_token (try_refresh cfg env f gvt authInfo now).
Proof. intros Hg. unfold try_refresh, getRefereshToken. solve_struct. Qed.

Lemma login_fallback_same f gvt :
  (forall b, respects same_but_token (gvt b)) ->
  respects same_but_token (login_fallback cfg env f gvt).
Proof. intros Hg. unfold login_fallback, auth. solve_struct. Qed.

Hint Resolve try_refresh_same login_fallback_same : flow.

Lemma getValidToken_same f b : respects same_but_token (getValidToken cfg env f b).
Proof.
  revert b; induction f as [|f IH]; intros b; cbn [getValidToken]; solve_struct.
Qed.

(** C18. Whatever the server answers, [getValidToken] changes no field
    of the client but the token (which only a nested 401 sets): in
    particular the in-memory [authInfo] keeps the refresh token it was
    loaded with, even after a refresh returned a new one. *)
Theorem getValidToken_keeps_session fuel isNew s o s' :
  getValidToken cfg env fuel isNew s = (o, s') ->
  same_but_token s s' /\ c_authInfo (st_c s') = c_authInfo (st_c s).
Proof.
  intros Hrun. pose proof (getValidToken_same fuel isNew s o s' Hrun) as Hs.
  split; [exact Hs|]. by apply same_but_token_authInfo.
Qed.
End SessionInvariants.

(** ** Behaviour on each path *)

Section SessionTheorems.
Context (cfg : Settings) (env : Env).

Lemma getRefereshToken_nothrow_at f gvt s e s' :
  (forall b, nothrow (gvt b)) ->
  truthy (jget (c_authInfo (st_c s)) "refreshToken") = true ->
  getRefereshToken cfg env f gvt s <> (Throw e, s').
Proof.
  intros Hg Ht. unfold getRefereshToken. step_read.
  rewrite (jget_strict_defined _ _ (truthy_jget_defined _ _ Ht)).
  by apply makeRequest_nothrow.
Qed.

Lemma try_refresh_nothrow_at f gvt s now e s' :
  (forall b, nothrow (gvt b)) ->
  try_refresh cfg env f gvt (c_authInfo (st_c s)) now s <> (Throw e, s').
Proof.
  intros Hg. unfold try_refresh.
  destruct (truthy (jget (c_authInfo (st_c s)) "refreshToken")) eqn:Ht; [|done].
  destruct (isTokenExpired env now _) as [[] d]; step_log; [done|]. cbn [negb].
  destruct (getRefereshToken cfg env f gvt s0) as [[r|e'|] s1] eqn:Hr.
  - rewrite (bind_Ok _ _ _ _ _ Hr). goal_nothrow. solve_struct.
  - destruct Hp as [Hc _]. rewrite <- Hc in Ht.
    by destruct (getRefereshToken_nothrow_at f gvt s0 e' s1 Hg Ht).
  - by rewrite (bind_OutOfFuel _ _ _ _ Hr).
Qed.

(** [getValidToken] never throws: a failed refresh falls back to login,
    and a failed login yields [null], which [runAccount] turns into the
    end of the account's run. *)
Lemma getValidToken_nothrow fuel isNew s e s' :
  getValidToken cfg env fuel isNew s <> (Throw e, s').
Proof.
  revert isNew s e s'. induction fuel as [|f IH]; intros isNew s e s'; [done|].
  cbn [getValidToken]. step_read. step_read.
  destruct (isTokenExpired env _ _) as [isExp d]. step_log.
  case_match; [by step_log|].
  destruct Hp as [Hc _]. rewrite <- Hc.
  destruct (try_refresh cfg env f (getValidToken cfg env f) (c_authInfo (st_c s0))
              (w_now (st_w s)) s0) as [[r|e'|] s1] eqn:Hr.
  - rewrite (bind_Ok _ _ _ _ _ Hr). goal_nothrow.
    unfold login_fallback, auth. solve_struct.
  - exfalso. refine (try_refresh_nothrow_at f _ s0 _ e' s1 _ Hr). intros b. exact (IH b).
  - by rewrite (bind_OutOfFuel _ _ _ _ Hr).
Qed.

(** C3. The fast path: a non-empty access token whose expiry lies in
    the future is returned by [getValidToken(false)] with no I/O at
    all: the run only writes two log lines. *)
Theorem getValidToken_fast_path fuel s t exp :
  c_token (st_c s) = JStr t -> t <> "" ->
  jwt_exp env t = Some exp -> (w_now (st_w s) < exp * 1000)%Z ->
  exists s' l1 l2,
    getValidToken cfg env (S fuel) false s = (Ok (JStr t), s') /\
    pushes [EvLog LSuccess l1; EvLog LInfo l2] s s'.
Proof.
  intros Ht Hne Hexp Hnow. cbn [getValidToken]. step_read. step_read. rewrite Ht.
  pose proof (isTokenExpired_valid env _ _ _ Hexp Hnow) as Hv.
  destruct (isTokenExpired env _ (JStr t)) as [isExp d]. cbn in Hv. subst isExp.
  step_log. cbn [truthy negb andb]. rewrite (proj2 (String.eqb_neq t "") Hne). cbn.
  step_log. chain_pushes. eexists _, _, _. split; [reflexivity|exact_pushes].
Qed.

(** C4. An expired (or absent, or force-refreshed) access token with a
    valid refresh token: one call, to the refresh endpoint, no login;
    the new record replaces the session's entry of [localStorage.json]
    and its access token is returned. *)
Theorem getValidToken_refresh_only fuel isNew s rt exp status body :
  (3 <= fuel)%nat ->
  truthy (c_token (st_c s)) && negb isNew &&
    negb (isTokenExpired env (w_now (st_w s)) (c_token (st_c s))).1 = false ->
  jget (c_authInfo (st_c s)) "refreshToken" = JStr rt -> rt <> "" ->
  jwt_exp env rt = Some exp -> (w_now (st_w s) < exp * 1000)%Z ->
  (forall rq, srv env (w_calls (st_w s)) rq = RespOk status body) ->
  truthy (jget (rr_data (success_result status body)) "accessToken") = true ->
  exists s' evs,
    getValidToken cfg env (S fuel) isNew s =
      (Ok (jget (rr_data (success_result status body)) "accessToken"), s') /\
    pushes evs s s' /\
    map rq_url (http_reqs evs) = [c_baseURL (st_c s) ++ "/v1/user/refresh"] /\
    w_file (st_w s') =
      <[to_str (c_session_name (st_c s)) := rr_data (success_result status body)]>
        (w_file (st_w s)).
Proof.
  intros Hfuel Hslow Hrt Hne Hexp Hnow Hsrv Hacc. cbn [getValidToken]. step_read. step_read.
  destruct (isTokenExpired env _ (c_token (st_c s))) as [isExp d] eqn:E.
  cbn [fst] in Hslow. step_log. rewrite Hslow.
  unfold try_refresh. rewrite Hrt. cbn [truthy]. rewrite (proj2 (String.eqb_neq rt "") Hne).
  pose proof (isTokenExpired_valid env _ _ _ Hexp Hnow) as Hv.
  destruct (isTokenExpired env _ (JStr rt)) as [isExpRe d']. cbn in Hv. subst isExpRe.
  cbn [negb]. step_log. unfold getRefereshToken. step_read. chain_pushes.
  match goal with H : pushes _ s ?s1 |- _ => rename H into Hp01; rename s1 into s1 end.
  assert (Hc : st_c s1 = st_c s) by apply Hp01.
  assert (Hn : w_calls (st_w s1) = w_calls (st_w s)) by (destruct (pushes_fields _ _ _ Hp01) as (_&_&->&_); done).
  rewrite Hc, (jget_strict_defined _ _ ltac:(by rewrite Hrt)), Hrt.
  destruct fuel as [|f]; [lia|].
  edestruct (makeRequest_success cfg env (getValidToken cfg env (S f)) (S f)
               (c_baseURL (st_c s) ++ "/v1/user/refresh") "post") as (s2 & Hrun & Hp2);
    [lia| rewrite Hn, Hc; apply Hsrv |].
  assert (Hc2 : st_c s2 = st_c s1) by apply Hp2.
  rewrite (bind_Ok _ _ _ _ _ Hrun), Hacc. step_read. step_save.
  rewrite bind_ret_l. chain_pushes. eexists _, _. split; [reflexivity|].
  split; [eassumption|]. split; [done|].
  match goal with H : pushes _ s _ |- _ => destruct (pushes_fields _ _ _ H) as (_ & _ & _ & _ & ->) end.
  cbn. by rewrite Hc2, Hc.
Qed.

(** C1. Unbounded re-authentication in the program as composed: every
    request method calls [makeRequest] with [this.getValidToken] as the
    token provider; when the server answers every call with a 401, no
    fuel is enough for such a call to return.  The code re-enters
    [makeRequest] after each refresh with no bound; the spec allows one
    retry. *)
Theorem makeRequest_system_diverges fuel url method data options s :
  (forall n rq, unauthorized (srv env n rq)) ->
  fst (makeRequest cfg env fuel (getValidToken cfg env fuel) url method data options s)
  = OutOfFuel.
Proof.
  intros H401. apply makeRequest_unauthorized_diverges; [exact H401|].
  intros s1 e s2. apply getValidToken_nothrow.
Qed.

(** C16. Divergence of the token lifecycle: when the server answers
    every call with a 401 and the current token is not usable, the
    refresh or login request gets a 401, which calls [getValidToken(true)]
    again, and so on: no fuel is enough for [getValidToken] to return. *)
Theorem getValidToken_unauthorized_diverges fuel isNew s :
  (forall n rq, unauthorized (srv env n rq)) ->
  truthy (c_token (st_c s)) && negb isNew &&
    negb (isTokenExpired env (w_now (st_w s)) (c_token (st_c s))).1 = false ->
  fst (getValidToken cfg env fuel isNew s) = OutOfFuel.
Proof.
  intros H401 Hslow. destruct fuel as [|f]; [done|].
  assert (Hmr : forall url method data options s0,
             fst (makeRequest cfg env f (getValidToken cfg env f) url method data options s0)
             = OutOfFuel).
  { intros. apply makeRequest_unauthorized_diverges; [exact H401|].
    intros s1 e s2. apply getValidToken_nothrow. }
  assert (Hlogin : forall s0, fst (login_fallback cfg env f (getValidToken cfg env f) s0)
                              = OutOfFuel).
  { intros s0. unfold login_fallback, auth. step_log. step_read.
    apply bind_fst_OutOfFuel, Hmr. }
  cbn [getValidToken]. step_read. step_read.
  destruct (isTokenExpired env _ (c_token (st_c s))) as [isExp d]. cbn [fst] in Hslow.
  step_log. rewrite Hslow. unfold try_refresh.
  destruct (truthy (jget (c_authInfo (st_c s)) "refreshToken")) eqn:Ht.
  - destruct (isTokenExpired env _ (jget _ "refreshToken")) as [[] d']; step_log;
      cbn [negb]; flatten.
    + rewrite !bind_ret_l. apply Hlogin.
    + unfold getRefereshToken. step_read. chain_pushes.
      match goal with H : pushes _ s ?s1 |- _ => destruct H as [Hc _]; rewrite Hc end.
      rewrite (jget_strict_defined _ _ (truthy_jget_defined _ _ Ht)).
      apply bind_fst_OutOfFuel, Hmr.
  - rewrite bind_ret_l. apply Hlogin.
Qed.

(** No refresh token in the session record: [getValidToken] logs
    in.  It makes exactly one call, the login request carrying the
    wallet address and the signed message, saves the answer under the
    session name and returns its access token. *)
Lemma getValidToken_login fuel isNew s status body :
  (3 <= fuel)%nat ->
  truthy (c_token (st_c s)) && negb isNew &&
    negb (isTokenExpired env (w_now (st_w s)) (c_token (st_c s))).1 = false ->
  truthy (jget (c_authInfo (st_c s)) "refreshToken") = false ->
  srv env (w_calls (st_w s))
    (first_request cfg (c_baseURL (st_c s) ++ "/v1/user/login") "post"
       (login_payload cfg env (st_c s)) auth_options (st_c s)) = RespOk status body ->
  truthy (jget (rr_data (success_result status body)) "accessToken") = true ->
  exists s' evs,
    getValidToken cfg env (S fuel) isNew s =
      (Ok (jget (rr_data (success_result status body)) "accessToken"), s') /\
    pushes evs s s' /\
    http_reqs evs =
      [first_request cfg (c_baseURL (st_c s) ++ "/v1/user/login") "post"
         (login_payload cfg env (st_c s)) auth_options (st_c s)] /\
    w_file (st_w s') =
      <[to_str (c_session_name (st_c s)) := rr_data (success_result status body)]>
        (w_file (st_w s)).
Proof.
  intros Hfuel Hslow Hnort Hsrv Hacc. cbn [getValidToken]. step_read. step_read.
  destruct (isTokenExpired env _ (c_token (st_c s))) as [isExp d]. cbn [fst] in Hslow.
  step_log. rewrite Hslow. unfold try_refresh. rewrite Hnort, bind_ret_l.
  unfold login_fallback, auth. step_log. step_read. chain_pushes.
  match goal with H : pushes _ s ?s1 |- _ => rename H into Hp01; rename s1 into s1 end.
  assert (Hc : st_c s1 = st_c s) by apply Hp01.
  assert (Hn : w_calls (st_w s1) = w_calls (st_w s)) by (destruct (pushes_fields _ _ _ Hp01) as (_&_&->&_); done).
  rewrite Hc. destruct fuel as [|f]; [lia|].
  edestruct (makeRequest_success cfg env (getValidToken cfg env (S f)) (S f)
               (c_baseURL (st_c s) ++ "/v1/user/login") "post") as (s2 & Hrun & Hp2);
    [lia| rewrite Hn, Hc; apply Hsrv |].
  assert (Hc2 : st_c s2 = st_c s1) by apply Hp2.
  rewrite (bind_Ok _ _ _ _ _ Hrun).
  assert (Hsucc : rr_success (success_result status body) = true)
    by (unfold success_result; destruct (truthy (jget body "data")); reflexivity).
  rewrite Hsucc. cbn [negb]. cbv zeta. rewrite Hacc.
  step_read. step_save. chain_pushes. eexists _, _. split; [reflexivity|].
  split; [eassumption|]. split; [by rewrite Hc|].
  match goal with H : pushes _ s _ |- _ => destruct (pushes_fields _ _ _ H) as (_ & _ & _ & _ & ->) end.
  cbn. by rewrite Hc2, Hc.
Qed.
End SessionTheorems.

(** ** Witnesses *)

Definition refresh_answer : Resp :=
  RespOk 200 (JObj [("data", JObj [("accessToken", JStr "NEW"); ("refreshToken", JStr "RT2")])]).

Definition stale_record : JVal := JObj [("refreshToken", JStr "RT1")].

Lemma getValidToken_fast_path_witness :
  exists s' l1 l2,
    getValidToken sample_cfg (sample_env (answer_all refresh_answer)) 3 false
      (sample_state (JStr "good") (JObj [])) = (Ok (JStr "good"), s') /\
    pushes [EvLog LSuccess l1; EvLog LInfo l2] (sample_state (JStr "good") (JObj [])) s'.
Proof.
  apply (getValidToken_fast_path _ _ _ _ "good" 4102444800%Z).
  - reflexivity.
  - discriminate.
  - reflexivity.
  - cbn. lia.
Defined.

(** The in-memory record keeps [RT1] after the server rotated the
    refresh token to [RT2]. *)
Lemma getValidToken_keeps_session_witness :
  let r := getValidToken sample_cfg (sample_env (answer_all refresh_answer)) 4 false
             (sample_state JNull stale_record) in
  same_but_token (sample_state JNull stale_record) (snd r) /\
  c_authInfo (st_c (snd r)) = stale_record.
Proof.
  apply (getValidToken_keeps_session sample_cfg (sample_env (answer_all refresh_answer)) 4 false
           (sample_state JNull stale_record)
           (fst (getValidToken sample_cfg (sample_env (answer_all refresh_answer)) 4 false
                   (sample_state JNull stale_record)))).
  apply surjective_pairing.
Defined.

Lemma getValidToken_refresh_only_witness :
  exists s' evs,
    getValidToken sample_cfg (sample_env (answer_all refresh_answer)) 4 false
      (sample_state JNull stale_record) = (Ok (JStr "NEW"), s') /\
    pushes evs (sample_state JNull stale_record) s' /\
    map rq_url (http_reqs evs) = ["https://api.flow3.tech/api/v1/user/refresh"] /\
    w_file (st_w s') =
      <["WALLET" := JObj [("accessToken", JStr "NEW"); ("refreshToken", JStr "RT2")]]> ∅.
Proof.
  destruct (getValidToken_refresh_only sample_cfg (sample_env (answer_all refresh_answer)) 3 false
     (sample_state JNull stale_record) "RT1" 4102444800%Z 200
     (JObj [("data", JObj [("accessToken", JStr "NEW"); ("refreshToken", JStr "RT2")])]))
    as (s' & evs & Hrun & Hp & Hu & Hf).
  - lia.
  - reflexivity.
  - reflexivity.
  - discriminate.
  - reflexivity.
  - cbn. lia.
  - intros rq. reflexivity.
  - reflexivity.
  - exists s', evs. split; [exact Hrun|]. split; [exact Hp|]. split; [exact Hu|exact Hf].
Defined.

Lemma makeRequest_system_diverges_witness :
  fst (makeRequest sample_cfg (sample_env (answer_all (RespErr (JNum 401) JUndef "Unauthorized")))
         8 (getValidToken sample_cfg
              (sample_env (answer_all (RespErr (JNum 401) JUndef "Unauthorized"))) 8)
         "https://api.flow3.tech/api/v1/point/info" "get" JNull default_options
         (sample_state (JStr "old") (JObj []))) = OutOfFuel.
Proof.
  apply makeRequest_system_diverges. intros n rq. reflexivity.
Defined.

Lemma getValidToken_unauthorized_diverges_witness :
  fst (getValidToken sample_cfg (sample_env (answer_all (RespErr (JNum 401) JUndef "Unauthorized")))
         10 false (sample_state JNull stale_record)) = OutOfFuel.
Proof.
  apply getValidToken_unauthorized_diverges.
  - intros n rq. reflexivity.
  - reflexivity.
Defined.

