(* ===== verification/UserAgent.v ===== *)
(** * The user-agent cache and the request headers

    Each [ClientAPI] loads [session_user_agents.json] when it is built
    ([#load_session_data], [src/main.js] lines 55-67; a missing file is
    an empty cache).  [#get_user_agent] (lines 74-84) returns the agent
    cached under the session name, or draws one at random from
    [config/userAgents.js], caches it and writes the whole cache back
    ([#save_session_data], lines 86-89).  [#set_headers] (lines 107-112)
    derives the platform from the agent ([#get_platform], lines 91-105)
    and sets three headers; it calls [#get_user_agent] twice.

    The theorems: with the session cached, [set_headers] draws nothing
    and writes nothing; without it, it draws once and writes the cache
    once, and in both cases the [User-Agent] header and the platform
    header describe the same agent, the one now cached. *)

From S2P Require Import Prelude Js Config ClientState Samples.

Local Open Scope string_scope.

(** The headers set by the constructor (lines 31-39). *)
Definition default_headers : JVal :=
  JObj [("Accept", JStr "*/*");
        ("Accept-Language", JStr "id-ID,id;q=0.9,en-US;q=0.8,en;q=0.7");
        ("Sec-Fetch-Dest", JStr "empty");
        ("Sec-Fetch-Mode", JStr "cors");
        ("Sec-Fetch-Site", JStr "none");
        ("origin", JStr "https://dashboard.flow3.tech");
        ("User-Agent", JStr ("Mozilla/5.0 (Windows NT 10.0; Win64; x64) AppleWebKit/537.36 " ++
                             "(KHTML, like Gecko) Chrome/115.0.0.0 Safari/537.36"))].

(** [#load_session_data] (lines 55-67): [JUndef] stands for a missing
    file. *)
Definition load_session_data (file : JVal) : JVal :=
  match file with
  | JUndef => JObj []
  | v => v
  end.

(** The constructor of [ClientAPI] (lines 29-53). *)
Definition new_ClientAPI (itemData : ItemData) (accountIndex : Z) (proxy : JVal)
    (baseURL : string) (localStorage : gmap string JVal) (ua_file : JVal) : Client :=
  mkClient itemData accountIndex proxy JNull JNull (load_session_data ua_file) JNull JNull
    default_headers baseURL localStorage.

(** [#get_platform] (lines 91-105). *)
Definition get_platform (userAgent : JVal) : string :=
  if test_ci "iphone" userAgent then "ios"
  else if test_ci "android" userAgent then "android"
  else if test_ci "ipad" userAgent then "ios"
  else "Unknown".

(** The [sec-ch-ua] header of line 109. *)
Definition sec_ch_ua (platform : string) : string :=
  "Not)A;Brand" ++ dq ++ ";v=" ++ dq ++ "99" ++ dq ++ ", " ++ dq ++ platform ++ " WebView" ++
  dq ++ ";v=" ++ dq ++ "127" ++ dq ++ ", " ++ dq ++ "Chromium" ++ dq ++ ";v=" ++ dq ++ "127".

Section UserAgents.
Context (cfg : Settings) (env : Env).

(** [#get_random_user_agent] (lines 69-72). *)
Definition get_random_user_agent : CM JVal :=
  i <- random_index env (length (user_agents cfg));;
  ret (match nth_error (user_agents cfg) i with Some ua => JStr ua | None => JUndef end).

(** [#save_session_data] (lines 86-89): the whole cache is written. *)
Definition save_session_data (sua : JVal) : CM unit := emit (EvSaveUserAgents sua).

(** [#get_user_agent] (lines 74-84).  Reading the cache throws when it
    is [null] (a file holding [null]); writing into it throws when it is
    a primitive (class bodies are strict code). *)
Definition get_user_agent : CM JVal :=
  c <- get_client;;
  let key := to_str (c_session_name c) in
  let sua := c_session_user_agents c in
  if nullish sua then throw (TypeError (read_error sua key))
  else if truthy (jget sua key) then ret (jget sua key)
  else
    emit (EvLog LInfo ("[Tài khoản " ++ pretty (c_accountIndex c + 1)%Z ++
                       "] Tạo user agent..."));;
    newUserAgent <- get_random_user_agent;;
    c' <- get_client;;
    match jassign (c_session_user_agents c') key newUserAgent with
    | None => throw (TypeError ("Cannot create property '" ++ key ++ "' on " ++
                                to_str (c_session_user_agents c')))
    | Some sua' =>
        upd_client (with_session_user_agents sua');;
        save_session_data sua';;
        ret newUserAgent
    end.

(** [#set_headers] (lines 107-112). *)
Definition set_headers : CM unit :=
  ua <- get_user_agent;;
  let platform := get_platform ua in
  c <- get_client;;
  upd_client (with_headers
    (jset (jset (c_headers c) "sec-ch-ua" (JStr (sec_ch_ua platform)))
          "sec-ch-ua-platform" (JStr platform)));;
  ua' <- get_user_agent;;
  c' <- get_client;;
  upd_client (with_headers (jset (c_headers c') "User-Agent" ua')).

(** [createUserAgent] (lines 114-122); nothing in [src/] calls it. *)
Definition createUserAgent : CM unit :=
  catch (c <- get_client;;
         upd_client (with_session_name (JStr (address (c_itemData c))));;
         _ <- get_user_agent;;
         ret tt)
        (fun e => log cfg ("Can't create user agent: " ++ exn_message e) LError).
End UserAgents.

(** ** Runs of [get_user_agent] *)

(** The agent the [n]-th draw selects. *)
Definition draw_user_agent (cfg : Settings) (env : Env) (n : nat) : JVal :=
  match nth_error (user_agents cfg) (random_below env n (length (user_agents cfg))) with
  | Some ua => JStr ua
  | None => JUndef
  end.

Definition session_key (c : Client) : string := to_str (c_session_name c).

Definition cached_agent (c : Client) : JVal := jget (c_session_user_agents c) (session_key c).

(** The headers agree with the agent cached for the session. *)
Definition ua_consistent (c : Client) : Prop :=
  truthy (cached_agent c) = true /\
  jget (c_headers c) "User-Agent" = cached_agent c /\
  jget (c_headers c) "sec-ch-ua-platform" = JStr (get_platform (cached_agent c)).

(** The three headers [set_headers] writes, from an agent [ua]. *)
Definition agent_headers (h ua : JVal) : JVal :=
  jset (jset (jset h "sec-ch-ua" (JStr (sec_ch_ua (get_platform ua))))
             "sec-ch-ua-platform" (JStr (get_platform ua))) "User-Agent" ua.

Section UserAgentLemmas.
Context (cfg : Settings) (env : Env).

Lemma get_user_agent_cached s :
  truthy (cached_agent (st_c s)) = true ->
  get_user_agent cfg env s = (Ok (cached_agent (st_c s)), s).
Proof.
  intros H. unfold get_user_agent. step_read. unfold cached_agent, session_key in H.
  by rewrite (truthy_jget_not_nullish _ _ H), H.
Qed.

Lemma get_user_agent_fresh s :
  is_obj (c_session_user_agents (st_c s)) = true ->
  truthy (cached_agent (st_c s)) = false ->
  exists s',
    get_user_agent cfg env s = (Ok (draw_user_agent cfg env (w_rand (st_w s))), s') /\
    st_c s' = with_session_user_agents
                (jset (c_session_user_agents (st_c s)) (session_key (st_c s))
                   (draw_user_agent cfg env (w_rand (st_w s)))) (st_c s) /\
    w_rand (st_w s') = S (w_rand (st_w s)) /\
    w_ua_file (st_w s') =
      jset (c_session_user_agents (st_c s)) (session_key (st_c s))
        (draw_user_agent cfg env (w_rand (st_w s))) /\
    w_calls (st_w s') = w_calls (st_w s) /\ w_file (st_w s') = w_file (st_w s).
Proof.
  intros Hu H. unfold get_user_agent. step_read. unfold cached_agent, session_key in H.
  rewrite (is_obj_not_nullish _ Hu), H. step_read.
  unfold get_random_user_agent. step_read. rewrite bind_ret_l. step_read. cbn [st_c].
  rewrite jassign_obj by exact Hu. eexists. split; [reflexivity|]. repeat split.
Qed.

(** With an object as cache, [get_user_agent] returns normally, sends
    no request and changes only the cache, which stays an object. *)
Lemma get_user_agent_obj s :
  is_obj (c_session_user_agents (st_c s)) = true ->
  exists ua s' evs,
    get_user_agent cfg env s = (Ok ua, s') /\ appends evs s s' /\ http_reqs evs = [] /\
    exists sua, st_c s' = with_session_user_agents sua (st_c s) /\ is_obj sua = true.
Proof.
  intros Hu. destruct (truthy (cached_agent (st_c s))) eqn:Hc.
  - rewrite get_user_agent_cached by exact Hc. eexists _, _, []. do 3 (split; [done|]).
    exists (c_session_user_agents (st_c s)). split; [|exact Hu]. by destruct s as [[] w].
  - unfold get_user_agent. step_read. unfold cached_agent, session_key in Hc.
    rewrite (is_obj_not_nullish _ Hu), Hc. step_read.
    unfold get_random_user_agent. step_read. rewrite bind_ret_l. step_read. cbn [st_c].
    rewrite jassign_obj by exact Hu. unfold save_session_data. step_read. step_read.
    eexists _, _, [_; _]. split; [reflexivity|]. split; [reflexivity|]. split; [done|].
    eexists. split; [reflexivity|]. by apply jset_is_obj.
Qed.

Lemma cached_after_draw c hs d :
  is_obj (c_session_user_agents c) = true ->
  cached_agent (with_headers hs
    (with_session_user_agents (jset (c_session_user_agents c) (session_key c) d) c)) = d.
Proof.
  intros Hu. unfold cached_agent, session_key. cbn.
  rewrite jget_jset_obj by exact Hu. by rewrite String.eqb_refl.
Qed.

Lemma agent_headers_consistent c ua :
  is_obj (c_headers c) = true -> truthy (cached_agent c) = true -> cached_agent c = ua ->
  ua_consistent (with_headers (agent_headers (c_headers c) ua) c).
Proof.
  intros Hh Ht <-. unfold ua_consistent, agent_headers. cbn.
  rewrite !jget_jset_obj by auto with flow. cbn. by repeat split.
Qed.

(** With an object as cache, [set_headers] returns normally, sends no
    request and changes only the headers and the cache. *)
Lemma set_headers_obj s :
  is_obj (c_session_user_agents (st_c s)) = true ->
  exists s' evs,
    set_headers cfg env s = (Ok tt, s') /\ appends evs s s' /\ http_reqs evs = [] /\
    exists h sua, st_c s' = with_headers h (with_session_user_agents sua (st_c s)).
Proof.
  intros Hu. unfold set_headers.
  destruct (get_user_agent_obj s Hu) as (ua & s1 & e1 & Hr1 & A1 & N1 & sua1 & Hc1 & Ho1).
  rewrite (bind_Ok _ _ _ _ _ Hr1). step_read. step_read.
  match goal with |- context [bind (get_user_agent cfg env) _ ?s2] =>
    destruct (get_user_agent_obj s2) as (ua' & s3 & e3 & Hr3 & A3 & N3 & sua3 & Hc3 & _) end.
  { cbn. by rewrite Hc1. }
  rewrite (bind_Ok _ _ _ _ _ Hr3). step_read. rewrite upd_client_run.
  eexists _, (e3 ++ e1)%list. split; [reflexivity|]. split.
  { eapply appends_trans; [exact A1|exact A3]. }
  split; [by rewrite http_reqs_app, N1, N3|].
  rewrite Hc3. cbn [st_c]. rewrite Hc1. by eexists _, _.
Qed.

(** Without a cached agent, [set_headers] caches the drawn agent and sets
    the headers from it. *)
Lemma set_headers_fresh s :
  is_obj (c_session_user_agents (st_c s)) = true ->
  truthy (cached_agent (st_c s)) = false ->
  truthy (draw_user_agent cfg env (w_rand (st_w s))) = true ->
  exists w', set_headers cfg env s =
    (Ok tt, mkSt (with_headers
                    (agent_headers (c_headers (st_c s)) (draw_user_agent cfg env (w_rand (st_w s))))
                    (with_session_user_agents
                       (jset (c_session_user_agents (st_c s)) (session_key (st_c s))
                          (draw_user_agent cfg env (w_rand (st_w s)))) (st_c s))) w').
Proof.
  intros Hu Hc Hd. destruct (get_user_agent_fresh s Hu Hc) as ([c1 w1] & Hr1 & Hc1 & _).
  cbn in Hc1. subst c1. unfold set_headers. rewrite (bind_Ok _ _ _ _ _ Hr1).
  step_read. step_read. cbn [st_c st_w].
  erewrite bind_Ok; [|apply get_user_agent_cached; cbn [st_c]; by rewrite cached_after_draw].
  step_read. rewrite upd_client_run. cbn [st_c]. rewrite cached_after_draw by exact Hu.
  by exists w1.
Qed.
End UserAgentLemmas.

Section UserAgentTheorems.
Context (cfg : Settings) (env : Env).

(** The run of [set_headers] with an agent already cached for the
    session: the three headers are set from the cached agent and the
    world is untouched. *)
Lemma set_headers_cached_run s :
  truthy (cached_agent (st_c s)) = true ->
  set_headers cfg env s =
    (Ok tt,
     mkSt (with_headers
             (jset (jset (jset (c_headers (st_c s)) "sec-ch-ua"
                                (JStr (sec_ch_ua (get_platform (cached_agent (st_c s))))))
                          "sec-ch-ua-platform" (JStr (get_platform (cached_agent (st_c s)))))
                   "User-Agent" (cached_agent (st_c s)))
             (st_c s))
          (st_w s)).
Proof.
  intros H. unfold set_headers. erewrite bind_Ok; [|apply get_user_agent_cached; exact H].
  step_read. step_read. cbn [st_c st_w].
  erewrite bind_Ok; [|apply get_user_agent_cached; exact H].
  step_read. rewrite upd_client_run. by destruct s as [[] w].
Qed.

(** C25. An agent already cached for the session: [set_headers]
    succeeds without drawing a random number, writing a file or logging
    (the world is untouched), and leaves the cache as it was. *)
Theorem set_headers_cached s o s' :
  truthy (cached_agent (st_c s)) = true ->
  set_headers cfg env s = (o, s') ->
  o = Ok tt /\ st_w s' = st_w s /\
  c_session_user_agents (st_c s') = c_session_user_agents (st_c s).
Proof.
  intros Hc Hrun. rewrite set_headers_cached_run in Hrun by exact Hc.
  by injection Hrun as <- <-.
Qed.

(** C26. After [set_headers] the [User-Agent] header and the platform
    header describe the agent cached for the session, whether it was
    cached before or drawn now (when the draw selects a non-empty
    agent). *)
Theorem set_headers_consistent s o s' :
  is_obj (c_headers (st_c s)) = true ->
  is_obj (c_session_user_agents (st_c s)) = true ->
  (truthy (cached_agent (st_c s)) = true \/
   truthy (draw_user_agent cfg env (w_rand (st_w s))) = true) ->
  set_headers cfg env s = (o, s') ->
  o = Ok tt /\ ua_consistent (st_c s').
Proof.
  intros Hh Hu Hdraw Hrun.
  destruct (truthy (cached_agent (st_c s))) eqn:Hc.
  - rewrite set_headers_cached_run in Hrun by exact Hc. injection Hrun as <- <-.
    split; [done|]. apply agent_headers_consistent; [exact Hh|exact Hc|reflexivity].
  - destruct Hdraw as [Hdraw|Hdraw]; [congruence|].
    destruct (set_headers_fresh cfg env s Hu Hc Hdraw) as [w' Hr].
    rewrite Hr in Hrun. injection Hrun as <- <-. split; [done|].
    apply (agent_headers_consistent (with_session_user_agents
             (jset (c_session_user_agents (st_c s)) (session_key (st_c s))
                (draw_user_agent cfg env (w_rand (st_w s)))) (st_c s))); [exact Hh| |]; unfold cached_agent, session_key; cbn;
      rewrite jget_jset_obj, String.eqb_refl by exact Hu; [exact Hdraw|reflexivity].
Qed.
End UserAgentTheorems.

(** ** Witnesses *)

(** The sample account with an agent already cached for ["WALLET"]. *)
Definition cached_state : St :=
  mkSt (with_session_user_agents (JObj [("WALLET", JStr "Mozilla/5.0 (iPhone)")])
          (sample_client JNull JNull)) sample_world.

Definition sample_ua_env : Env := sample_env (answer_all (RespOk 200 (JObj []))).

Lemma set_headers_cached_witness :
  let r := set_headers sample_cfg sample_ua_env cached_state in
  truthy (cached_agent (st_c cached_state)) = true /\
  r.1 = Ok tt /\ st_w r.2 = st_w cached_state /\
  c_session_user_agents (st_c r.2) = c_session_user_agents (st_c cached_state).
Proof.
  cbv zeta. split; [reflexivity|].
  apply (set_headers_cached sample_cfg sample_ua_env cached_state);
    [reflexivity|apply surjective_pairing].
Defined.

Lemma set_headers_consistent_witness :
  let r := set_headers sample_cfg sample_ua_env (sample_state JNull JNull) in
  truthy (cached_agent (st_c (sample_state JNull JNull))) = false /\
  r.1 = Ok tt /\ ua_consistent (st_c r.2).
Proof.
  cbv zeta. split; [reflexivity|].
  apply (set_headers_consistent sample_cfg sample_ua_env (sample_state JNull JNull));
    [reflexivity|reflexivity|right; reflexivity|apply surjective_pairing].
Defined.

