(* ===== verification/Workflow.v ===== *)
(** * The account workflow handlers

    The methods of [ClientAPI] that [runAccount] calls after the token is
    obtained ([src/main.js] lines 151-164 and 346-437): the proxy probe
    [checkProxyIP], the profile-and-balance sync [handleSyncData], the
    daily check-in [handleCheckin] with its 24-hour test
    [checkInvaliable], the task loop [handleTasks], the heartbeat
    [handleHB] and the balance poll [handleCheckPoint].

    Every endpoint call goes through [makeRequest] with
    [getValidToken] as the token provider, at the fuel [fuel] of the
    section.  The exceptions these handlers can raise are values of
    [Exn]: a [TypeError] when a failed request's [data] ([null]) is
    destructured or searched, a [ReferenceError] for the undeclared
    [dailytasks] of line 386. *)

From S2P Require Import Prelude Js Config ClientState Samples Pipeline Session.

Local Open Scope string_scope.

(** [JSON.stringify] of a [makeRequest] result.  The literals of lines
    210-235 list the same four keys in different orders; the canonical
    order below only affects the text of log lines. *)
Definition rr_json (r : ReqResult) : JVal :=
  JObj [("status", rr_status r); ("success", JBool (rr_success r)); ("data", rr_data r);
        ("error", rr_error r)].

(** [v || "Not set"] inside a template literal. *)
Definition or_not_set (v : JVal) : string := if truthy v then to_str v else "Not set".

(** [checkInvaliable(date)] (lines 353-361): more than 24 hours between
    [date] and now, in milliseconds; an invalid date compares false. *)
Definition checkInvaliable (date : JVal) (now : Z) : bool :=
  match date_value date with
  | Some t => (86400000 <? now - t)%Z
  | None => false
  end.

(** The predicate of line 368: [i.status == 0]. *)
Definition checkin_open (i : JVal) : bool := loose_eq_num (jget i "status") 0.

(** The predicate of line 391. *)
Definition task_pending (cfg : Settings) (task : JVal) : bool :=
  negb (loose_eq_num (jget task "status") 1) &&
  negb (js_includes (SKIP_TASKS cfg) (jget task "taskId")).

Definition ipify_url : string := "https://api.ipify.org?format=json".

(** Whether an answer to the proxy probe makes [checkProxyIP] throw (the
    probes of [main.js] and [autoref.js] test the same conditions). *)
Definition probe_fails (r : Resp) : bool :=
  match r with
  | RespOk status body => negb ((status =? 200)%Z && negb (nullish body))
  | RespErr _ _ _ => true
  end.

Section Handlers.
Context (cfg : Settings) (env : Env) (fuel : nat).

(** An endpoint wrapper called with [this.getValidToken] as the token
    provider. *)
Definition call (ep : nat -> (bool -> CM JVal) -> CM ReqResult) : CM ReqResult :=
  ep fuel (getValidToken cfg env fuel).

(** [checkProxyIP] (lines 151-164): the error thrown inside the [try] is
    caught and rethrown with the prefix of line 162. *)
Definition checkProxyIP : CM JVal :=
  c <- get_client;;
  resp <- http env (mkReq "get" ipify_url JUndef JUndef (c_proxy c));;
  match resp with
  | RespOk status body =>
      if (status =? 200)%Z then
        if nullish body then
          throw (JsError ("Error checking proxy IP: " ++ read_error body "ip"))
        else
          upd_client (with_proxyIP (jget body "ip"));;
          ret (jget body "ip")
      else throw (JsError ("Error checking proxy IP: Cannot check proxy IP. Status code: " ++
                           pretty status))
  | RespErr _ _ msg => throw (JsError ("Error checking proxy IP: " ++ msg))
  end.

(** [handleCheckPoint] (lines 346-351). *)
Definition handleCheckPoint : CM unit :=
  balanceData <- call (getBalance cfg env);;
  if negb (rr_success balanceData) then log cfg "Can't sync new points..." LWarning
  else if nullish (rr_data balanceData) then
    throw (TypeError ("Cannot destructure property 'referralEarningPoint' of " ++
                      "'balanceData.data' as it is " ++ to_str (rr_data balanceData) ++ "."))
  else
    now <- now_ms;;
    log cfg (to_str (JDate now) ++ " Earning today: " ++
             to_str (jget (rr_data balanceData) "todayEarningPoint") ++ " | Total points: " ++
             to_str (jget (rr_data balanceData) "totalEarningPoint") ++
             " | Recheck after 5 minutes") LCustom.

(** [handleCheckin] (lines 363-379): the check-in record is the
    in-memory [authInfo] with [latestCheckin] set, written whatever the
    outcome of the check-in. *)
Definition handleCheckin : CM unit :=
  log cfg "Get checkin status..." LInfo;;
  dailytasksData <- call (getDailyTasks cfg env);;
  match js_find_strict checkin_open (rr_data dailytasksData) with
  | None => throw (TypeError (if nullish (rr_data dailytasksData)
                              then read_error (rr_data dailytasksData) "find"
                              else "dailytasksData.data.find is not a function"))
  | Some today =>
      (if truthy today then
         resCheckin <- call (checkin cfg env);;
         if truthy (jget (rr_data resCheckin) "statusCode") then
           log cfg (to_str (jget today "title") ++ " success | Reward: " ++
                    stringify (if truthy (jget today "reward") then jget today "reward"
                               else JObj [])) LSuccess
         else log cfg ("Can't checkin | " ++ stringify (rr_json resCheckin)) LWarning
       else ret tt);;
      c <- get_client;;
      now <- now_ms;;
      match jassign (c_authInfo c) "latestCheckin" (JDate now) with
      | None => throw (TypeError ("Cannot set properties of " ++ to_str (c_authInfo c) ++
                                  " (setting 'latestCheckin')"))
      | Some a =>
          upd_client (with_authInfo a);;
          saveJson (c_session_name c) a
      end
  end.

(** One iteration of the loop of lines 395-405. *)
Definition complete_one (task : JVal) : CM unit :=
  sleep 1;;
  let taskId := jget task "taskId" in
  let title := jget task "title" in
  log cfg ("Completing task: " ++ to_str taskId ++ " | " ++ to_str title ++ "...") LInfo;;
  compleRes <- call (compleTask cfg env taskId);;
  if loose_eq_num (jget (rr_data compleRes) "statusCode") 200 then
    log cfg ("Task " ++ to_str taskId ++ " | " ++ to_str title ++
             " complete successfully! | Reward: " ++ stringify (jget task "reward")) LSuccess
  else
    log cfg ("Can't complete task " ++ to_str taskId ++ " | " ++ to_str title ++ " | " ++
             stringify (rr_json compleRes) ++ "...") LWarning.

(** [handleTasks] (lines 381-406).  When [getTasks] fails, the guard of
    line 386 evaluates the undeclared identifier [dailytasks]. *)
Definition handleTasks : CM unit :=
  log cfg "Checking tasks..." LInfo;;
  tasksData <- call (getTasks cfg env);;
  if negb (rr_success tasksData) then throw (ReferenceError "dailytasks")
  else
    match js_filter_strict (task_pending cfg) (rr_data tasksData) with
    | None => throw (TypeError (if nullish (rr_data tasksData)
                                then read_error (rr_data tasksData) "filter"
                                else "tasksData.data.filter is not a function"))
    | Some [] => log cfg "No tasks avaliable to do!" LWarning
    | Some tasksToComplete => for_each tasksToComplete complete_one
    end.

(** The do-while loop of lines 412-416, [retries] counting the failed
    attempts; [k] bounds the iterations (the loop runs at most once, see
    [sync_loop_once]). *)
Fixpoint sync_loop (k : nat) (retries : Z) : CM ReqResult :=
  userData <- call (getUserData cfg env);;
  if rr_success userData then ret userData
  else
    let retries := (retries + 1)%Z in
    if (retries <? 1)%Z && negb (strict_eq (rr_status userData) (JNum 400)) then
      match k with
      | O => ret userData
      | S k' => sync_loop k' retries
      end
    else ret userData.

(** [handleSyncData] (lines 408-428): [None] is the [undefined] of the
    early return. *)
Definition handleSyncData : CM (option ReqResult) :=
  log cfg "Sync data..." LInfo;;
  userData <- sync_loop 1 0;;
  balanceData <- call (getBalance cfg env);;
  if rr_success userData && rr_success balanceData then
    if nullish (rr_data userData) then
      throw (TypeError ("Cannot destructure property 'referralCode' of 'userData.data' as it is " ++
                        to_str (rr_data userData) ++ "."))
    else if nullish (rr_data balanceData) then
      throw (TypeError ("Cannot destructure property 'referralEarningPoint' of " ++
                        "'balanceData.data' as it is " ++ to_str (rr_data balanceData) ++ "."))
    else
      let u := rr_data userData in
      let b := rr_data balanceData in
      log cfg ("Ref code: " ++ to_str (jget u "referralCode") ++ " | Username: " ++
               or_not_set (jget u "username") ++ " | Email: " ++ or_not_set (jget u "email") ++
               " | Earning today: " ++ to_str (jget b "todayEarningPoint") ++
               " | Total points: " ++ to_str (jget b "totalEarningPoint")) LCustom;;
      ret (Some userData)
  else
    log cfg "Can't sync new data...skipping" LWarning;;
    ret None.

(** [handleHB] (lines 430-437). *)
Definition handleHB : CM unit :=
  result <- call (hb cfg env);;
  now <- now_ms;;
  if rr_success result then
    log cfg ("[" ++ to_str (JDate now) ++ "] Ping success!") LSuccess
  else
    log cfg ("[" ++ to_str (JDate now) ++ "] Ping failed! | " ++ stringify (rr_json result))
      LWarning.
End Handlers.

(** ** Theorems on the handlers *)

Section HandlerTheorems.
Context (cfg : Settings) (env : Env) (fuel : nat).

Lemma gvt_nothrow b : nothrow (getValidToken cfg env fuel b).
Proof. intros s e s'. apply getValidToken_nothrow. Qed.

Lemma gvt_same b : respects same_but_token (getValidToken cfg env fuel b).
Proof. apply getValidToken_same. Qed.

#[local] Hint Resolve gvt_nothrow gvt_same : flow.

(** What every endpoint call of the handlers guarantees: it does not
    throw, keeps the client but its token, and a failure it returns has
    [data: null]. *)
Lemma call_get_endpoint path :
  nothrow (call cfg env fuel (get_endpoint cfg env path)) /\
  respects same_but_token (call cfg env fuel (get_endpoint cfg env path)) /\
  ensures failure_null (call cfg env fuel (get_endpoint cfg env path)).
Proof. unfold call, get_endpoint. split; [|split]; solve_struct. Qed.

Lemma call_compleTask id :
  nothrow (call cfg env fuel (compleTask cfg env id)) /\
  respects same_but_token (call cfg env fuel (compleTask cfg env id)).
Proof. unfold call, compleTask. split; solve_struct. Qed.

Lemma call_checkin :
  nothrow (call cfg env fuel (checkin cfg env)) /\
  respects same_but_token (call cfg env fuel (checkin cfg env)).
Proof. unfold call, checkin. split; solve_struct. Qed.

Lemma complete_one_nothrow task : nothrow (complete_one cfg env fuel task).
Proof.
  unfold complete_one. cbv zeta. solve_struct. apply (proj1 (call_compleTask _)).
Qed.

(** The log line every handler starts with. *)
Lemma log_state msg ty s : log cfg msg ty s = (Ok tt, snd (log cfg msg ty s)).
Proof. by destruct (log_run cfg msg ty s) as [l ->]. Qed.

(** A failing probe makes [checkProxyIP] throw after its one request. *)
Lemma checkProxyIP_fails s :
  probe_fails (srv env (w_calls (st_w s)) (mkReq "get" ipify_url JUndef JUndef (c_proxy (st_c s))))
    = true ->
  exists e s', checkProxyIP env s = (Throw e, s') /\
    pushes [EvHttp (w_calls (st_w s)) (mkReq "get" ipify_url JUndef JUndef (c_proxy (st_c s)))] s s'.
Proof.
  intros Hf. unfold checkProxyIP. step_read. step_http.
  destruct (srv env _ _) as [status body|]; cbn [probe_fails] in Hf;
    [destruct (status =? 200)%Z; [destruct (nullish body)|]|]; cbn in Hf; try done;
    eexists _, _; (split; [reflexivity|exact Hp]).
Qed.

(** C19. The profile fetch of [handleSyncData] is never retried: after a
    failed attempt [retries] is 1 and the loop condition [retries < 1]
    fails, so the loop is one call of [getUserData], whatever its
    answer.  The spec permits one retry of the fetch. *)
Theorem sync_loop_once k s :
  sync_loop cfg env fuel k 0 s = call cfg env fuel (getUserData cfg env) s.
Proof.
  destruct k; cbn [sync_loop]; unfold bind;
    destruct (call cfg env fuel (getUserData cfg env) s) as [[r| |] s'];
    try destruct (rr_success r); reflexivity.
Qed.

(** C20. A failed daily-task fetch crashes the check-in: the failure's
    [data] is [null] and [dailytasksData.data.find] throws a [TypeError]
    before anything is saved. *)
Theorem handleCheckin_daily_failure s r s1 :
  call cfg env fuel (getDailyTasks cfg env) (snd (log cfg "Get checkin status..." LInfo s)) =
    (Ok r, s1) ->
  rr_success r = false ->
  handleCheckin cfg env fuel s = (Throw (TypeError (read_error JNull "find")), s1).
Proof.
  intros Hd Hf. unfold handleCheckin.
  rewrite (bind_Ok _ _ _ _ _ (log_state _ _ s)), (bind_Ok _ _ _ _ _ Hd).
  rewrite (proj2 (proj2 (call_get_endpoint _)) _ _ _ Hd Hf). reflexivity.
Qed.

(** C21. A failed task fetch crashes [handleTasks]: the guard of line
    386 evaluates the undeclared [dailytasks], a [ReferenceError]. *)
Theorem handleTasks_fetch_failure s r s1 :
  call cfg env fuel (getTasks cfg env) (snd (log cfg "Checking tasks..." LInfo s)) =
    (Ok r, s1) ->
  rr_success r = false ->
  handleTasks cfg env fuel s = (Throw (ReferenceError "dailytasks"), s1).
Proof.
  intros Hd Hf. unfold handleTasks.
  rewrite (bind_Ok _ _ _ _ _ (log_state _ _ s)), (bind_Ok _ _ _ _ _ Hd), Hf. reflexivity.
Qed.

(** C22. Partial-failure semantics of the task loop: once the task list
    is fetched as an array of objects, [handleTasks] attempts every
    pending task not in [SKIP_TASKS], in the order of the list, and no
    failed completion (a 400, an exhausted retry budget) stops the
    loop: [handleTasks] does not throw. *)
Theorem handleTasks_attempts_all s r s1 xs :
  call cfg env fuel (getTasks cfg env) (snd (log cfg "Checking tasks..." LInfo s)) =
    (Ok r, s1) ->
  rr_success r = true -> rr_data r = JArr xs ->
  forallb (fun x => negb (nullish x)) xs = true ->
  handleTasks cfg env fuel s =
    (match List.filter (task_pending cfg) xs with
     | [] => log cfg "No tasks avaliable to do!" LWarning
     | l => for_each l (complete_one cfg env fuel)
     end) s1 /\
  forall e s', handleTasks cfg env fuel s <> (Throw e, s').
Proof.
  intros Hd Hs Hx Hn.
  assert (Hrun : handleTasks cfg env fuel s =
    (match List.filter (task_pending cfg) xs with
     | [] => log cfg "No tasks avaliable to do!" LWarning
     | l => for_each l (complete_one cfg env fuel)
     end) s1).
  { unfold handleTasks. rewrite (bind_Ok _ _ _ _ _ (log_state _ _ s)), (bind_Ok _ _ _ _ _ Hd).
    rewrite Hs, Hx. cbn [negb js_filter_strict]. rewrite filter_strict_ok by exact Hn.
    by destruct (List.filter _ _). }
  split; [exact Hrun|]. intros e s'. rewrite Hrun.
  destruct (List.filter _ _) as [|t l]; [apply log_nothrow|].
  apply nothrow_for_each, complete_one_nothrow.
Qed.
(** The check-in step between the find and the save: it keeps the
    client but its token and does not throw. *)
Lemma checkin_step_ok today :
  let m := (if truthy today then
              resCheckin <- call cfg env fuel (checkin cfg env);;
              if truthy (jget (rr_data resCheckin) "statusCode") then
                log cfg (to_str (jget today "title") ++ " success | Reward: " ++
                         stringify (if truthy (jget today "reward") then jget today "reward"
                                    else JObj [])) LSuccess
              else log cfg ("Can't checkin | " ++ stringify (rr_json resCheckin)) LWarning
            else ret tt) in
  respects same_but_token m /\ nothrow m.
Proof.
  cbv zeta. destruct (call_checkin) as [Hn Hs].
  split; destruct (truthy today); solve_struct.
Qed.

(** C24. The check-in is recorded whatever its outcome, and from the
    stale record: once the daily list is found, [handleCheckin] (unless
    it runs out of fuel) returns normally and saves under the session
    name the [authInfo] read at the start of the run with
    [latestCheckin] set to the current time, whether the check-in
    request succeeded or failed; the tokens that [getValidToken] saved
    in between are overwritten. *)
Theorem handleCheckin_records_attempt s r s1 today o s' :
  call cfg env fuel (getDailyTasks cfg env) (snd (log cfg "Get checkin status..." LInfo s)) =
    (Ok r, s1) ->
  js_find_strict checkin_open (rr_data r) = Some today ->
  is_obj (c_authInfo (st_c s)) = true ->
  handleCheckin cfg env fuel s = (o, s') -> o <> OutOfFuel ->
  o = Ok tt /\
  exists t, c_authInfo (st_c s') = jset (c_authInfo (st_c s)) "latestCheckin" (JDate t) /\
    w_file (st_w s') !! to_str (c_session_name (st_c s)) =
      Some (jset (c_authInfo (st_c s)) "latestCheckin" (JDate t)).
Proof.
  intros Hd Hf Ho Hrun Hnf. unfold handleCheckin in Hrun.
  rewrite (bind_Ok _ _ _ _ _ (log_state _ _ s)), (bind_Ok _ _ _ _ _ Hd), Hf in Hrun.
  assert (H1 : same_but_token s s1).
  { etrans; [exact (log_same cfg _ _ s _ _ (log_state "Get checkin status..." LInfo s))|].
    exact (proj1 (proj2 (call_get_endpoint _)) _ _ _ Hd). }
  destruct (checkin_step_ok today) as [Hs Hn]. cbv zeta in Hs, Hn.
  match type of Hrun with bind ?m _ s1 = _ =>
    destruct (m s1) as [[u|e|] s2] eqn:Hm end.
  - rewrite (bind_Ok _ _ _ _ _ Hm) in Hrun.
    assert (H2 : same_but_token s s2) by (etrans; [exact H1|exact (Hs _ _ _ Hm)]).
    rewrite (bind_Ok _ _ _ _ _ (get_client_run _)), (bind_Ok _ _ _ _ _ (now_ms_run _)) in Hrun.
    rewrite (same_but_token_authInfo _ _ H2), jassign_obj in Hrun by exact Ho.
    rewrite (bind_Ok _ _ _ _ _ (upd_client_run _ _)), saveJson_run in Hrun.
    injection Hrun as <- <-. split; [done|]. exists (w_now (st_w s2)). split; [done|].
    cbn [st_c st_w apply_event w_file]. rewrite (same_but_token_session_name _ _ H2).
    apply lookup_insert_eq.
  - by destruct (Hn _ _ _ Hm).
  - rewrite (bind_OutOfFuel _ _ _ _ Hm) in Hrun. injection Hrun as <- _. by destruct Hnf.
Qed.
End HandlerTheorems.

(** ** Witnesses *)

(** A server answering by URL. *)
Definition url_server (f : string -> Resp) : nat -> Req -> Resp := fun _ rq => f (rq_url rq).

Definition bad_request : Resp := RespErr (JNum 400) JUndef "Bad Request".

Definition sample_tasks : JVal :=
  JArr [JObj [("taskId", JNum 1); ("title", JStr "Follow"); ("status", JNum 0)];
        JObj [("taskId", JNum 7); ("title", JStr "Skipped"); ("status", JNum 0)];
        JObj [("taskId", JNum 2); ("title", JStr "Done"); ("status", JNum 1)];
        JObj [("taskId", JNum 3); ("title", JStr "Retweet"); ("status", JNum 0)]].

(** Tasks are listed; every completion is refused with a 400. *)
Definition tasks_server : nat -> Req -> Resp :=
  url_server (fun u => if String.eqb u "https://api.flow3.tech/api/v1/tasks/"
                       then RespOk 200 (JObj [("data", sample_tasks)]) else bad_request).

Lemma handleCheckin_daily_failure_witness :
  let env := sample_env (answer_all bad_request) in
  let s := sample_state JNull (JObj []) in
  let s1 := snd (call sample_cfg env 3 (getDailyTasks sample_cfg env)
                   (snd (log sample_cfg "Get checkin status..." LInfo s))) in
  call sample_cfg env 3 (getDailyTasks sample_cfg env)
    (snd (log sample_cfg "Get checkin status..." LInfo s)) =
    (Ok (failure (JNum 400) (JStr "Bad Request")), s1) /\
  handleCheckin sample_cfg env 3 s = (Throw (TypeError (read_error JNull "find")), s1).
Proof.
  intros env s s1. split; [vm_compute; reflexivity|].
  apply (handleCheckin_daily_failure _ _ _ _ (failure (JNum 400) (JStr "Bad Request")));
    [vm_compute; reflexivity|reflexivity].
Defined.

Lemma handleTasks_fetch_failure_witness :
  let env := sample_env (answer_all bad_request) in
  let s := sample_state JNull (JObj []) in
  let s1 := snd (call sample_cfg env 3 (getTasks sample_cfg env)
                   (snd (log sample_cfg "Checking tasks..." LInfo s))) in
  call sample_cfg env 3 (getTasks sample_cfg env)
    (snd (log sample_cfg "Checking tasks..." LInfo s)) =
    (Ok (failure (JNum 400) (JStr "Bad Request")), s1) /\
  handleTasks sample_cfg env 3 s = (Throw (ReferenceError "dailytasks"), s1).
Proof.
  intros env s s1. split; [vm_compute; reflexivity|].
  apply (handleTasks_fetch_failure _ _ _ _ (failure (JNum 400) (JStr "Bad Request")));
    [vm_compute; reflexivity|reflexivity].
Defined.

Definition sample_tasks_list : list JVal :=
  match sample_tasks with JArr xs => xs | _ => [] end.

Lemma handleTasks_attempts_all_witness :
  let env := sample_env tasks_server in
  let s := sample_state JNull (JObj []) in
  let s1 := snd (call sample_cfg env 3 (getTasks sample_cfg env)
                   (snd (log sample_cfg "Checking tasks..." LInfo s))) in
  List.filter (task_pending sample_cfg) sample_tasks_list =
    [JObj [("taskId", JNum 1); ("title", JStr "Follow"); ("status", JNum 0)];
     JObj [("taskId", JNum 3); ("title", JStr "Retweet"); ("status", JNum 0)]] /\
  handleTasks sample_cfg env 3 s =
    (match List.filter (task_pending sample_cfg) sample_tasks_list with
     | [] => log sample_cfg "No tasks avaliable to do!" LWarning
     | l => for_each l (complete_one sample_cfg env 3)
     end) s1 /\
  forall e s', handleTasks sample_cfg env 3 s <> (Throw e, s').
Proof.
  intros env s s1. split; [reflexivity|].
  apply (handleTasks_attempts_all _ _ _ _ (mkRes (JNum 200) true sample_tasks JNull));
    [vm_compute; reflexivity|reflexivity|reflexivity|reflexivity].
Defined.

Definition sample_day : JVal := JObj [("status", JNum 0); ("title", JStr "Day 1")].

(** The daily list has an open day; the check-in itself is refused. *)
Definition checkin_fail_server : nat -> Req -> Resp :=
  url_server (fun u => if String.eqb u "https://api.flow3.tech/api/v1/tasks/daily"
                       then RespOk 200 (JObj [("data", JArr [sample_day])]) else bad_request).

Lemma handleCheckin_records_attempt_witness :
  let env := sample_env checkin_fail_server in
  let s := sample_state JNull (JObj [("refreshToken", JStr "RT1")]) in
  let r := handleCheckin sample_cfg env 3 s in
  r.1 = Ok tt /\
  exists t, c_authInfo (st_c r.2) = jset (c_authInfo (st_c s)) "latestCheckin" (JDate t) /\
    w_file (st_w r.2) !! to_str (c_session_name (st_c s)) =
      Some (jset (c_authInfo (st_c s)) "latestCheckin" (JDate t)).
Proof.
  intros env s r.
  apply (handleCheckin_records_attempt sample_cfg env 3 s (mkRes (JNum 200) true (JArr [sample_day]) JNull)
           (snd (call sample_cfg env 3 (getDailyTasks sample_cfg env)
                   (snd (log sample_cfg "Get checkin status..." LInfo s))))
           sample_day r.1 r.2);
    [vm_compute; reflexivity|reflexivity|reflexivity|apply surjective_pairing|].
  vm_compute. discriminate.
Defined.
