(* ===== verification/Account.v ===== *)
(** * One account's run: [runAccount]

    [runAccount] ([src/main.js] lines 439-481) loads the account's
    session record from the [localStorage] snapshot that [main] read at
    start-up, takes its [token] field as the access token, sets the
    request headers, probes the proxy when proxies are used, obtains a
    token from [getValidToken], and then runs the handlers of
    [Workflow]: the sync, the daily check-in unless one is recorded
    less than 24 hours ago, the recurring balance poll, the tasks and
    the heartbeat with its recurring timer.

    The snapshot maps an address to the record [saveJson] wrote, kept
    as the value rather than its JSON text: parsing the text back gives
    the same record, except that a [Date] comes back as its ISO string,
    which [new Date] turns into the same time value, so the model keeps
    the [JDate].  A recurring timer is registered as an
    [EvSetInterval] event, which appends it to the registry
    [intervalIds] of the world. *)

From S2P Require Import Prelude Js Config ClientState Samples Pipeline Session UserAgent Workflow.

Local Open Scope string_scope.

(** [JSON.parse(this.localStorage[this.session_name] || "{}")] (line
    441): a missing record is an empty object. *)
Definition load_authInfo (ls : gmap string JVal) (key : string) : JVal :=
  match ls !! key with
  | Some v => v
  | None => JObj []
  end.

(** [new Date(v).toLocaleString()] (line 463). *)
Definition date_string (v : JVal) : string :=
  match date_value v with
  | Some t => to_str (JDate t)
  | None => "Invalid Date"
  end.

(** The intervals of lines 467 and 474, in milliseconds. *)
Definition checkpoint_period : Z := 300000.
Definition hb_period : Z := 60000.

Section Run.
Context (cfg : Settings) (env : Env) (fuel : nat).

(** [getRandomNumber(min, max)] of [utils.js]: one draw of
    [Math.random]. *)
Definition getRandomNumber (lo hi : Z) : CM Z :=
  w <- get_world;;
  upd_world bump_rand;;
  ret (random_between env (w_rand w) lo hi).

(** [intervalIds.push(setInterval(job, period))]: the timer gets the
    next id and joins the registry. *)
Definition setInterval (job : Job) (period : Z) : CM unit :=
  w <- get_world;;
  c <- get_client;;
  emit (EvSetInterval (mkInterval (w_next_id w) (c_accountIndex c) job period)).

(** Lines 444-455: [false] is the early [return] after a failed probe. *)
Definition proxy_prelude : CM bool :=
  if USE_PROXY cfg then
    ok <- catch (ip <- checkProxyIP env;;
                 upd_client (with_proxyIP ip);;
                 ret true)
                (fun error => log cfg ("Cannot check proxy IP: " ++ exn_message error) LWarning;;
                              ret false);;
    if ok then
      timesleep <- getRandomNumber (fst (DELAY_START_BOT cfg)) (snd (DELAY_START_BOT cfg));;
      log cfg ("Bắt đầu sau " ++ pretty timesleep ++ " giây...") LInfo;;
      sleep timesleep;;
      ret true
    else ret false
  else ret true.

(** Lines 461-476, once the user data is synced. *)
Definition steady : CM unit :=
  c <- get_client;;
  now <- now_ms;;
  let latestCheckin := jget (c_authInfo c) "latestCheckin" in
  (if negb (truthy latestCheckin) || checkInvaliable latestCheckin now then
     handleCheckin cfg env fuel;;
     sleep 1
   else
     log cfg ("Your checked in today! | Latest checkin: " ++ date_string latestCheckin)
       LWarning);;
  setInterval JobCheckPoint checkpoint_period;;
  (if AUTO_TASK cfg then handleTasks cfg env fuel else ret tt);;
  (if AUTO_MINING cfg then
     handleHB cfg env fuel;;
     setInterval JobHB hb_period
   else ret tt).

(** Lines 440-442: the session record and its token. *)
Definition load_session : CM unit :=
  c <- get_client;;
  upd_client (with_session_name (JStr (address (c_itemData c))));;
  c <- get_client;;
  let authInfo := load_authInfo (c_localStorage c) (to_str (c_session_name c)) in
  upd_client (with_authInfo authInfo);;
  upd_client (with_token (jget authInfo "token")).

(** Lines 459-480: the sync and what follows it. *)
Definition sync_then_steady : CM unit :=
  userData <- handleSyncData cfg env fuel;;
  sleep 1;;
  match userData with
  | Some u =>
      if rr_success u then steady
      else log cfg "Can't get user info...skipping" LError
  | None => log cfg "Can't get user info...skipping" LError
  end.

(** The callbacks of the timers (lines 467 and 475): a tick of a
    recurring job runs the handler on the account's client. *)
Definition run_job (j : Job) : CM unit :=
  match j with
  | JobCheckPoint => handleCheckPoint cfg env fuel
  | JobHB => handleHB cfg env fuel
  end.

(** [runAccount] (lines 439-481). *)
Definition runAccount : CM unit :=
  load_session;;
  set_headers cfg env;;
  go <- proxy_prelude;;
  if negb go then ret tt
  else
    token <- getValidToken cfg env fuel false;;
    if negb (truthy token) then ret tt
    else
      set_token token;;
      sync_then_steady.
End Run.

(** ** The happy path *)

Definition login_url (b : string) : string := b ++ "/v1/user/login".
Definition refresh_url (b : string) : string := b ++ "/v1/user/refresh".
Definition profile_url (b : string) : string := b ++ "/v1/user/profile".
Definition balance_url (b : string) : string := b ++ "/v1/point/info".
Definition daily_url (b : string) : string := b ++ "/v1/tasks/daily".
Definition checkin_url (b : string) : string := b ++ "/v1/tasks/complete-daily".
Definition tasks_url (b : string) : string := b ++ "/v1/tasks/".
Definition complete_url (b : string) (t : JVal) : string :=
  b ++ "/v1/tasks/" ++ to_str (jget t "taskId") ++ "/complete".
Definition hb_url (b : string) : string := b ++ "/v1/bandwidth".

(** Whether the daily list has a day to check in (line 368). *)
Definition open_day (ds : list JVal) : bool :=
  match find_strict checkin_open ds with
  | Some x => truthy x
  | None => false
  end.

(** The requests of a run that meets no failure, in order. *)
Definition happy_urls (cfg : Settings) (b : string) (ds ts : list JVal) : list string :=
  [login_url b; profile_url b; balance_url b; daily_url b] ++
  (if open_day ds then [checkin_url b] else []) ++
  (if AUTO_TASK cfg
   then tasks_url b :: map (complete_url b) (List.filter (task_pending cfg) ts) else []) ++
  (if AUTO_MINING cfg then [hb_url b] else []).

(** How many of the URLs [l] are [u]. *)
Definition count_url (u : string) (l : list string) : nat := length (List.filter (String.eqb u) l).

(** What [makeRequest] returns for a 200 answer from a server that
    answers [url] with [ans url]. *)
Definition resp_of (ans : string -> JVal) (u : string) : ReqResult := success_result 200 (ans u).

Lemma string_app_cancel (b x y : string) : (b ++ x)%string = (b ++ y)%string -> x = y.
Proof. induction b as [|a b IH]; cbn; [done|]. intros H. injection H. exact IH. Qed.

(** Two endpoints of the same base URL differ when their paths do. *)
Lemma url_neq b x y : x <> y -> String.eqb (b ++ x) (b ++ y) = false.
Proof. intros Hxy. apply String.eqb_neq. intros H. by apply Hxy, (string_app_cancel b). Qed.

Lemma count_url_complete b u l :
  (forall t, String.eqb u (complete_url b t) = false) ->
  length (List.filter (String.eqb u) (map (complete_url b) l)) = 0%nat.
Proof. intros H. induction l as [|t l IH]; cbn; [done|]. by rewrite H. Qed.

(** The counts the spec's scenario states, read off [happy_urls]. *)
Lemma happy_urls_counts cfg b ds ts :
  count_url (login_url b) (happy_urls cfg b ds ts) = 1%nat /\
  count_url (profile_url b) (happy_urls cfg b ds ts) = 1%nat /\
  count_url (balance_url b) (happy_urls cfg b ds ts) = 1%nat /\
  count_url (refresh_url b) (happy_urls cfg b ds ts) = 0%nat.
Proof.
  unfold happy_urls, count_url, login_url, profile_url, balance_url, refresh_url, daily_url,
    checkin_url, tasks_url, hb_url.
  repeat split; rewrite !List.filter_app, !length_app;
    destruct (open_day ds), (AUTO_TASK cfg), (AUTO_MINING cfg); cbn [List.filter map];
    rewrite ?String.eqb_refl, ?url_neq by discriminate; cbn [length];
    rewrite ?(count_url_complete b)
      by (intros t; unfold complete_url; apply url_neq; discriminate);
    reflexivity.
Qed.

Section HappyPath.
Context (cfg : Settings) (env : Env) (fuel : nat) (ans : string -> JVal).
Hypothesis Hsrv : forall n rq, srv env n rq = RespOk 200 (ans (rq_url rq)).
Hypothesis Hfuel : (2 <= fuel)%nat.

Local Ltac step_mr :=
  flatten;
  match goal with
  | |- context [bind (makeRequest ?cfg ?env ?fuel ?gvt ?url ?m ?d ?o) _ ?s] =>
      let s1 := fresh "s" in let Hp := fresh "Hp" in let Hr := fresh "Hr" in
      destruct (makeRequest_success cfg env gvt fuel url m d o s 200 (ans url))
        as (s1 & Hr & Hp); [lia | apply Hsrv | rewrite (bind_Ok _ _ _ _ _ Hr); clear Hr]
  end.

Lemma handleSyncData_ok s :
  nullish (rr_data (resp_of ans (profile_url (c_baseURL (st_c s))))) = false ->
  nullish (rr_data (resp_of ans (balance_url (c_baseURL (st_c s))))) = false ->
  exists s' evs,
    handleSyncData cfg env fuel s = (Ok (Some (resp_of ans (profile_url (c_baseURL (st_c s))))), s') /\
    pushes evs s s' /\ urls evs = [profile_url (c_baseURL (st_c s)); balance_url (c_baseURL (st_c s))].
Proof.
  intros Hu Hb. unfold handleSyncData. step_log. cbn [sync_loop].
  unfold call, getUserData, get_endpoint. step_read. step_mr.
  rewrite success_result_success, bind_ret_l. unfold getBalance. step_read. step_mr.
  rewrite !success_result_success. cbn [andb]. client_back.
  unfold resp_of, profile_url, balance_url in Hu, Hb. rewrite Hu, Hb. cbv zeta.
  step_log. keep_clients. chain_pushes. eexists _, _. split; [clients_back; reflexivity|].
  split; [eassumption|]. unfold urls. cbn. by clients_back.
Qed.
(** The end of [handleCheckin] (lines 377-378) on an object record. *)
Lemma checkin_save_run s :
  is_obj (c_authInfo (st_c s)) = true ->
  (c <- get_client;;
   now <- now_ms;;
   match jassign (c_authInfo c) "latestCheckin" (JDate now) with
   | None => throw (TypeError ("Cannot set properties of " ++ to_str (c_authInfo c) ++
                               " (setting 'latestCheckin')"))
   | Some a => upd_client (with_authInfo a);; saveJson (c_session_name c) a
   end) s =
  (Ok tt,
   mkSt (with_authInfo (jset (c_authInfo (st_c s)) "latestCheckin" (JDate (w_now (st_w s))))
           (st_c s))
     (apply_event (EvSave (to_str (c_session_name (st_c s)))
                     (jset (c_authInfo (st_c s)) "latestCheckin" (JDate (w_now (st_w s)))))
        (st_w s))).
Proof.
  intros Ho. step_read. step_read. rewrite jassign_obj by exact Ho.
  step_read. reflexivity.
Qed.

Lemma handleCheckin_ok s ds :
  rr_data (resp_of ans (daily_url (c_baseURL (st_c s)))) = JArr ds ->
  forallb (fun x => negb (nullish x)) ds = true ->
  is_obj (c_authInfo (st_c s)) = true ->
  exists s' evs t,
    handleCheckin cfg env fuel s = (Ok tt, s') /\ appends evs s s' /\
    urls evs = daily_url (c_baseURL (st_c s)) ::
                 (if open_day ds then [checkin_url (c_baseURL (st_c s))] else []) /\
    st_c s' = with_authInfo (jset (c_authInfo (st_c s)) "latestCheckin" (JDate t)) (st_c s).
Proof.
  intros Hd Hn Ho. unfold handleCheckin. step_log.
  unfold call, getDailyTasks, get_endpoint. step_read. step_mr. client_back.
  unfold resp_of, daily_url in Hd. rewrite Hd. cbn [js_find_strict].
  destruct (find_strict_some checkin_open ds Hn) as [x Hx]. rewrite Hx.
  unfold open_day. rewrite Hx.
  destruct (truthy x).
  - unfold checkin. step_read. step_mr.
    destruct (truthy (jget _ "statusCode")); cbv beta iota; step_log; keep_clients; chain_pushes;
      (rewrite checkin_save_run by (clients_back; exact Ho));
      (eexists _, _, _; split; [reflexivity|]);
      (split; [eapply appends_trans; [apply pushes_appends; eassumption|apply appends_event]|]);
      (split; [unfold urls; cbn; by clients_back|cbn; by clients_back]).
  - rewrite bind_ret_l. keep_clients. chain_pushes.
    rewrite checkin_save_run by (clients_back; exact Ho).
    eexists _, _, _. split; [reflexivity|].
    split; [eapply appends_trans; [apply pushes_appends; eassumption|apply appends_event]|].
    split; [unfold urls; cbn; by clients_back|cbn; by clients_back].
Qed.
Lemma complete_all_ok l s :
  exists s' evs,
    for_each l (complete_one cfg env fuel) s = (Ok tt, s') /\ pushes evs s s' /\
    urls evs = map (complete_url (c_baseURL (st_c s))) l.
Proof.
  revert s. induction l as [|t l IH]; intros s.
  - exists s, []. split; [reflexivity|]. split; [apply pushes_nil|reflexivity].
  - cbn [for_each]. unfold complete_one at 1. step_sleep. cbv zeta. step_log.
    unfold call, compleTask. step_read. step_mr.
    destruct (loose_eq_num _ 200); cbv beta iota; step_log; cbv beta;
      match goal with |- context [for_each l _ ?s4] =>
        destruct (IH s4) as (s' & evs & Hr & Hp' & Hu) end;
      rewrite Hr; keep_clients; chain_pushes;
      (eexists _, _; split; [reflexivity|]; split; [eassumption|]);
      rewrite !urls_app, Hu; clients_back; reflexivity.
Qed.

Lemma handleTasks_ok s ts :
  rr_data (resp_of ans (tasks_url (c_baseURL (st_c s)))) = JArr ts ->
  forallb (fun x => negb (nullish x)) ts = true ->
  exists s' evs,
    handleTasks cfg env fuel s = (Ok tt, s') /\ pushes evs s s' /\
    urls evs = tasks_url (c_baseURL (st_c s)) ::
                 map (complete_url (c_baseURL (st_c s))) (List.filter (task_pending cfg) ts).
Proof.
  intros Hd Hn. unfold handleTasks. step_log. unfold call, getTasks, get_endpoint.
  step_read. step_mr. rewrite success_result_success. cbn [negb]. client_back.
  unfold resp_of, tasks_url in Hd. rewrite Hd. cbn [js_filter_strict].
  rewrite filter_strict_ok by exact Hn.
  destruct (List.filter (task_pending cfg) ts) as [|t l]; cbv beta iota.
  - match goal with |- context [log ?c ?m ?ty ?s3] =>
      destruct (log_pushes c m ty s3) as (line' & s' & Hr & Hp') end.
    rewrite Hr. keep_clients. chain_pushes. eexists _, _. split; [reflexivity|].
    split; [eassumption|]. unfold urls. cbn. by clients_back.
  - match goal with |- context [for_each ?l' _ ?s3] =>
      destruct (complete_all_ok l' s3) as (s' & evs & Hr & Hp' & Hu) end.
    rewrite Hr. keep_clients. chain_pushes. eexists _, _. split; [reflexivity|].
    split; [eassumption|]. rewrite !urls_app, Hu. clients_back. reflexivity.
Qed.

Lemma handleHB_ok s :
  exists s' evs,
    handleHB cfg env fuel s = (Ok tt, s') /\ pushes evs s s' /\
    urls evs = [hb_url (c_baseURL (st_c s))].
Proof.
  unfold handleHB, call, hb. step_read. step_mr. step_read.
  rewrite success_result_success. cbv beta iota.
  match goal with |- context [log ?c ?m ?ty ?s3] =>
    destruct (log_pushes c m ty s3) as (line' & s' & Hr & Hp') end.
  rewrite Hr. keep_clients. chain_pushes. eexists _, _. split; [reflexivity|].
  split; [eassumption|]. unfold urls. cbn. by clients_back.
Qed.

Lemma setInterval_run job period s :
  setInterval job period s =
    (Ok tt, mkSt (st_c s) (apply_event (EvSetInterval
               (mkInterval (w_next_id (st_w s)) (c_accountIndex (st_c s)) job period)) (st_w s))).
Proof. reflexivity. Qed.
Lemma steady_ok s ds ts :
  truthy (jget (c_authInfo (st_c s)) "latestCheckin") = false ->
  is_obj (c_authInfo (st_c s)) = true ->
  rr_data (resp_of ans (daily_url (c_baseURL (st_c s)))) = JArr ds ->
  forallb (fun x => negb (nullish x)) ds = true ->
  rr_data (resp_of ans (tasks_url (c_baseURL (st_c s)))) = JArr ts ->
  forallb (fun x => negb (nullish x)) ts = true ->
  exists s' evs,
    steady cfg env fuel s = (Ok tt, s') /\ appends evs s s' /\
    urls evs =
      (daily_url (c_baseURL (st_c s)) ::
       (if open_day ds then [checkin_url (c_baseURL (st_c s))] else []) ++
       (if AUTO_TASK cfg
        then tasks_url (c_baseURL (st_c s)) ::
               map (complete_url (c_baseURL (st_c s))) (List.filter (task_pending cfg) ts)
        else []) ++
       (if AUTO_MINING cfg then [hb_url (c_baseURL (st_c s))] else []))%list.
Proof.
  intros Hlc Ho Hd Hn Htd Htn. unfold steady. step_read. step_read. rewrite Hlc.
  cbn [negb orb]. destruct (handleCheckin_ok s ds Hd Hn Ho) as (s1 & e1 & t & Hr1 & A1 & U1 & C1).
  cbv beta iota. flatten.
  rewrite (bind_Ok _ _ _ _ _ Hr1). step_sleep.
  match goal with H : pushes [EvSleep 1] s1 ?x |- _ => rename x into s2; rename H into Hp end.
  rewrite (bind_Ok _ _ _ _ _ (setInterval_run _ _ _)).
  pose proof (appends_event (EvSetInterval (mkInterval (w_next_id (st_w s2))
    (c_accountIndex (st_c s2)) JobCheckPoint checkpoint_period)) s2 (st_c s2)) as A2.
  assert (Hb : c_baseURL (st_c s2) = c_baseURL (st_c s)) by (rewrite (proj1 Hp), C1; done).
  set (s3 := mkSt (st_c s2) (apply_event _ (st_w s2))) in *. assert (Hb3 : c_baseURL (st_c s3) = c_baseURL (st_c s)) by exact Hb.
  clearbody s3.
  destruct (AUTO_TASK cfg).
  - destruct (handleTasks_ok s3 ts) as (s4 & e4 & Hr4 & Hp4 & U4); [by rewrite Hb3|exact Htn|].
    rewrite (bind_Ok _ _ _ _ _ Hr4). rewrite Hb3 in U4.
    assert (Hb4 : c_baseURL (st_c s4) = c_baseURL (st_c s)) by (rewrite (proj1 Hp4); exact Hb3).
    destruct (AUTO_MINING cfg).
    + destruct (handleHB_ok s4) as (s5 & e5 & Hr5 & Hp5 & U5). rewrite Hb4 in U5.
      rewrite (bind_Ok _ _ _ _ _ Hr5), setInterval_run.
      pose proof (appends_event (EvSetInterval (mkInterval (w_next_id (st_w s5))
        (c_accountIndex (st_c s5)) JobHB hb_period)) s5 (st_c s5)) as A6.
      chain_appends. eexists _, _. split; [reflexivity|]. split; [eassumption|].
      rewrite !urls_app, U1, U4, U5. reflexivity.
    + cbv beta iota. chain_appends. eexists _, _. split; [reflexivity|].
      split; [eassumption|]. rewrite !urls_app, U1, U4. cbn. by rewrite app_nil_r.
  - cbv beta iota. rewrite bind_ret_l. destruct (AUTO_MINING cfg); cbv beta iota.
    + destruct (handleHB_ok s3) as (s5 & e5 & Hr5 & Hp5 & U5). rewrite Hb3 in U5.
      rewrite (bind_Ok _ _ _ _ _ Hr5), setInterval_run.
      pose proof (appends_event (EvSetInterval (mkInterval (w_next_id (st_w s5))
        (c_accountIndex (st_c s5)) JobHB hb_period)) s5 (st_c s5)) as A6.
      chain_appends. eexists _, _. split; [reflexivity|]. split; [eassumption|].
      rewrite !urls_app, U1, U5. reflexivity.
    + chain_appends. eexists _, _. split; [reflexivity|]. split; [eassumption|].
      rewrite !urls_app, U1. cbn. by rewrite !app_nil_r.
Qed.
(** The client after [load_session] on a fresh account. *)
Definition session_loaded (s : St) : St :=
  mkSt (with_token JUndef (with_authInfo (JObj [])
          (with_session_name (JStr (address (c_itemData (st_c s)))) (st_c s)))) (st_w s).

Lemma load_session_fresh s :
  c_localStorage (st_c s) !! address (c_itemData (st_c s)) = None ->
  load_session s = (Ok tt, session_loaded s).
Proof.
  intros Hls. unfold load_session. step_read. step_read. step_read.
  cbn [st_c c_localStorage c_session_name with_session_name to_str].
  unfold load_authInfo. rewrite Hls. step_read. reflexivity.
Qed.

Lemma sync_then_steady_ok s ds ts :
  truthy (jget (c_authInfo (st_c s)) "latestCheckin") = false ->
  is_obj (c_authInfo (st_c s)) = true ->
  nullish (rr_data (resp_of ans (profile_url (c_baseURL (st_c s))))) = false ->
  nullish (rr_data (resp_of ans (balance_url (c_baseURL (st_c s))))) = false ->
  rr_data (resp_of ans (daily_url (c_baseURL (st_c s)))) = JArr ds ->
  forallb (fun x => negb (nullish x)) ds = true ->
  rr_data (resp_of ans (tasks_url (c_baseURL (st_c s)))) = JArr ts ->
  forallb (fun x => negb (nullish x)) ts = true ->
  exists s' evs,
    sync_then_steady cfg env fuel s = (Ok tt, s') /\ appends evs s s' /\
    urls evs = (profile_url (c_baseURL (st_c s)) :: balance_url (c_baseURL (st_c s)) ::
                 List.skipn 3 (happy_urls cfg (c_baseURL (st_c s)) ds ts))%list.
Proof.
  intros Hlc Ho Hpr Hbal Hd Hdn Ht Htn. unfold sync_then_steady.
  destruct (handleSyncData_ok s) as (s1 & e1 & Hr1 & Hp1 & U1); [exact Hpr|exact Hbal|].
  rewrite (bind_Ok _ _ _ _ _ Hr1). step_sleep.
  cbv beta iota. unfold resp_of at 1. rewrite success_result_success. cbv beta iota.
  match goal with H : pushes [EvSleep 1] s1 ?x |- _ => rename x into s2; rename H into Hp2 end.
  assert (Hc2 : st_c s2 = st_c s) by (rewrite (proj1 Hp2); exact (proj1 Hp1)).
  destruct (steady_ok s2 ds ts) as (s3 & e3 & Hr3 & A3 & U3); rewrite ?Hc2; try done.
  rewrite Hr3. chain_appends. eexists _, _. split; [reflexivity|]. split; [eassumption|].
  rewrite !urls_app, U1, U3, Hc2. reflexivity.
Qed.

(** C23. The spec's first-run scenario (section 8): an account with no
    stored session record, without proxies, against a server that
    answers every request with a 200 carrying well-formed data, runs to
    the end of [runAccount] without an exception and sends exactly the
    requests of [happy_urls], in that order: one login, one profile,
    one balance and no refresh request, then the daily list, the
    check-in when a day is open, the tasks and the heartbeat. *)
Theorem runAccount_first_run s ds ts :
  USE_PROXY cfg = false -> (4 <= fuel)%nat ->
  c_localStorage (st_c s) !! address (c_itemData (st_c s)) = None ->
  is_obj (c_session_user_agents (st_c s)) = true ->
  truthy (jget (rr_data (resp_of ans (login_url (c_baseURL (st_c s))))) "accessToken") = true ->
  nullish (rr_data (resp_of ans (profile_url (c_baseURL (st_c s))))) = false ->
  nullish (rr_data (resp_of ans (balance_url (c_baseURL (st_c s))))) = false ->
  rr_data (resp_of ans (daily_url (c_baseURL (st_c s)))) = JArr ds ->
  forallb (fun x => negb (nullish x)) ds = true ->
  rr_data (resp_of ans (tasks_url (c_baseURL (st_c s)))) = JArr ts ->
  forallb (fun x => negb (nullish x)) ts = true ->
  exists s' evs,
    runAccount cfg env fuel s = (Ok tt, s') /\ appends evs s s' /\
    urls evs = happy_urls cfg (c_baseURL (st_c s)) ds ts /\
    count_url (login_url (c_baseURL (st_c s))) (urls evs) = 1%nat /\
    count_url (profile_url (c_baseURL (st_c s))) (urls evs) = 1%nat /\
    count_url (balance_url (c_baseURL (st_c s))) (urls evs) = 1%nat /\
    count_url (refresh_url (c_baseURL (st_c s))) (urls evs) = 0%nat.
Proof.
  intros Hnp Hf4 Hls Hua Hacc Hpr Hbal Hd Hdn Ht Htn. unfold runAccount.
  rewrite (bind_Ok _ _ _ _ _ (load_session_fresh s Hls)).
  destruct (set_headers_obj cfg env (session_loaded s)) as (s1 & e1 & Hr1 & A1 & N1 & h & sua & C1);
    [exact Hua|].
  rewrite (bind_Ok _ _ _ _ _ Hr1). unfold proxy_prelude. rewrite Hnp, bind_ret_l. cbn [negb].
  assert (Hfe : fuel = S (pred fuel)) by lia.
  destruct (getValidToken_login cfg env (pred fuel) false s1 200
              (ans (login_url (c_baseURL (st_c s))))) as (s2 & e2 & Hr2 & Hp2 & U2 & _);
    [lia|by rewrite C1|by rewrite C1|rewrite Hsrv; unfold login_url; by rewrite C1|exact Hacc|].
  rewrite <- Hfe in Hr2. unfold resp_of in Hacc. pose proof (proj1 Hp2) as Hc2.
  rewrite (bind_Ok _ _ _ _ _ Hr2), Hacc. cbn [negb]. cbv beta iota.
  rewrite (bind_Ok _ _ _ _ _ (set_token_run _ _)).
  cbv beta. match goal with |- context [sync_then_steady cfg env fuel ?sx] =>
    destruct (sync_then_steady_ok sx ds ts) as (s3 & e3 & Hr3 & A3 & U3);
    [..|rewrite Hr3; assert (A2 : appends [] s2 sx) by done] end;
    cbn [st_c]; rewrite ?Hc2, ?C1; try done; try (by rewrite Hd); try (by rewrite Ht).
  chain_appends. eexists _, _. split; [reflexivity|]. split; [eassumption|].
  match goal with |- context [urls ?E] =>
    enough (Hu : urls E = happy_urls cfg (c_baseURL (st_c s)) ds ts)
      by (rewrite Hu; split; [done|apply happy_urls_counts]) end.
  rewrite !urls_app, U3. cbn [st_c]. rewrite Hc2, C1.
  assert (Hu1 : urls e1 = []) by (unfold urls; by rewrite N1).
  assert (Hu2 : urls e2 = [login_url (c_baseURL (st_c s))])
    by (unfold urls; rewrite U2; cbn; by rewrite C1).
  rewrite Hu1, Hu2. reflexivity.
Qed.
End HappyPath.

(** ** The recurring jobs *)

Section Timers.
Context (cfg : Settings) (env : Env) (fuel : nat).

Lemma call_nothrow (ep : nat -> (bool -> CM JVal) -> CM ReqResult) :
  (forall f gvt, (forall b, nothrow (gvt b)) -> nothrow (ep f gvt)) ->
  nothrow (call cfg env fuel ep).
Proof. intros Hep. apply Hep. intros b s e s'. apply getValidToken_nothrow. Qed.

(** C27. A tick of the heartbeat timer never throws, whatever the
    server answers: the recurring heartbeat cannot end in an unhandled
    rejection. *)
Theorem hb_tick_nothrow : nothrow (run_job cfg env fuel JobHB).
Proof.
  unfold run_job, handleHB. solve_struct; [|solve [eauto with flow]..].
  apply call_nothrow. intros f gvt Hg. unfold hb. solve_struct.
Qed.

(** C28. A tick of the balance timer throws only when [getBalance]
    succeeded with a [null] or [undefined] [data]: the destructuring of
    line 349 then throws a [TypeError] in the timer's callback, an
    unhandled rejection. *)
Theorem checkpoint_tick_throws s e s' :
  run_job cfg env fuel JobCheckPoint s = (Throw e, s') ->
  exists r s1, call cfg env fuel (getBalance cfg env) s = (Ok r, s1) /\
    rr_success r = true /\ nullish (rr_data r) = true /\
    e = TypeError ("Cannot destructure property 'referralEarningPoint' of " ++
                   "'balanceData.data' as it is " ++ to_str (rr_data r) ++ ".").
Proof.
  unfold run_job, handleCheckPoint. unfold bind at 1.
  destruct (call cfg env fuel (getBalance cfg env) s) as [[r|e'|] s1] eqn:Hc; intros H.
  - exists r, s1. destruct (rr_success r) eqn:Hs; cbn [negb] in H.
    + destruct (nullish (rr_data r)) eqn:Hn; [by injection H as <-|].
      unfold bind in H. rewrite now_ms_run in H. by apply log_nothrow in H.
    + by apply log_nothrow in H.
  - exfalso. apply (call_nothrow (getBalance cfg env)) in Hc; [done|].
    intros f gvt Hg. unfold getBalance. solve_struct.
  - done.
Qed.
End Timers.

(** ** A dead proxy *)

Section DeadProxy.
Context (cfg : Settings) (env : Env) (fuel : nat).

Lemma load_session_run s :
  exists a, load_session s =
    (Ok tt, mkSt (with_token (jget a "token") (with_authInfo a
                   (with_session_name (JStr (address (c_itemData (st_c s)))) (st_c s)))) (st_w s)).
Proof. unfold load_session. step_read. step_read. step_read. step_read. by eexists. Qed.

(** C29. With proxies in use and a proxy whose probe fails, [runAccount]
    ends normally after the probe: it sends no other request, so no
    authenticated call is made and the run does not fall back to a
    direct connection. *)
Theorem runAccount_dead_proxy s :
  USE_PROXY cfg = true ->
  is_obj (c_session_user_agents (st_c s)) = true ->
  (forall n, probe_fails (srv env n (mkReq "get" ipify_url JUndef JUndef (c_proxy (st_c s)))) = true) ->
  exists s' evs, runAccount cfg env fuel s = (Ok tt, s') /\ appends evs s s' /\
    urls evs = [ipify_url].
Proof.
  intros Hp Hua Hf. unfold runAccount.
  destruct (load_session_run s) as [a Ha]. rewrite (bind_Ok _ _ _ _ _ Ha).
  match goal with |- context [bind (set_headers cfg env) _ ?s0] =>
    destruct (set_headers_obj cfg env s0) as (s1 & e1 & Hr1 & A1 & N1 & h & sua & C1); [exact Hua|] end.
  rewrite (bind_Ok _ _ _ _ _ Hr1). unfold proxy_prelude. rewrite Hp.
  destruct (checkProxyIP_fails env s1) as (e & s2 & Hr2 & Hp2).
  { rewrite C1. apply Hf. }
  destruct (log_pushes cfg ("Cannot check proxy IP: " ++ exn_message e) LWarning s2)
    as (l & s3 & Hl & Hp3).
  rewrite bind_assoc, (bind_Ok _ _ _ false s3).
  2: { rewrite (catch_Throw _ _ _ _ _ (bind_Throw _ _ _ _ _ Hr2)). by rewrite (bind_Ok _ _ _ _ _ Hl). }
  cbv beta iota. rewrite bind_ret_l. cbv beta iota. cbn [negb].
  chain_pushes. apply pushes_appends in H. eexists _, _. split; [reflexivity|].
  split; [exact (appends_trans _ _ _ _ _ A1 H)|].
  rewrite urls_app. unfold urls at 1. by rewrite N1.
Qed.
End DeadProxy.

(** ** Witnesses and runs over several process starts *)

Definition api : string := "https://api.flow3.tech/api".

Definition sample_task : JVal := JObj [("taskId", JNum 1); ("title", JStr "Follow"); ("status", JNum 0)].

(** A server that accepts everything: the login returns tokens, the
    daily list has an open day, the task list one task, and the
    refresh endpoint returns new tokens. *)
Definition happy_answer (u : string) : JVal :=
  if String.eqb u (login_url api) then
    JObj [("data", JObj [("accessToken", JStr "AT1"); ("refreshToken", JStr "RT1")])]
  else if String.eqb u (refresh_url api) then
    JObj [("data", JObj [("accessToken", JStr "AT2"); ("refreshToken", JStr "RT2")])]
  else if String.eqb u (daily_url api) then JObj [("data", JArr [sample_day])]
  else if String.eqb u (tasks_url api) then JObj [("data", JArr [sample_task])]
  else JObj [("data", JObj [("statusCode", JNum 200)])].

Definition happy_env : Env := sample_env (fun _ rq => RespOk 200 (happy_answer (rq_url rq))).

(** The state [main] builds for the first account: the client of the
    constructor over the snapshot [ls] of [localStorage.json], at time
    [now]. *)
Definition start_state (ls : gmap string JVal) (now : Z) : St :=
  mkSt (new_ClientAPI sample_item 0 JNull api ls JUndef)
    (mkWorld now 0 0 [] ls (JObj []) [] 0).

Lemma runAccount_first_run_witness :
  exists s' evs,
    runAccount sample_cfg happy_env 5 (start_state ∅ 1700000000000) = (Ok tt, s') /\
    appends evs (start_state ∅ 1700000000000) s' /\
    urls evs = happy_urls sample_cfg api [sample_day] [sample_task] /\
    count_url (login_url api) (urls evs) = 1%nat /\
    count_url (profile_url api) (urls evs) = 1%nat /\
    count_url (balance_url api) (urls evs) = 1%nat /\
    count_url (refresh_url api) (urls evs) = 0%nat.
Proof.
  apply (runAccount_first_run sample_cfg happy_env 5 happy_answer); try reflexivity; lia.
Defined.

(** One process start running the first account against [happy_env]
    at time [now], over the snapshot [ls]; [main] reads the snapshot
    from the file the previous start left. *)
Definition process_start (ls : gmap string JVal) (now : Z) : outcome Exn unit * St :=
  runAccount sample_cfg happy_env 5 (start_state ls now).

(** The requests of a start, in order. *)
Definition start_urls (r : outcome Exn unit * St) : list string := urls (w_trace (st_w r.2)).

(** A concrete scenario: the check-in is not idempotent across process starts, and the
    stored tokens are not reused.  Three starts one hour apart against
    a server that accepts everything: the first logs in and checks in,
    and its last save replaces the record holding the new tokens by the
    stale record plus [latestCheckin]; the second finds no token, logs
    in again, skips the check-in, and its login save drops
    [latestCheckin]; the third ignores the valid stored access token
    (it reads [authInfo.token], the saves write [accessToken]),
    refreshes, and checks in again two hours after the first check-in.
    The spec requires zero check-in requests within 24 hours of a
    recorded check-in. *)
Example checkin_repeats_within_a_day :
  let t0 := 1700000000000%Z in
  let r1 := process_start ∅ t0 in
  let r2 := process_start (w_file (st_w r1.2)) (t0 + 3600000) in
  let r3 := process_start (w_file (st_w r2.2)) (t0 + 7200000) in
  r1.1 = Ok tt /\ r2.1 = Ok tt /\ r3.1 = Ok tt /\
  count_url (checkin_url api) (start_urls r1) = 1%nat /\
  w_file (st_w r1.2) !! "WALLET" = Some (JObj [("latestCheckin", JDate (t0 + 1000))]) /\
  count_url (login_url api) (start_urls r2) = 1%nat /\
  count_url (checkin_url api) (start_urls r2) = 0%nat /\
  w_file (st_w r2.2) !! "WALLET" =
    Some (JObj [("accessToken", JStr "AT1"); ("refreshToken", JStr "RT1")]) /\
  count_url (refresh_url api) (start_urls r3) = 1%nat /\
  count_url (checkin_url api) (start_urls r3) = 1%nat /\
  (t0 + 7200000 - (t0 + 1000) < 86400000)%Z.
Proof. vm_compute. repeat split. Qed.

Lemma checkpoint_tick_throws_witness :
  let env := sample_env (answer_all (RespOk 200 JNull)) in
  let s := sample_state (JStr "good") (JObj []) in
  let out := run_job sample_cfg env 3 JobCheckPoint s in
  out = (Throw (TypeError ("Cannot destructure property 'referralEarningPoint' of " ++
                           "'balanceData.data' as it is null.")), snd out) /\
  exists r s1, call sample_cfg env 3 (getBalance sample_cfg env) s = (Ok r, s1) /\
    rr_success r = true /\ nullish (rr_data r) = true /\
    TypeError ("Cannot destructure property 'referralEarningPoint' of " ++
               "'balanceData.data' as it is null.") =
    TypeError ("Cannot destructure property 'referralEarningPoint' of " ++
               "'balanceData.data' as it is " ++ to_str (rr_data r) ++ ".").
Proof.
  intros env s out.
  assert (Hr : out = (Throw (TypeError ("Cannot destructure property 'referralEarningPoint' of " ++
                                        "'balanceData.data' as it is null.")), snd out))
    by (vm_compute; reflexivity).
  split; [exact Hr|]. exact (checkpoint_tick_throws sample_cfg env 3 s _ (snd out) Hr).
Defined.

Lemma runAccount_dead_proxy_witness :
  let cfg := mkSettings true true true [JNum 7] (JStr "REF") (1, 2)%Z 10%Z 10%Z
               ["Mozilla/5.0 (Linux; Android 13)"] in
  let env := sample_env (answer_all (RespErr JUndef JUndef "connect ECONNREFUSED")) in
  let s := sample_state (JStr "good") (JObj []) in
  exists s' evs, runAccount cfg env 3 s = (Ok tt, s') /\ appends evs s s' /\
    urls evs = [ipify_url].
Proof.
  intros cfg env s. apply (runAccount_dead_proxy cfg env 3 s); [reflexivity|reflexivity|].
  intros n. reflexivity.
Defined.
