(* ===== verification/Scheduler.v ===== *)
(** * The batch scheduler and the interval registry

    [main] ([src/main.js] lines 494-557) validates the inputs, picks
    [maxThreads], and runs the accounts in consecutive batches: the loop
    [for (let i = 0; i < itemDatas.length; i += maxThreads)] slices the
    batch [itemDatas.slice(i, i + maxThreads)], starts [runAccount] for
    each of its accounts with [accountIndex = i + indexInBatch], and
    awaits [Promise.all] of the batch.  A rejected run rejects
    [Promise.all], which ends [main] with the rejection, and the handler
    of line 560 calls [process.exit(1)].  [stopInterVal] (lines
    484-491) clears every registered timer.

    The model:
    - [js_slice] is [Array.prototype.slice] with its negative indices;
      [batch_starts] is the [for] loop over the start indices, with fuel
      (it diverges when [maxThreads <= 0]); [batches] are the slices;
    - [sched_step] is the execution of the batches as a step relation:
      a batch is launched at once (the [map] starts every run before
      the first [await]), its runs settle in any order, a rejection ends
      the process; [ok i] is whether the run of account [i] fulfils;
    - [stopInterVal] acts on the registry [w_intervals] of the world.

    The invariant [sched_inv] (proved of every reachable state by rule
    induction) splits the batches into those fully fulfilled, the one in
    progress and those not launched; batch ordering and the concurrency
    bound follow from it, and [batch_starts_cover] connects the
    execution to the slices of [main]. *)

From S2P Require Import Prelude Js Config ClientState.

Local Open Scope Z_scope.

(** [xs.slice(s, e)]: a negative index counts from the end. *)
Definition js_slice {A} (xs : list A) (s e : Z) : list A :=
  let n := Z.of_nat (length xs) in
  let rel k := if k <? 0 then Z.max (n + k) 0 else Z.min k n in
  take (Z.to_nat (rel e - rel s)) (drop (Z.to_nat (rel s)) xs).

(** The start indices of the loop of line 548, [None] when [fuel]
    iterations do not end it. *)
Fixpoint batch_starts (fuel : nat) (n m i : Z) : option (list Z) :=
  match fuel with
  | O => None
  | S f =>
      if i <? n then
        match batch_starts f n m (i + m) with
        | Some rest => Some (i :: rest)
        | None => None
        end
      else Some []
  end.

(** Each batch with the [accountIndex] of its first account. *)
Definition batches {A} (xs : list A) (m : Z) (starts : list Z) : list (Z * list A) :=
  map (fun i => (i, js_slice xs i (i + m))) starts.

(** [accountIndex = i + indexInBatch] (line 551) for each account of
    a batch. *)
Definition batch_indices {A} (ib : Z * list A) : list Z :=
  map (fun j => fst ib + Z.of_nat j) (seq 0 (length (snd ib))).

(** The [accountIndex] of each account of the batches, in launch order. *)
Definition account_indices {A} (bs : list (Z * list A)) : list Z := flat_map batch_indices bs.

(** Line 510. *)
Definition maxThreads (cfg : Settings) : Z :=
  if USE_PROXY cfg then MAX_THEADS cfg else MAX_THEADS_NO_PROXY cfg.

(** The check of line 500: [false] is [process.exit(1)]. *)
Definition inputs_ok (cfg : Settings) (ndata nproxies : nat) : bool :=
  negb ((ndata =? 0)%nat || ((nproxies <? ndata)%nat && USE_PROXY cfg)).

(** [proxies[accountIndex] || null] (line 552). *)
Definition proxy_of (proxies : list string) (accountIndex : Z) : JVal :=
  match nth_error proxies (Z.to_nat accountIndex) with
  | Some p => if String.eqb p "" then JNull else JStr p
  | None => JNull
  end.

(** ** Execution of the batches *)

Inductive SchedEvent : Type :=
  | Launch (i : nat)
  | Settle (i : nat) (fulfilled : bool).

Record Sched : Type := mkSched {
  sc_batches : list (list nat);   (* the batches not yet launched *)
  sc_running : list nat;          (* the runs of the current batch not settled *)
  sc_exited : bool;               (* process.exit(1) was called *)
  sc_trace : list SchedEvent;     (* newest first *)
}.

Section Execution.
Context (ok : nat -> bool).

Inductive sched_step : Sched -> Sched -> Prop :=
  | step_launch b bs tr :
      sched_step (mkSched (b :: bs) [] false tr)
                 (mkSched bs b false (reverse (Launch <$> b) ++ tr))
  | step_fulfil bs r1 i r2 tr :
      ok i = true ->
      sched_step (mkSched bs (r1 ++ i :: r2) false tr)
                 (mkSched bs (r1 ++ r2) false (Settle i true :: tr))
  | step_reject bs r1 i r2 tr :
      ok i = false ->
      sched_step (mkSched bs (r1 ++ i :: r2) false tr)
                 (mkSched bs (r1 ++ r2) true (Settle i false :: tr)).

Definition sched_init (bs : list (list nat)) : Sched := mkSched bs [] false [].

Inductive reachable (bs : list (list nat)) : Sched -> Prop :=
  | reach_init : reachable bs (sched_init bs)
  | reach_step s s' : reachable bs s -> sched_step s s' -> reachable bs s'.
End Execution.

(** The runs [main] starts, batch by batch, named by their
    [accountIndex]. *)
Definition sched_batches {A} (bs : list (Z * list A)) : list (list nat) :=
  map (fun ib => Z.to_nat <$> batch_indices ib) bs.

(** The scenario of the spec: five accounts, [maxThreads = 2]; the
    state after the first batch fulfilled and the second was launched,
    and the state after every run fulfilled. *)
Definition spec_batches : list (list nat) := [[0; 1]; [2; 3]; [4]]%nat.

Definition spec_mid : Sched :=
  mkSched [[4]]%nat [2; 3]%nat false
    [Launch 3; Launch 2; Settle 1 true; Settle 0 true; Launch 1; Launch 0].

Definition spec_end : Sched :=
  mkSched [] [] false
    [Settle 4 true; Launch 4; Settle 3 true; Settle 2 true; Launch 3; Launch 2;
     Settle 1 true; Settle 0 true; Launch 1; Launch 0].

(** ** The interval registry *)

(** [stopInterVal] (lines 484-491). *)
Definition stopInterVal : CM unit :=
  w <- get_world;;
  if (0 <? length (w_intervals w))%nat then
    for_each (w_intervals w) (fun iv => emit (EvClearInterval (iv_id iv)));;
    upd_world (fun w => mkWorld (w_now w) (w_calls w) (w_rand w) (w_trace w) (w_file w)
                          (w_ua_file w) [] (w_next_id w))
  else ret tt.

(** The SIGINT handler of lines 530-535, up to its [process.exit()]. *)
Definition on_sigint : CM unit :=
  console_log "Stopping...";;
  stopInterVal;;
  sleep 1.

(** ** Invariant of the execution *)

Definition settled (tr : list SchedEvent) (i : nat) : Prop := exists f, Settle i f ∈ tr.

(** Every launch of an account of a batch comes after the fulfilment of
    every account of every earlier batch (the trace is newest first). *)
Definition launch_order (bs : list (list nat)) (tr : list SchedEvent) : Prop :=
  forall pre b post i j tr1 tr2,
    bs = pre ++ b :: post -> i ∈ b -> j ∈ concat pre ->
    tr = tr2 ++ Launch i :: tr1 -> Settle j true ∈ tr1.

(** [done] are the batches whose runs all fulfilled, [cur] the batch in
    progress (none before the first launch). *)
Definition sched_inv (ok : nat -> bool) (bs : list (list nat)) (s : Sched) : Prop :=
  exists done cur,
    bs = done ++ cur ++ sc_batches s /\ (length cur <= 1)%nat /\
    (forall i, i ∈ concat done -> Settle i true ∈ sc_trace s) /\
    (forall i, i ∈ concat cur -> i ∈ sc_running s \/ settled (sc_trace s) i) /\
    sc_running s `sublist_of` concat cur /\
    (forall i, Launch i ∈ sc_trace s -> i ∈ concat (done ++ cur)) /\
    (forall i, Settle i true ∈ sc_trace s -> ok i = true) /\
    (sc_exited s = false -> forall i, Settle i false ∉ sc_trace s) /\
    launch_order bs (sc_trace s).

(** With distinct accounts, an account determines the batches before
    its own. *)
Lemma batch_position (bs pre post pre' post' : list (list nat)) (b b' : list nat) (i : nat) :
  NoDup (concat bs) -> bs = pre ++ b :: post -> bs = pre' ++ b' :: post' ->
  i ∈ b -> i ∈ b' -> pre = pre'.
Proof.
  intros Hnd -> Heq Hi Hi'. revert pre' Heq Hnd.
  induction pre as [|c pre IH]; intros [|c' pre'] Heq Hnd; simpl in Heq, Hnd; [done| | |].
  - injection Heq as <- ->. apply NoDup_app in Hnd as (_ & Hd & _). destruct (Hd i Hi).
    rewrite concat_app. apply elem_of_app. right. simpl. apply elem_of_app. by left.
  - injection Heq as -> <-. apply NoDup_app in Hnd as (_ & Hd & _). destruct (Hd i Hi').
    rewrite concat_app. apply elem_of_app. right. simpl. apply elem_of_app. by left.
  - injection Heq as -> Heq. apply NoDup_app in Hnd as (_ & _ & Hnd).
    f_equal. by apply IH.
Qed.

Lemma launch_order_cons bs e tr :
  (forall i, e <> Launch i) -> launch_order bs tr -> launch_order bs (e :: tr).
Proof.
  intros He Hlo pre b post i j tr1 tr2 Hbs Hi Hj Htr.
  destruct tr2 as [|e' tr2]; cbn in Htr; injection Htr as -> Htr; [by destruct (He i)|].
  eapply Hlo; eauto.
Qed.

Lemma sched_inv_init ok bs : sched_inv ok bs (sched_init bs).
Proof.
  exists (@nil (list nat)), (@nil (list nat)). cbn.
  repeat split; try done; try set_solver; try apply sublist_nil_l.
  intros pre b post i j tr1 tr2 _ _ _ Htr. by destruct tr2.
Qed.

Lemma sched_inv_launch ok bs b bs' tr :
  NoDup (concat bs) -> sched_inv ok bs (mkSched (b :: bs') [] false tr) ->
  sched_inv ok bs (mkSched bs' b false (reverse (Launch <$> b) ++ tr)).
Proof.
  intros Hnd (done & cur & Hbs & Hlen & Hdone & Hcur & Hsub & Hl & Hok & Hnf & Hlo). cbn in *.
  (* the batch in progress has fulfilled entirely *)
  assert (Hall : forall i, i ∈ concat (done ++ cur) -> Settle i true ∈ tr).
  { intros i Hi. rewrite concat_app in Hi. apply elem_of_app in Hi as [Hi|Hi]; [auto|].
    destruct (Hcur i Hi) as [Hr|[f Hs]]; [set_solver|].
    destruct f; [done|]. by destruct (Hnf eq_refl i). }
  assert (Hnew : forall e, e ∈ reverse (Launch <$> b) -> exists i, e = Launch i /\ i ∈ b).
  { intros e He. rewrite elem_of_reverse, list_elem_of_fmap in He.
    destruct He as (i & -> & Hi). by exists i. }
  exists (done ++ cur), [b]. cbn. repeat split.
  - by rewrite Hbs, <- app_assoc.
  - cbn. lia.
  - intros i Hi. apply elem_of_app. right. by apply Hall.
  - intros i Hi. left. by rewrite app_nil_r in Hi.
  - by rewrite app_nil_r.
  - intros i Hi. rewrite concat_app, elem_of_app. cbn. rewrite app_nil_r.
    apply elem_of_app in Hi as [Hi|Hi].
    + destruct (Hnew _ Hi) as (i' & [= <-] & Hi'). by right.
    + left. by apply Hl.
  - intros i Hi. apply elem_of_app in Hi as [Hi|Hi]; [|auto].
    by destruct (Hnew _ Hi) as (? & ? & _).
  - intros _ i Hi. apply elem_of_app in Hi as [Hi|Hi]; [|by apply (Hnf eq_refl i)].
    by destruct (Hnew _ Hi) as (? & ? & _).
  - intros pre b0 post i j tr1 tr2 Hbs' Hi Hj Htr.
    apply app_eq_inv in Htr as [(k & Hk1 & Hk2)|(k & Hk1 & Hk2)].
    + destruct k as [|e k]; cbn in Hk2.
      * subst tr. eapply (Hlo _ _ _ _ _ _ []); [exact Hbs'|exact Hi|exact Hj|done].
      * injection Hk2 as <- ->.
        assert (Hin : Launch i ∈ reverse (Launch <$> b)) by (rewrite Hk1; apply elem_of_app; right; apply list_elem_of_here).
        destruct (Hnew _ Hin) as (i' & [= <-] & Hib).
        assert (Hpre : pre = done ++ cur).
        { eapply (batch_position bs _ post _ bs' b0 b); eauto. by rewrite Hbs, app_assoc. }
        subst pre. apply elem_of_app. right. by apply Hall.
    + eapply Hlo; eauto.
Qed.

Lemma sublist_remove_mid {A} (r1 r2 : list A) (i : A) : r1 ++ r2 `sublist_of` r1 ++ i :: r2.
Proof. apply sublist_app; [done|]. by apply sublist_cons. Qed.

(** A run of the batch in progress settles, fulfilled or not. *)
Lemma sched_inv_settle ok bs bs' r1 i r2 f tr :
  (f = true -> ok i = true) ->
  sched_inv ok bs (mkSched bs' (r1 ++ i :: r2) false tr) ->
  sched_inv ok bs (mkSched bs' (r1 ++ r2) (negb f) (Settle i f :: tr)).
Proof.
  intros Hf (done & cur & Hbs & Hlen & Hdone & Hcur & Hsub & Hl & Hok & Hnf & Hlo). cbn in *.
  exists done, cur. cbn. repeat split; [done|done| | | | | | |].
  - intros j Hj. apply elem_of_cons. right. by apply Hdone.
  - intros j Hj. destruct (Hcur j Hj) as [Hr|[g Hs]].
    + destruct (decide (j = i)) as [->|Hne].
      * right. exists f. apply list_elem_of_here.
      * left. apply elem_of_app in Hr as [Hr|Hr]; apply elem_of_app; [by left|right].
        by apply elem_of_cons in Hr as [?|?].
    + right. exists g. by apply elem_of_cons; right.
  - etrans; [apply sublist_remove_mid|exact Hsub].
  - intros j Hj. apply elem_of_cons in Hj as [Hj|Hj]; [done|by apply Hl].
  - intros j Hj. apply elem_of_cons in Hj as [[= -> <-]|Hj]; [by apply Hf|by apply Hok].
  - intros Hne j Hj. destruct f; [|done].
    apply elem_of_cons in Hj as [Hj|Hj]; [done|by apply (Hnf eq_refl j)].
  - apply launch_order_cons; [done|exact Hlo].
Qed.

(** The invariant holds in every state the execution reaches. *)
Lemma sched_inv_reachable ok bs s :
  NoDup (concat bs) -> reachable ok bs s -> sched_inv ok bs s.
Proof.
  intros Hnd Hr. induction Hr as [|s s' _ IH Hst]; [apply sched_inv_init|].
  inversion Hst; subst.
  - by apply sched_inv_launch.
  - by apply (sched_inv_settle ok bs bs0 r1 i r2 true tr).
  - by apply (sched_inv_settle ok bs bs0 r1 i r2 false tr).
Qed.

(** A state with no step: the process exited, or every batch ran. *)
Lemma sched_terminal ok s :
  (forall s', ~ sched_step ok s s') ->
  sc_exited s = true \/ (sc_batches s = [] /\ sc_running s = []).
Proof.
  destruct s as [bs [|i r] [] tr]; cbn; intros Hn; auto.
  - destruct bs as [|b bs]; [auto|]. destruct (Hn _ (step_launch ok b bs tr)).
  - destruct (ok i) eqn:Hi.
    + destruct (Hn _ (step_fulfil ok bs [] i r tr Hi)).
    + destruct (Hn _ (step_reject ok bs [] i r tr Hi)).
Qed.

Lemma sched_not_exited ok bs s :
  (forall i, ok i = true) -> reachable ok bs s -> sc_exited s = false.
Proof.
  intros Hok Hr. induction Hr as [|s s' _ IH Hst]; [done|].
  inversion Hst; subst; cbn in *; [done|done|]. by rewrite Hok in *.
Qed.

(** The exit flag of a reachable state: before any rejection no run has
    rejected; after it the rejection is the newest event and is the only
    one. *)
Definition exit_inv (s : Sched) : Prop :=
  (sc_exited s = false /\ forall i, Settle i false ∉ sc_trace s) \/
  (sc_exited s = true /\ exists i tr, sc_trace s = Settle i false :: tr /\
                                     forall j, Settle j false ∉ tr).

Lemma exit_inv_reachable ok bs s : reachable ok bs s -> exit_inv s.
Proof.
  induction 1 as [|s s' _ IH Hst]; [left; split; [done|intros i Hi; by apply elem_of_nil in Hi]|].
  inversion Hst as [b bs' tr|bs' r1 i r2 tr Hok|bs' r1 i r2 tr Hok]; subst;
    destruct IH as [[_ Hn]|[He _]]; cbn in *; try discriminate.
  - left. split; [done|]. intros j Hj. apply elem_of_app in Hj as [Hj|Hj]; [|by apply (Hn j)].
    rewrite elem_of_reverse, list_elem_of_fmap in Hj. by destruct Hj as (? & ? & _).
  - left. split; [done|]. intros j Hj. apply elem_of_cons in Hj as [Hj|Hj]; [done|by apply (Hn j)].
  - right. split; [done|]. by exists i, tr.
Qed.

(** ** Properties of the execution *)

(** In every execution of distinct runs, when a run of a batch is
    launched, every run of every earlier batch has fulfilled. *)
Lemma sched_batch_order ok bs s pre b post i j tr1 tr2 :
  NoDup (concat bs) -> reachable ok bs s ->
  bs = pre ++ b :: post -> i ∈ b -> j ∈ concat pre ->
  sc_trace s = tr2 ++ Launch i :: tr1 -> Settle j true ∈ tr1.
Proof.
  intros Hnd Hr. destruct (sched_inv_reachable ok bs s Hnd Hr) as (? & ? & _ & _ & _ & _ & _ & _ & _ & _ & Hlo).
  exact (Hlo pre b post i j tr1 tr2).
Qed.

(** When no batch has more than [m] runs, no more than [m] runs are in
    progress at once. *)
Lemma sched_concurrency_bound ok bs s m :
  NoDup (concat bs) -> Forall (fun b => (length b <= m)%nat) bs -> reachable ok bs s ->
  (length (sc_running s) <= m)%nat.
Proof.
  intros Hnd Hm Hr.
  destruct (sched_inv_reachable ok bs s Hnd Hr) as (done & cur & Hbs & Hlen & _ & _ & Hsub & _).
  apply sublist_length in Hsub. destruct cur as [|c [|? ?]]; cbn in *; [lia| |lia].
  rewrite app_nil_r in Hsub. rewrite Forall_forall in Hm.
  assert (length c <= m)%nat; [|lia]. apply Hm. rewrite Hbs. set_solver.
Qed.

(** C31. Completion: when every run fulfils, an execution that cannot
    step further has launched and fulfilled every account. *)
Theorem sched_completes ok bs s :
  (forall i, ok i = true) -> NoDup (concat bs) -> reachable ok bs s ->
  (forall s', ~ sched_step ok s s') ->
  forall i, i ∈ concat bs -> Settle i true ∈ sc_trace s.
Proof.
  intros Hok Hnd Hr Hterm i Hi.
  pose proof (sched_not_exited ok bs s Hok Hr) as Hex.
  destruct (sched_terminal ok s Hterm) as [He|[Hb Hrun]]; [congruence|].
  destruct (sched_inv_reachable ok bs s Hnd Hr)
    as (done & cur & Hbs & _ & Hdone & Hcur & _ & _ & _ & Hnf & _).
  rewrite Hbs, Hb, app_nil_r, concat_app in Hi. apply elem_of_app in Hi as [Hi|Hi]; [auto|].
  destruct (Hcur i Hi) as [Hr'|[[] Hs]]; [rewrite Hrun in Hr'; by apply elem_of_nil in Hr'|done|].
  by destruct (Hnf Hex i).
Qed.

(** C7. A rejected run stops the scheduler, in every execution: once a
    run has rejected, [Promise.all] rejects, the handler of line 560
    exits the process, and nothing happens after the rejection: it is
    the last event of the trace, and no later batch is launched and no
    other run settles (the spec asks that a failing account never
    terminate the scheduler). *)
Theorem sched_reject_stops ok bs s tr1 i tr2 :
  reachable ok bs s -> sc_trace s = tr2 ++ Settle i false :: tr1 ->
  tr2 = [] /\ sc_exited s = true /\ forall s', ~ sched_step ok s s'.
Proof.
  intros Hr Htr. destruct (exit_inv_reachable ok bs s Hr) as [[_ Hn]|[He (i' & tr & Htr' & Hn)]].
  - destruct (Hn i). rewrite Htr. apply elem_of_app. right. apply list_elem_of_here.
  - split; [|split; [done|]].
    + rewrite Htr' in Htr. destruct tr2 as [|e tr2]; [done|]. injection Htr as _ Htr.
      destruct (Hn i). rewrite Htr. apply elem_of_app. right. apply list_elem_of_here.
    + destruct s as [b r ex t]. cbn in He. subst ex. intros s' Hst. inversion Hst.
Qed.

(** ** The batches of [main] *)

Lemma js_slice_nonneg {A} (xs : list A) s e :
  0 <= s <= e -> js_slice xs s e = take (Z.to_nat (e - s)) (drop (Z.to_nat s) xs).
Proof.
  intros Hse. unfold js_slice.
  rewrite (proj2 (Z.ltb_ge s 0)), (proj2 (Z.ltb_ge e 0)) by lia.
  destruct (Z.le_gt_cases e (Z.of_nat (length xs))).
  - by rewrite !Z.min_l by lia.
  - rewrite (Z.min_r e) by lia. rewrite !take_ge by (rewrite length_drop; lia).
    destruct (Z.le_gt_cases s (Z.of_nat (length xs))); [by rewrite Z.min_l|].
    rewrite Z.min_r, !drop_ge by lia. done.
Qed.

Lemma batch_indices_seqZ {A} (i : Z) (b : list A) :
  batch_indices (i, b) = seqZ i (Z.of_nat (length b)).
Proof.
  unfold batch_indices, seqZ. rewrite Nat2Z.id. cbn.
  apply list_fmap_ext. intros _ j _. lia.
Qed.

(** The loop from the start index [i] on: its batches cover the
    accounts from [i] on, in order, with their indices. *)
Lemma batch_starts_cover {A} (xs : list A) m fuel i :
  0 < m -> 0 <= i -> (Z.to_nat (Z.of_nat (length xs) - i) < fuel)%nat ->
  exists starts, batch_starts fuel (Z.of_nat (length xs)) m i = Some starts /\
    concat (map snd (batches xs m starts)) = drop (Z.to_nat i) xs /\
    account_indices (batches xs m starts) = seqZ i (Z.of_nat (length xs) - i) /\
    Forall (fun ib => (length (snd ib) <= Z.to_nat m)%nat) (batches xs m starts).
Proof.
  intros Hm. revert i. induction fuel as [|f IH]; intros i Hi Hf; [lia|].
  cbn [batch_starts]. destruct (Z.ltb_spec i (Z.of_nat (length xs))) as [Hlt|Hge].
  - destruct (IH (i + m)) as (rest & -> & Hc & Hx & Hb); [lia|lia|].
    exists (i :: rest). split; [done|]. cbn [batches map concat]. fold (batches xs m rest).
    rewrite js_slice_nonneg, Z.add_simpl_l by lia. split; [|split].
    + cbn. rewrite Hc, Z2Nat.inj_add, <- drop_drop by lia. apply take_drop.
    + unfold account_indices. cbn [flat_map]. fold (account_indices (batches xs m rest)).
      rewrite Hx, batch_indices_seqZ, length_take, length_drop.
      destruct (Z.le_gt_cases m (Z.of_nat (length xs) - i)).
      * rewrite Nat.min_l by lia. rewrite Z2Nat.id by lia.
        rewrite <- seqZ_app by lia. f_equal. lia.
      * rewrite Nat.min_r by lia. rewrite (seqZ_nil (i + m)) by lia.
        rewrite app_nil_r. f_equal. lia.
    + constructor; [|done]. cbn. rewrite length_take. lia.
  - exists []. split; [done|]. cbn. rewrite drop_ge by lia. rewrite seqZ_nil by lia.
    split; [done|split; [done|constructor]].
Qed.

(** ** The interval registry *)

(** [clearInterval] only enters the trace: the array [intervalIds] is
    left as it is. *)
Lemma apply_events_clears evs w :
  Forall (fun e => exists id, e = EvClearInterval id) evs ->
  apply_events evs w =
    mkWorld (w_now w) (w_calls w) (w_rand w) (evs ++ w_trace w) (w_file w) (w_ua_file w)
      (w_intervals w) (w_next_id w).
Proof.
  induction 1 as [|e evs [id ->] _ IH]; [by destruct w|].
  cbn [apply_events foldr]. fold (apply_events evs w). by rewrite IH.
Qed.

(** A timer cancelled by a run of [clearInterval] calls is inactive
    after them. *)
Lemma timer_active_cleared evs tr id :
  Forall (fun e => exists id', e = EvClearInterval id') evs -> EvClearInterval id ∈ evs ->
  timer_active (evs ++ tr) id = false.
Proof.
  induction 1 as [|e evs [id' ->] _ IH]; intros Hin; [by apply elem_of_nil in Hin|].
  cbn. destruct (Nat.eqb_spec id' id) as [->|Hne]; [done|].
  apply IH. apply elem_of_cons in Hin as [[= ->]|Hin]; [done|exact Hin].
Qed.

Lemma clears_forall (l : list Interval) :
  Forall (fun e => exists id, e = EvClearInterval id)
         (reverse (map (fun iv => EvClearInterval (iv_id iv)) l)).
Proof.
  apply Forall_forall. intros e He.
  rewrite elem_of_reverse, list_elem_of_fmap in He. destruct He as (iv & -> & _). by eexists.
Qed.

(** [stopInterVal] clears every registered timer, in registration
    order, and leaves the registry empty; nothing else changes. *)
Lemma stopInterVal_run s :
  stopInterVal s =
  (Ok tt, mkSt (st_c s)
            (mkWorld (w_now (st_w s)) (w_calls (st_w s)) (w_rand (st_w s))
               (reverse (map (fun iv => EvClearInterval (iv_id iv)) (w_intervals (st_w s))) ++
                w_trace (st_w s))
               (w_file (st_w s)) (w_ua_file (st_w s)) [] (w_next_id (st_w s)))).
Proof.
  destruct s as [c w]. unfold stopInterVal. rewrite (bind_Ok _ _ _ _ _ (get_world_run _)).
  cbn [st_w st_c]. destruct (w_intervals w) as [|iv ivs] eqn:Hiv; cbn [length Nat.ltb Nat.leb].
  - destruct w; cbn in *; by subst.
  - rewrite (bind_Ok _ _ _ tt _ (for_each_emit_pushes _ _ _)). cbn [st_w st_c].
    by rewrite (apply_events_clears _ w (clears_forall (iv :: ivs))).
Qed.

(** ** The execution of [main]'s batches *)

Lemma concat_sched_batches {A} (bs : list (Z * list A)) :
  concat (sched_batches bs) = Z.to_nat <$> account_indices bs.
Proof.
  unfold sched_batches, account_indices. induction bs as [|ib bs IH]; [done|].
  cbn [map concat flat_map]. by rewrite IH, fmap_app.
Qed.

Lemma to_nat_seqZ n : Z.to_nat <$> seqZ 0 (Z.of_nat n) = seq 0 n.
Proof.
  unfold seqZ. rewrite Nat2Z.id, <- list_fmap_compose.
  rewrite <- (list_fmap_id (seq 0 n)) at 2. apply list_fmap_ext. intros _ j _. cbn. lia.
Qed.

(** The runs of [main] are distinct, and a batch has at most
    [maxThreads] of them. *)
Lemma main_sched_batches {A} (xs : list A) m fuel starts :
  0 < m -> (length xs < fuel)%nat ->
  batch_starts fuel (Z.of_nat (length xs)) m 0 = Some starts ->
  concat (sched_batches (batches xs m starts)) = seq 0 (length xs) /\
  Forall (fun b => (length b <= Z.to_nat m)%nat) (sched_batches (batches xs m starts)).
Proof.
  intros Hm Hf Hs.
  destruct (batch_starts_cover xs m fuel 0) as (starts' & Hs' & _ & Hx & Hb); [lia|lia|lia|].
  rewrite Hs in Hs'. injection Hs' as <-. split.
  - by rewrite concat_sched_batches, Hx, Z.sub_0_r, to_nat_seqZ.
  - unfold sched_batches. apply Forall_fmap. eapply Forall_impl; [exact Hb|].
    intros [i b]. unfold compose, batch_indices. cbn. by rewrite length_fmap, length_map, length_seq.
Qed.

Lemma spec_mid_reachable : reachable (fun _ => true) spec_batches spec_mid.
Proof.
  eapply reach_step; [eapply reach_step; [eapply reach_step; [eapply reach_step|]|]|].
  - apply reach_init.
  - exact (step_launch _ [0; 1]%nat [[2; 3]; [4]]%nat []).
  - exact (step_fulfil _ _ [] 0 [1]%nat _ eq_refl).
  - exact (step_fulfil _ _ [] 1 [] _ eq_refl).
  - exact (step_launch _ [2; 3]%nat [[4]]%nat _).
Qed.

Lemma spec_end_reachable : reachable (fun _ => true) spec_batches spec_end.
Proof.
  eapply reach_step; [eapply reach_step; [eapply reach_step; [eapply reach_step|]|]|].
  - apply spec_mid_reachable.
  - exact (step_fulfil _ _ [] 2 [3]%nat _ eq_refl).
  - exact (step_fulfil _ _ [] 3 [] _ eq_refl).
  - exact (step_launch _ [4]%nat [] _).
  - exact (step_fulfil _ _ [] 4 [] _ eq_refl).
Qed.

Lemma spec_end_terminal : forall s', ~ sched_step (fun _ => true) spec_end s'.
Proof. intros s' Hst. inversion Hst; by destruct r1. Qed.

Lemma batch_starts_stuck n m fuel i :
  m <= 0 -> i < n -> batch_starts fuel n m i = None.
Proof.
  intros Hm. revert i. induction fuel as [|f IH]; intros i Hi; [done|].
  cbn. rewrite (proj2 (Z.ltb_lt i n) Hi), IH by lia. done.
Qed.

(** ** Properties of [main]'s batches *)

(** C5. Batch ordering ([main], lines 548-557): when a run of a batch
    is launched, every run of every earlier batch has fulfilled, so
    batch [k+1] never starts before the runs of batch [k] settled. *)
Theorem main_batch_order {A} (xs : list A) m fuel starts ok s pre b post i j tr1 tr2 :
  0 < m -> (length xs < fuel)%nat ->
  batch_starts fuel (Z.of_nat (length xs)) m 0 = Some starts ->
  reachable ok (sched_batches (batches xs m starts)) s ->
  sched_batches (batches xs m starts) = pre ++ b :: post -> i ∈ b -> j ∈ concat pre ->
  sc_trace s = tr2 ++ Launch i :: tr1 -> Settle j true ∈ tr1.
Proof.
  intros Hm Hf Hs Hr. destruct (main_sched_batches xs m fuel starts Hm Hf Hs) as [Hc _].
  apply (sched_batch_order ok _ s); [rewrite Hc; apply NoDup_seq|exact Hr].
Qed.

Lemma main_batch_order_witness :
  batch_starts 6 5 2 0 = Some [0; 2; 4] /\
  sched_batches (batches (seq 0 5) 2 [0; 2; 4]) = spec_batches /\
  Settle 0 true ∈ [Settle 1 true; Settle 0 true; Launch 1; Launch 0].
Proof.
  split; [reflexivity|]. split; [reflexivity|].
  apply (main_batch_order (seq 0 5) 2 6 [0; 2; 4] (fun _ => true) spec_mid [[0; 1]%nat]
           [2; 3]%nat [[4]%nat] 2 0 [Settle 1 true; Settle 0 true; Launch 1; Launch 0] [Launch 3]);
    [lia|cbn; lia|reflexivity|exact spec_mid_reachable|reflexivity|by left|by left|reflexivity].
Defined.

(** C6. Bounded concurrency ([main]): no more than [maxThreads] runs
    are ever in progress at once. *)
Theorem main_concurrency_bound {A} (xs : list A) m fuel starts ok s :
  0 < m -> (length xs < fuel)%nat ->
  batch_starts fuel (Z.of_nat (length xs)) m 0 = Some starts ->
  reachable ok (sched_batches (batches xs m starts)) s ->
  (length (sc_running s) <= Z.to_nat m)%nat.
Proof.
  intros Hm Hf Hs Hr. destruct (main_sched_batches xs m fuel starts Hm Hf Hs) as [Hc Hb].
  apply (sched_concurrency_bound ok (sched_batches (batches xs m starts)) s); [rewrite Hc; apply NoDup_seq|exact Hb|exact Hr].
Qed.

Lemma main_concurrency_bound_witness :
  reachable (fun _ => true) (sched_batches (batches (seq 0 5) 2 [0; 2; 4])) spec_mid /\
  (length (sc_running spec_mid) <= Z.to_nat 2)%nat.
Proof.
  split; [exact spec_mid_reachable|].
  apply (main_concurrency_bound (seq 0 5) 2 6 [0; 2; 4] (fun _ => true) spec_mid);
    [lia|cbn; lia|reflexivity|exact spec_mid_reachable].
Defined.

(** C30. The loop of line 548 with [maxThreads > 0] ends, and its
    batches partition the accounts: their concatenation is [itemDatas]
    in order, the [accountIndex] of the runs are [0 .. n-1] in order, and
    no batch has more than [maxThreads] accounts. *)
Theorem main_batches_partition {A} (xs : list A) m fuel :
  0 < m -> (length xs < fuel)%nat ->
  exists starts, batch_starts fuel (Z.of_nat (length xs)) m 0 = Some starts /\
    concat (map snd (batches xs m starts)) = xs /\
    account_indices (batches xs m starts) = seqZ 0 (Z.of_nat (length xs)) /\
    Forall (fun ib => (length (snd ib) <= Z.to_nat m)%nat) (batches xs m starts).
Proof.
  intros Hm Hf. destruct (batch_starts_cover xs m fuel 0) as (starts & Hs & Hc & Hx & Hb);
    [lia|lia|lia|].
  exists starts. by rewrite Z.sub_0_r in Hx.
Qed.

Lemma main_batches_partition_witness :
  exists starts, batch_starts 6 5 2 0 = Some starts /\
    concat (map snd (batches [10; 11; 12; 13; 14]%nat 2 starts)) = [10; 11; 12; 13; 14]%nat /\
    account_indices (batches [10; 11; 12; 13; 14]%nat 2 starts) = seqZ 0 5 /\
    Forall (fun ib => (length (snd ib) <= Z.to_nat 2)%nat) (batches [10; 11; 12; 13; 14]%nat 2 starts).
Proof. apply (main_batches_partition [10; 11; 12; 13; 14]%nat 2 6); [lia|cbn; lia]. Defined.

(** C32. With [maxThreads <= 0] and at least one account, the loop of
    line 548 never ends: [i += maxThreads] never reaches
    [itemDatas.length], whatever the number of iterations. *)
Theorem batch_starts_diverges n m :
  m <= 0 -> 0 < n -> forall fuel, batch_starts fuel n m 0 = None.
Proof. intros Hm Hn fuel. by apply batch_starts_stuck. Qed.

Lemma batch_starts_diverges_witness : batch_starts 1000 5 0 0 = None.
Proof. apply (batch_starts_diverges 5 0); lia. Defined.

Lemma sched_completes_witness :
  Settle 3 true ∈ sc_trace spec_end.
Proof.
  apply (sched_completes (fun _ => true) spec_batches spec_end); [done| |exact spec_end_reachable
    |exact spec_end_terminal|by right; right; right; left].
  change (NoDup (seq 0 5)). apply NoDup_seq.
Defined.

(** The first run of the scenario's second account rejects. *)
Lemma sched_reject_stops_witness :
  let s := mkSched [[2; 3]; [4]]%nat [0]%nat true [Settle 1 false; Launch 1; Launch 0] in
  reachable (fun i => negb (i =? 1)%nat) spec_batches s /\
  ([] : list SchedEvent) = [] /\ sc_exited s = true /\
  forall s', ~ sched_step (fun i => negb (i =? 1)%nat) s s'.
Proof.
  intros s.
  assert (Hr : reachable (fun i => negb (i =? 1)%nat) spec_batches s).
  { eapply reach_step; [eapply reach_step; [apply reach_init|apply step_launch]|].
    apply (step_reject _ _ [0]%nat 1 []). reflexivity. }
  split; [exact Hr|]. exact (sched_reject_stops _ _ s [Launch 1; Launch 0] 1 [] Hr eq_refl).
Defined.

(** C37. On SIGINT every timer registered so far is cancelled, in
    registration order: none of them is active afterwards.  The array
    [intervalIds] is emptied by the reset of line 489 (clearing a timer
    does not remove it from the array), before the handler sleeps and
    exits; the handler changes nothing else but the clock. *)
Theorem on_sigint_cancels s :
  let clears := reverse (map (fun iv => EvClearInterval (iv_id iv)) (w_intervals (st_w s))) in
  let tr := EvSleep 1 :: clears ++ EvLog LInfo "Stopping..." :: w_trace (st_w s) in
  on_sigint s =
    (Ok tt, mkSt (st_c s)
              (mkWorld (w_now (st_w s) + 1000 * 1) (w_calls (st_w s)) (w_rand (st_w s)) tr
                 (w_file (st_w s)) (w_ua_file (st_w s)) [] (w_next_id (st_w s)))) /\
  Forall (fun iv => timer_active tr (iv_id iv) = false) (w_intervals (st_w s)).
Proof.
  intros clears tr. split.
  - unfold on_sigint, console_log. rewrite (bind_Ok _ _ _ _ _ (emit_run _ s)).
    rewrite (bind_Ok _ _ _ _ _ (stopInterVal_run _)). cbn [st_w st_c]. apply emit_run.
  - apply Forall_forall. intros iv Hiv. unfold tr. cbn [timer_active].
    apply timer_active_cleared; [apply clears_forall|].
    unfold clears. rewrite elem_of_reverse. apply list_elem_of_fmap. by exists iv.
Qed.
