(* ===== verification/Main.v ===== *)
(** * The start-up of [main] and the clients it builds

    [main] ([src/main.js] lines 493-557) before its batch loop: it prints
    a banner, reads the private keys, the proxies and the session
    snapshot [localStorage.json], checks the inputs (line 500), picks
    [maxThreads], asks [checkBaseUrl] for the API endpoint, derives each
    account's wallet, sleeps, reads the snapshot again (resetting the
    file to [{}] when that read fails) and sleeps again.  The batch loop
    then builds one [ClientAPI] per account with [accountIndex = i +
    indexInBatch], the proxy of that index and the snapshot.

    The file reads, [loadData], [checkBaseUrl] and the wallet derivation
    are I/O or calls into libraries outside [src/]; their results are
    inputs of the model: [read1] and [read2] are the parsed snapshot of
    the two reads ([None] when [readFile] or [JSON.parse] throws),
    [endpoint] and [message] the answer of [checkBaseUrl].  The wallet
    of each key is [getWalletFromPrivateKey] of [Wallet], over the curve
    primitive [getPublicKey].  The outcome of [main] is a [MainResult]:
    [process.exit(1)], the early [return] without endpoint, or the
    batches to run.  A rejection of [main] reaches the handler of lines
    560-563, which exits with code 1 ([main_entry]). *)

From S2P Require Import Prelude Js Wallet Config ClientState Samples UserAgent Scheduler.

Local Open Scope string_scope.

Inductive MainResult : Type :=
  | MainExit (code : Z)
  | MainNoEndpoint
  | MainRun (itemDatas : list ItemData) (maxThreads : Z) (localStorage : gmap string JVal)
            (endpoint : JVal).

(** [data.map(...).filter((i) => i !== null)] of lines 516-528 from
    position [index]: the item of each key, left to right, whose secret
    key is the wallet's and whose address is [publicKey.toBase58()]; the
    first key [getWalletFromPrivateKey] rejects throws out of the [map].
    The callback never returns [null], so the [filter] keeps every
    item. *)
Fixpoint items_from (getPublicKey : list Z -> list Z) (index : nat) (data : list string)
    : (Exn + list ItemData)%type :=
  match data with
  | [] => inr []
  | val :: data' =>
      match getWalletFromPrivateKey getPublicKey val with
      | inl e => inl e
      | inr wallet =>
          let item := mkItem val (kp_secretKey wallet) (bs58_encode (kp_publicKey wallet))
                        (Z.of_nat index) in
          match items_from getPublicKey (S index) data' with
          | inl e => inl e
          | inr items => inr (item :: items)
          end
      end
  end.

Definition make_items (getPublicKey : list Z -> list Z) (data : list string)
    : (Exn + list ItemData)%type :=
  items_from getPublicKey 0 data.

Definition banner : string :=
  "Tool được phát triển bởi nhóm tele Airdrop Hunter Siêu Tốc (https://t.me/airdrophuntersieutoc)".

Section Main.
Context (cfg : Settings) (data proxies : list string)
  (getPublicKey : list Z -> list Z)
  (read1 read2 : option (gmap string JVal)) (endpoint message : JVal).

(** Lines 538-546: the second read of the snapshot, with its recovery. *)
Definition reload_localStorage : CM (gmap string JVal) :=
  match read2 with
  | Some ls => ret ls
  | None =>
      console_log "Can't load data localStorage.json | Clearing data...";;
      emit (EvWriteStore ∅);;
      ret ∅
  end.

(** [main] up to its batch loop (lines 493-547). *)
Definition main_prelude : CM MainResult :=
  console_log banner;;
  match read1 with
  | None => throw (JsError "Unexpected token in JSON")
  | Some _ =>
      if negb (inputs_ok cfg (length data) (length proxies)) then
        console_log "Số lượng proxy và data phải bằng nhau.";;
        console_log ("Data: " ++ pretty (Z.of_nat (length data)));;
        console_log ("Proxy: " ++ pretty (Z.of_nat (length proxies)));;
        ret (MainExit 1)
      else
        (if negb (USE_PROXY cfg) then console_log "You are running bot without proxies!!!"
         else ret tt);;
        let m := maxThreads cfg in
        if negb (truthy endpoint) then
          console_log "Không thể tìm thấy ID API, thử lại sau!";;
          ret MainNoEndpoint
        else
          console_log (to_str message);;
          match make_items getPublicKey data with
          | inl e => throw e
          | inr itemDatas =>
              sleep 1;;
              localStorage <- reload_localStorage;;
              sleep 2;;
              ret (MainRun itemDatas m localStorage endpoint)
          end
  end.

(** [main().catch(...)] (lines 561-564). *)
Definition main_entry : CM MainResult :=
  catch main_prelude (fun err => console_error (exn_message err);; ret (MainExit 1)).
End Main.

(** The clients of one batch (lines 550-554): [ua] is the content of
    [session_user_agents.json] when the batch is built. *)
Definition batch_clients (proxies : list string) (endpoint : JVal) (ls : gmap string JVal)
    (ua : JVal) (ib : Z * list ItemData) : list Client :=
  imap (fun indexInBatch itemData =>
          let accountIndex := (fst ib + Z.of_nat indexInBatch)%Z in
          new_ClientAPI itemData accountIndex (proxy_of proxies accountIndex) (to_str endpoint) ls ua)
       (snd ib).

(** The clients of every batch, the [k]-th built when the user-agent
    file reads [ua k]. *)
Definition main_clients (proxies : list string) (endpoint : JVal) (ls : gmap string JVal)
    (ua : nat -> JVal) (bs : list (Z * list ItemData)) : list (list Client) :=
  imap (fun k ib => batch_clients proxies endpoint ls (ua k) ib) bs.

(** Inputs of the witnesses: proxies in use, two threads, three keys
    that decode. *)
Definition two_threads_cfg : Settings :=
  mkSettings true false false [] (JStr "REF") (1, 2)%Z 2%Z 10%Z ["Mozilla/5.0 (Linux; Android 13)"].

(** Three valid keys: the secret key of [n] is 32 bytes [n] followed by
    their public key under [sample_getPublicKey]. *)
Definition sample_getPublicKey (priv : list Z) : list Z := map (fun b => 255 - b)%Z priv.
Definition sample_secret (n : Z) : list Z := repeat n 32 ++ sample_getPublicKey (repeat n 32).
Definition sample_keys : list string := map (fun n => bs58_encode (sample_secret n)) [1; 2; 3]%Z.
Definition sample_proxies : list string := ["http://p1:80"; "http://p2:80"; "http://p3:80"].

Definition key_item (n index : Z) : ItemData :=
  mkItem (bs58_encode (sample_secret n)) (sample_secret n)
    (bs58_encode (sample_getPublicKey (repeat n 32))) index.

Definition sample_items : list ItemData := [key_item 1 0; key_item 2 1; key_item 3 2]%Z.

(** Unfold the plumbing of a run of [main] down to the world updates. *)
Ltac main_plumbing H :=
  cbv [main_entry main_prelude reload_localStorage catch bind ret throw console_log
       console_error sleep emit upd_world modify_st] in H.

Lemma items_from_spec getPublicKey data k items :
  items_from getPublicKey k data = inr items ->
  map privateKey items = data /\ map item_index items = map Z.of_nat (seq k (length data)).
Proof.
  revert k items. induction data as [|d data IH]; intros k items H; cbn in H.
  - by injection H as <-.
  - destruct (getWalletFromPrivateKey getPublicKey d) as [e|w]; [done|].
    destruct (items_from getPublicKey (S k) data) as [e|rest] eqn:Hr; [done|].
    injection H as <-. destruct (IH (S k) rest Hr) as [H1 H2]. cbn. by rewrite H1, H2.
Qed.

(** Each account's item keeps its key and its position in [data]. *)
Lemma make_items_spec getPublicKey data items :
  make_items getPublicKey data = inr items ->
  map privateKey items = data /\ map item_index items = seqZ 0 (Z.of_nat (length data)).
Proof.
  intros H. destruct (items_from_spec getPublicKey data 0 items H) as [H1 H2]. split; [done|].
  rewrite H2. unfold seqZ. rewrite Nat2Z.id. clear. induction (seq 0 (length data)) as [|j l IH];
    [done|]. cbn. rewrite IH. f_equal. lia.
Qed.

(** One rejected key makes the whole [map] throw. *)
Lemma items_from_rejects getPublicKey data k key e :
  key ∈ data -> getWalletFromPrivateKey getPublicKey key = inl e ->
  exists e', items_from getPublicKey k data = inl e'.
Proof.
  revert k. induction data as [|d data IH]; intros k Hin He; [by apply not_elem_of_nil in Hin|].
  cbn. destruct (getWalletFromPrivateKey getPublicKey d) as [e1|w] eqn:Hd; [by eexists|].
  apply elem_of_cons in Hin as [->|Hin]; [congruence|].
  destruct (IH (S k) Hin He) as [e' ->]. by eexists.
Qed.

(** A projection of an [imap] that only depends on the index. *)
Lemma imap_proj_index {A B C} (f : nat -> A -> B) (g : B -> C) (h : nat -> C) (l : list A) :
  (forall i x, g (f i x) = h i) -> map g (imap f l) = map h (seq 0 (length l)).
Proof.
  revert f h. induction l as [|x l IH]; intros f h Hf; [done|].
  rewrite imap_cons. cbn. rewrite Hf, (IH (f ∘ S) (h ∘ S)); [|intros; apply Hf].
  by rewrite <- seq_shift, map_map.
Qed.

(** A projection of an [imap] that only depends on the element. *)
Lemma imap_proj_elem {A B C} (f : nat -> A -> B) (g : B -> C) (h : A -> C) (l : list A) :
  (forall i x, g (f i x) = h x) -> map g (imap f l) = map h l.
Proof.
  revert f. induction l as [|x l IH]; intros f Hf; [done|].
  rewrite imap_cons. cbn. rewrite Hf, (IH (f ∘ S)); [done|intros; apply Hf].
Qed.

(** A projection of every client of [main], batch by batch. *)
Lemma main_clients_proj {C} (g : Client -> C) (hb : Z * list ItemData -> list C)
    proxies ep ls ua bs :
  (forall u ib, map g (batch_clients proxies ep ls u ib) = hb ib) ->
  map g (concat (main_clients proxies ep ls ua bs)) = concat (map hb bs).
Proof.
  intros Hb. unfold main_clients. rewrite concat_map. f_equal.
  apply imap_proj_elem. intros k ib. apply Hb.
Qed.

Lemma batch_clients_index proxies ep ls u ib :
  map c_accountIndex (batch_clients proxies ep ls u ib) = batch_indices ib.
Proof. by apply imap_proj_index. Qed.

Lemma batch_clients_item proxies ep ls u ib :
  map c_itemData (batch_clients proxies ep ls u ib) = snd ib.
Proof. unfold batch_clients. rewrite (imap_proj_elem _ _ id); [apply map_id|done]. Qed.

Lemma batch_clients_proxy proxies ep ls u ib :
  map c_proxy (batch_clients proxies ep ls u ib) = map (proxy_of proxies) (batch_indices ib).
Proof. unfold batch_indices. rewrite map_map. by apply imap_proj_index. Qed.

(** With a non-empty line per index, [proxies[i] || null] is the line. *)
Lemma proxy_of_lines proxies k n :
  Forall (fun p => p <> "") proxies -> (k + n <= length proxies)%nat ->
  map (fun i => proxy_of proxies (Z.of_nat i)) (seq k n) = map JStr (take n (drop k proxies)).
Proof.
  intros Hne. revert k. induction n as [|n IH]; intros k Hk; [done|].
  destruct (drop k proxies) as [|p rest] eqn:Hd.
  { apply (f_equal length) in Hd. rewrite length_drop in Hd. cbn in Hd. lia. }
  cbn. unfold proxy_of. rewrite Nat2Z.id.
  assert (Hnth : nth_error proxies k = Some p).
  { rewrite <- (Nat.add_0_r k), <- (nth_error_skipn k proxies 0), Hd. done. }
  rewrite Hnth. rewrite Forall_forall in Hne.
  rewrite (proj2 (String.eqb_neq p "")); [|apply Hne, list_elem_of_In; exact (nth_error_In _ _ Hnth)].
  rewrite IH by lia. do 2 f_equal.
  replace (S k) with (k + 1)%nat by lia. by rewrite <- drop_drop, Hd.
Qed.

Section MainLemmas.
Context (cfg : Settings) (data proxies : list string)
  (getPublicKey : list Z -> list Z)
  (read1 read2 : option (gmap string JVal)) (endpoint message : JVal).

(** The batches are run only when the snapshot was read, the inputs
    passed the check, the endpoint was found and every key decoded. *)
Lemma main_entry_MainRun s itemDatas m ls ep s' :
  main_entry cfg data proxies getPublicKey read1 read2 endpoint message s =
    (Ok (MainRun itemDatas m ls ep), s') ->
  make_items getPublicKey data = inr itemDatas /\ m = maxThreads cfg /\ ep = endpoint /\
  inputs_ok cfg (length data) (length proxies) = true /\ read1 <> None.
Proof.
  intros H. main_plumbing H.
  destruct read1 as [ls0|]; [|discriminate].
  destruct (inputs_ok cfg (length data) (length proxies)), (USE_PROXY cfg), (truthy endpoint),
    (make_items getPublicKey data), read2; cbn in H; try discriminate;
    injection H as <- <- _ <- _; done.
Qed.
End MainLemmas.

(** ** Properties of the start-up *)

(** C12. A snapshot [localStorage.json] that is missing or does not
    parse makes the read of line 498, outside any [try], throw: [main]
    rejects, the handler of line 560 exits with code 1, and no account
    runs; the recovery code of lines 538-546 is never reached. *)
Theorem main_store_missing_exits cfg data proxies getPublicKey read2 endpoint message s :
  exists msg,
    main_entry cfg data proxies getPublicKey None read2 endpoint message s =
    (Ok (MainExit 1), mkSt (st_c s) (apply_events [EvLog LError msg; EvLog LInfo banner] (st_w s))).
Proof. eexists. destruct s. reflexivity. Qed.

(** C11. The items of [main] round-trip through base58: the line of
    [privateKeys.txt] of each item decodes to its 64-byte secret key, and
    its address, [publicKey.toBase58()], decodes to the upper half of
    that key, which is the public key [getPublicKey] computes from the
    lower half. *)
Theorem make_items_keys getPublicKey data items :
  make_items getPublicKey data = inr items ->
  Forall (fun it =>
    bs58_decode (privateKey it) = Some (secretKey it) /\ length (secretKey it) = 64%nat /\
    bs58_decode (address it) = Some (drop 32 (secretKey it)) /\
    take 32 (getPublicKey (take 32 (secretKey it))) = drop 32 (secretKey it)) items.
Proof.
  unfold make_items. intros H. remember 0%nat as k eqn:Ek in H. clear Ek.
  revert items k H. induction data as [|d data IH]; intros items k H; cbn in H.
  - by injection H as <-.
  - destruct (getWalletFromPrivateKey getPublicKey d) as [e|w] eqn:Hw; [done|].
    destruct (items_from getPublicKey (S k) data) as [e|rest] eqn:Hr; [done|].
    injection H as <-. constructor; [|by apply (IH rest (S k))].
    apply getWalletFromPrivateKey_inr in Hw as (sk & Hb & Hl & Hp & -> & ->).
    cbn [privateKey secretKey address kp_secretKey kp_publicKey].
    split; [by apply bs58_decode_iff|]. split; [done|]. split; [|done].
    apply bs58_decode_iff. split; [by apply Forall_drop|done].
Qed.

Lemma make_items_keys_witness :
  Forall (fun it =>
    bs58_decode (privateKey it) = Some (secretKey it) /\ length (secretKey it) = 64%nat /\
    bs58_decode (address it) = Some (drop 32 (secretKey it)) /\
    take 32 (sample_getPublicKey (take 32 (secretKey it))) = drop 32 (secretKey it)) sample_items.
Proof.
  apply (make_items_keys sample_getPublicKey sample_keys sample_items). vm_compute. reflexivity.
Defined.

(** C9. One private key that [getWalletFromPrivateKey] rejects (a
    character outside the base58 alphabet, a size other than 64 bytes
    or a public key that does not match) makes the [map] of line 516
    throw: [main] rejects and exits with code 1, and no account runs,
    not even those whose keys are valid.  The [filter] of line 528,
    meant to drop the missing items, never sees one. *)
Theorem main_bad_key_exits cfg data proxies getPublicKey ls read2 endpoint message s key e :
  inputs_ok cfg (length data) (length proxies) = true -> truthy endpoint = true ->
  key ∈ data -> getWalletFromPrivateKey getPublicKey key = inl e ->
  exists s',
    main_entry cfg data proxies getPublicKey (Some ls) read2 endpoint message s = (Ok (MainExit 1), s').
Proof.
  intros Hi Ht Hk He.
  destruct (items_from_rejects getPublicKey data 0 key e Hk He) as [e' He'].
  unfold main_entry, main_prelude, make_items. rewrite Hi, Ht, He'. cbn [negb].
  destruct (USE_PROXY cfg); eexists; reflexivity.
Qed.

Lemma main_bad_key_exits_witness :
  let data := (sample_keys ++ ["0OIl"])%list in
  let proxies := (sample_proxies ++ ["http://p4:80"])%list in
  exists s',
    main_entry two_threads_cfg data proxies sample_getPublicKey (Some ∅) (Some ∅)
      (JStr "https://api") (JStr "ok") (sample_state JNull (JObj [])) = (Ok (MainExit 1), s').
Proof.
  intros data proxies.
  apply (main_bad_key_exits two_threads_cfg data proxies sample_getPublicKey ∅ (Some ∅)
           (JStr "https://api") (JStr "ok") (sample_state JNull (JObj [])) "0OIl"
           (JsError "Non-base58 character")).
  - vm_compute. reflexivity.
  - reflexivity.
  - apply elem_of_app. right. apply elem_of_cons. by left.
  - vm_compute. reflexivity.
Defined.

(** C8. The runs of [main]: in launch order, the [k]-th client built by
    the batch loop has [accountIndex = k], the [k]-th private key and the
    item of index [k]; when proxies are used and every line of
    [proxy.txt] is non-empty, its proxy is the [k]-th line, as the
    check of line 500 guarantees there is one. *)
Theorem main_clients_bind cfg data proxies getPublicKey read1 read2 endpoint message s
    itemDatas m ls ep s' (ua : nat -> JVal) (fuel : nat) (starts : list Z) :
  main_entry cfg data proxies getPublicKey read1 read2 endpoint message s =
    (Ok (MainRun itemDatas m ls ep), s') ->
  (0 < m)%Z -> (length data < fuel)%nat ->
  batch_starts fuel (Z.of_nat (length itemDatas)) m 0 = Some starts ->
  let cs := concat (main_clients proxies ep ls ua (batches itemDatas m starts)) in
  map c_accountIndex cs = seqZ 0 (Z.of_nat (length data)) /\
  map (fun c => privateKey (c_itemData c)) cs = data /\
  map (fun c => item_index (c_itemData c)) cs = seqZ 0 (Z.of_nat (length data)) /\
  (USE_PROXY cfg = true -> Forall (fun p => p <> "") proxies ->
   map c_proxy cs = map JStr (take (length data) proxies)).
Proof.
  intros Hrun Hm Hf Hs cs.
  destruct (main_entry_MainRun cfg data proxies getPublicKey read1 read2 endpoint message s _ _ _ _ _ Hrun)
    as (Hitems & _ & _ & Hin & _).
  destruct (make_items_spec _ _ _ Hitems) as [Hpk Hidx].
  assert (Hlen : length itemDatas = length data) by (rewrite <- Hpk; symmetry; apply length_map).
  destruct (batch_starts_cover itemDatas m fuel 0) as (starts' & Hs' & Hc & Hx & _); [lia|lia|lia|].
  rewrite Hs in Hs'. injection Hs' as <-. rewrite Z.sub_0_r, Hlen in Hx. cbn [drop] in Hc.
  assert (Hitem : map c_itemData cs = itemDatas).
  { unfold cs. rewrite (main_clients_proj c_itemData snd); [exact Hc|apply batch_clients_item]. }
  assert (Hacc : map c_accountIndex cs = seqZ 0 (Z.of_nat (length data))).
  { unfold cs. rewrite (main_clients_proj c_accountIndex batch_indices); [|apply batch_clients_index].
    rewrite <- Hx. unfold account_indices. by rewrite flat_map_concat_map. }
  split; [exact Hacc|]. split; [by rewrite <- (map_map c_itemData privateKey), Hitem|].
  split; [by rewrite <- (map_map c_itemData item_index), Hitem, Hidx|].
  intros Hp Hne. unfold cs.
  rewrite (main_clients_proj c_proxy (fun ib => map (proxy_of proxies) (batch_indices ib)));
    [|apply batch_clients_proxy].
  rewrite <- (map_map batch_indices (map (proxy_of proxies))), <- concat_map,
    <- flat_map_concat_map.
  fold (account_indices (batches itemDatas m starts)). rewrite Hx.
  unfold seqZ. rewrite Nat2Z.id, (fmap_list_map (fun i : nat => (Z.of_nat i + 0)%Z)), map_map.
  rewrite (map_ext _ (fun i => proxy_of proxies (Z.of_nat i))) by (intros; by rewrite Z.add_0_r).
  unfold inputs_ok in Hin. rewrite Hp, andb_true_r in Hin.
  apply negb_true_iff, orb_false_iff in Hin as [_ Hle]. apply Nat.ltb_ge in Hle.
  rewrite (proxy_of_lines proxies 0 (length data) Hne) by lia. done.
Qed.

Lemma main_clients_bind_witness :
  let r := main_entry two_threads_cfg sample_keys sample_proxies sample_getPublicKey (Some ∅) (Some ∅)
             (JStr "https://api") (JStr "ok") (sample_state JNull (JObj [])) in
  r = (Ok (MainRun sample_items 2 ∅ (JStr "https://api")), snd r) /\
  batch_starts 4 3 2 0 = Some [0; 2]%Z /\
  map c_accountIndex
      (concat (main_clients sample_proxies (JStr "https://api") ∅ (fun _ => JObj [])
                 (batches sample_items 2 [0; 2]%Z))) = [0; 1; 2]%Z /\
  map c_proxy
      (concat (main_clients sample_proxies (JStr "https://api") ∅ (fun _ => JObj [])
                 (batches sample_items 2 [0; 2]%Z))) = map JStr sample_proxies.
Proof.
  intros r. assert (Hr : r = (Ok (MainRun sample_items 2 ∅ (JStr "https://api")), snd r))
    by (vm_compute; reflexivity).
  split; [exact Hr|]. split; [reflexivity|]. unfold r in Hr.
  destruct (main_clients_bind two_threads_cfg sample_keys sample_proxies sample_getPublicKey (Some ∅) (Some ∅)
              (JStr "https://api") (JStr "ok") (sample_state JNull (JObj [])) sample_items 2 ∅
              (JStr "https://api") _ (fun _ => JObj []) 4 [0; 2]%Z Hr)
    as (Hacc & _ & _ & Hp); [lia|cbn; lia|reflexivity|].
  split; [exact Hacc|]. apply Hp; [reflexivity|]. repeat constructor; discriminate.
Defined.
