(* ===== verification/Register.v ===== *)
(** * The registration flow ([src/autoref.js])

    A separate script, not part of the account runner: for each line
    [email|password] of [register.txt] it solves a CAPTCHA, probes the
    account's proxy when proxies are used, posts the registration and,
    when the answer carries an [accessToken], appends the credentials to
    [accounts.txt] and saves the answer under the email in
    [localStorage.json].  The accounts are processed one after the
    other.

    The model runs in the monad of [ClientState] (its client part is
    unused: the script has no [ClientAPI] object).  [console.log] and
    [console.error] are [EvLog] events of type [LInfo] and [LError]
    (colours are not modelled, and an object printed by [console.log]
    is rendered by [stringify]); a call of the CAPTCHA solver of
    [captcha.js] (not under [src/]; the spec's [solve() -> token | null])
    is an [EvCaptcha] event whose answer for the [n]-th call is
    [solve n]; [fs.appendFileSync] is an [EvAppend] event. *)

From S2P Require Import Prelude Js Config ClientState Samples Workflow.
From Stdlib Require Import Ascii.

Local Open Scope string_scope.

(** [s.split("|")] for a one-character separator. *)
Fixpoint split_go (sep : Ascii.ascii) (s cur : string) : list string :=
  match s with
  | EmptyString => [cur]
  | String c s' =>
      if Ascii.eqb c sep then cur :: split_go sep s' ""
      else split_go sep s' (cur ++ String c "")
  end.

Definition js_split (sep : Ascii.ascii) (s : string) : list string := split_go sep s "".

(** [arr[i]]: [undefined] past the end. *)
Definition js_index (xs : list string) (i : nat) : JVal :=
  match nth_error xs i with Some x => JStr x | None => JUndef end.

Definition newline : string := String (Ascii.ascii_of_nat 10) EmptyString.

Definition register_url : string := "https://api2.flow3.tech/api/user/register".

(** The header object of lines 40-49. *)
Definition register_headers : JVal :=
  JObj [("Accept", JStr "*/*");
        ("Accept-Language", JStr "id-ID,id;q=0.9,en-US;q=0.8,en;q=0.7");
        ("Sec-Fetch-Dest", JStr "empty");
        ("Sec-Fetch-Mode", JStr "cors");
        ("Sec-Fetch-Site", JStr "none");
        ("origin", JStr "https://app.flow3.tech");
        ("referer", JStr "https://app.flow3.tech/");
        ("User-Agent", JStr ("Mozilla/5.0 (Windows NT 10.0; Win64; x64) AppleWebKit/537.36 " ++
                             "(KHTML, like Gecko) Chrome/115.0.0.0 Safari/537.36"))].

(** The number of CAPTCHA solver calls recorded in a trace. *)
Definition captcha_count (tr : list Event) : nat :=
  length (List.filter (fun e => match e with EvCaptcha _ => true | _ => false end) tr).

(** The text appended to [file] along a trace, in chronological order. *)
Definition appended (file : string) (tr : list Event) : string :=
  foldr (fun e acc => match e with
                      | EvAppend f t => if String.eqb f file then acc ++ t else acc
                      | _ => acc
                      end) "" tr.

Section Register.
Context (cfg : Settings) (env : Env) (solve : nat -> JVal).

(** [sovleCaptcha()]: the answer of the next call of the solver. *)
Definition sovleCaptcha : CM JVal :=
  w <- get_world;;
  let token := solve (captcha_count (w_trace w)) in
  emit (EvCaptcha token);;
  ret token.

(** [checkProxyIP(proxy)] (lines 67-79): every error of the [try] is
    rethrown with the prefix of line 77. *)
Definition reg_checkProxyIP (proxy : JVal) : CM JVal :=
  resp <- http env (mkReq "get" ipify_url JUndef JUndef proxy);;
  match resp with
  | RespOk status body =>
      if (status =? 200)%Z then
        if nullish body then throw (JsError ("Error checking proxy IP: " ++ read_error body "ip"))
        else ret (jget body "ip")
      else throw (JsError ("Error checking proxy IP: Cannot check proxy IP. Status code: " ++
                           pretty status))
  | RespErr _ _ msg => throw (JsError ("Error checking proxy IP: " ++ msg))
  end.

(** The payload of lines 21-26. *)
Definition register_payload (email password captchaToken : JVal) : JVal :=
  JObj [("email", email); ("password", password); ("captchaToken", captchaToken);
        ("referralCode", if truthy (REF_CODE cfg) then REF_CODE cfg else JNull)].

(** Lines 27-36: the agent of the registration request; a failed probe
    is logged and the request goes without the proxy. *)
Definition proxy_agent_for (proxy : JVal) : CM JVal :=
  if USE_PROXY cfg && truthy proxy then
    catch (proxyIP <- reg_checkProxyIP proxy;;
           console_log ("Proxy IP:  " ++ to_str proxyIP);;
           ret proxy)
          (fun error => console_error ("Error checking proxy IP: " ++ exn_message error);;
                        ret JNull)
  else ret JNull.

(** [register(email, password, proxy)] (lines 15-65). *)
Definition register (email password proxy : JVal) : CM unit :=
  captchaToken <- sovleCaptcha;;
  if negb (truthy captchaToken) then console_error "Failed to solve CAPTCHA."
  else
    let payload := register_payload email password captchaToken in
    proxyAgent <- proxy_agent_for proxy;;
    response <- http env (mkReq "post" register_url register_headers payload proxyAgent);;
    match response with
    | RespOk _ body =>
        if truthy (jget body "accessToken") then
          console_log ("Registration successful: " ++ stringify body);;
          emit (EvAppend "accounts.txt" (newline ++ to_str email ++ "|" ++ to_str password));;
          saveJson email body
        else console_error ("Registration failed: " ++ stringify body)
    | RespErr _ _ msg => console_error ("Error during registration: " ++ msg)
    end.

(** One iteration of the loop of lines 84-90. *)
Definition process_account (accounts proxies : list string) (i : nat) : CM unit :=
  let parts := js_split "|"%char (default "" (nth_error accounts i)) in
  let email := js_index parts 0 in
  let password := js_index parts 1 in
  let proxy := js_index proxies i in
  console_log ("Processing account: " ++ to_str email);;
  register email password proxy;;
  console_log (newline ++ "=====================" ++ newline).

(** [main()] (lines 81-92), with the contents of [register.txt] and
    [proxy.txt] as read by [loadData]. *)
Definition reg_main (accounts proxies : list string) : CM unit :=
  for_each (seq 0 (length accounts)) (process_account accounts proxies);;
  console_log "All accounts processed.".

(** Lines 95-99, before [process.exit(0)]. *)
Definition reg_entry (accounts proxies : list string) : CM unit :=
  reg_main accounts proxies;;
  sleep 1.
End Register.

(** The body of a registration request, read back from a request event. *)
Definition reg_post (e : Event) : option JVal :=
  match e with
  | EvHttp _ rq => if String.eqb (rq_url rq) register_url then Some (jget (rq_data rq) "email")
                   else None
  | _ => None
  end.

(** The emails of the registration requests among [evs] (newest first),
    in chronological order. *)
Definition reg_posts (evs : list Event) : list JVal := reverse (omap reg_post evs).

(** The [email] of an account line. *)
Definition account_email (line : string) : JVal := js_index (js_split "|"%char line) 0.

(** The emails [main] sends registrations for, in order, when the solver
    had been called [c0] times before: those of the accounts whose
    CAPTCHA is solved. *)
Definition expected_posts (solve : nat -> JVal) (c0 : nat) (accounts : list string) (n : nat)
  : list JVal :=
  omap (fun i => if truthy (solve (c0 + i)%nat)
                 then Some (account_email (default "" (nth_error accounts i))) else None)
       (seq 0 n).

(** Inputs of the witnesses: proxies in use, a solver that always
    answers, a server that accepts every registration and fails every
    other request (the proxy probe among them). *)
Definition proxy_cfg : Settings :=
  mkSettings true false false [] (JStr "REF") (1, 2)%Z 10%Z 10%Z ["Mozilla/5.0 (Linux; Android 13)"].

Definition reg_server : nat -> Req -> Resp :=
  fun _ rq => if String.eqb (rq_url rq) register_url
              then RespOk 200 (JObj [("accessToken", JStr "AT")])
              else RespErr (JNum 502) JUndef "Request failed with status code 502".

Definition solved : nat -> JVal := fun n => JStr ("CAPTCHA" ++ pretty (Z.of_nat n)).

(** ** Frames of the registration flow *)

(** A run that calls neither the solver nor the registration endpoint. *)
Definition reg_quiet (s s' : St) : Prop :=
  exists evs, appends evs s s' /\ captcha_count evs = 0%nat /\ reg_posts evs = [].

Lemma captcha_count_app e1 e2 : captcha_count (e1 ++ e2)%list = (captcha_count e1 + captcha_count e2)%nat.
Proof. unfold captcha_count. by rewrite List.filter_app, length_app. Qed.

Lemma reg_posts_app e1 e2 : reg_posts (e1 ++ e2)%list = (reg_posts e2 ++ reg_posts e1)%list.
Proof. unfold reg_posts. by rewrite omap_app, reverse_app. Qed.

#[export] Hint Rewrite captcha_count_app reg_posts_app : flow.

#[export] Instance reg_quiet_preorder : PreOrder reg_quiet.
Proof.
  split.
  - intros s. by exists [].
  - intros s1 s2 s3 (e1 & H1 & C1 & P1) (e2 & H2 & C2 & P2). exists (e2 ++ e1)%list.
    split; [exact (appends_trans _ _ _ _ _ H1 H2)|].
    by rewrite captcha_count_app, reg_posts_app, C1, C2, P1, P2.
Qed.

Lemma emit_quiet e :
  captcha_count [e] = 0%nat -> reg_posts [e] = [] -> respects reg_quiet (emit e).
Proof. intros Hc Hp s o s'. rewrite emit_run. intros [= _ <-]. exists [e]. by split; [apply appends_event|]. Qed.

Lemma console_log_quiet msg : respects reg_quiet (console_log msg).
Proof. by apply emit_quiet. Qed.
Lemma console_error_quiet msg : respects reg_quiet (console_error msg).
Proof. by apply emit_quiet. Qed.
Lemma get_world_quiet : respects reg_quiet get_world.
Proof. intros s o s' [= _ <-]. reflexivity. Qed.

Lemma http_quiet env rq : rq_url rq <> register_url -> respects reg_quiet (http env rq).
Proof.
  intros Hu. unfold http. solve_struct; [apply get_world_quiet|].
  apply emit_quiet; [done|]. unfold reg_posts. cbn.
  by rewrite (proj2 (String.eqb_neq _ _) Hu).
Qed.

#[export] Hint Resolve console_log_quiet console_error_quiet get_world_quiet : flow.

Lemma saveJson_quiet k v : respects reg_quiet (saveJson k v).
Proof. by apply emit_quiet. Qed.
Lemma sleep_quiet n : respects reg_quiet (sleep n).
Proof. by apply emit_quiet. Qed.
Lemma append_quiet f t : respects reg_quiet (emit (EvAppend f t)).
Proof. by apply emit_quiet. Qed.
Lemma console_log_returns msg : returns (console_log msg).
Proof. apply emit_returns. Qed.
Lemma console_error_returns msg : returns (console_error msg).
Proof. apply emit_returns. Qed.

#[export] Hint Resolve saveJson_quiet sleep_quiet append_quiet console_log_returns
  console_error_returns : flow.

Lemma quiet_run (m : CM unit) s :
  respects reg_quiet m -> returns m -> exists s', m s = (Ok tt, s') /\ reg_quiet s s'.
Proof.
  intros Hq Hr. destruct (Hr s) as ([] & s' & E). exists s'. split; [done|]. exact (Hq _ _ _ E).
Qed.

(** What the registration does after the request: it only logs, appends
    and saves. *)
Lemma register_tail_run (email password : JVal) (r : Resp) s :
  exists s', match r with
             | RespOk _ body =>
                 if truthy (jget body "accessToken") then
                   console_log ("Registration successful: " ++ stringify body);;
                   emit (EvAppend "accounts.txt" (newline ++ to_str email ++ "|" ++ to_str password));;
                   saveJson email body
                 else console_error ("Registration failed: " ++ stringify body)
             | RespErr _ _ msg => console_error ("Error during registration: " ++ msg)
             end s = (Ok tt, s') /\ reg_quiet s s'.
Proof. apply quiet_run; solve_struct. Qed.

Section RegisterLemmas.
Context (cfg : Settings) (env : Env) (solve : nat -> JVal).

Lemma reg_checkProxyIP_quiet proxy : respects reg_quiet (reg_checkProxyIP env proxy).
Proof. unfold reg_checkProxyIP. solve_struct. by apply http_quiet. Qed.

Lemma proxy_agent_for_quiet proxy : respects reg_quiet (proxy_agent_for cfg env proxy).
Proof. unfold proxy_agent_for. solve_struct. apply reg_checkProxyIP_quiet. Qed.

(** The probe's answer decides the agent: the proxy when it answers,
    [null] (a direct connection) when it fails. *)
Lemma proxy_agent_for_run proxy s :
  exists s', proxy_agent_for cfg env proxy s =
    (Ok (if USE_PROXY cfg && truthy proxy
         && negb (probe_fails (srv env (w_calls (st_w s)) (mkReq "get" ipify_url JUndef JUndef proxy)))
         then proxy else JNull), s').
Proof.
  unfold proxy_agent_for. destruct (USE_PROXY cfg && truthy proxy); cbn [andb]; [|by eexists].
  unfold catch, reg_checkProxyIP. rewrite bind_assoc, (bind_Ok _ _ _ _ _ (http_run env _ s)).
  destruct (srv env _ _) as [status body|]; cbn [probe_fails negb];
    [destruct (status =? 200)%Z; [destruct (nullish body)|]|]; cbn; by eexists.
Qed.

Lemma register_run email password proxy s :
  exists evs s', register cfg env solve email password proxy s = (Ok tt, s') /\ appends evs s s' /\
    captcha_count evs = 1%nat /\
    reg_posts evs = (if truthy (solve (captcha_count (w_trace (st_w s)))) then [email] else []) /\
    (truthy (solve (captcha_count (w_trace (st_w s)))) = true ->
     exists n, EvHttp n (mkReq "post" register_url register_headers
                 (register_payload cfg email password (solve (captcha_count (w_trace (st_w s)))))
                 (if USE_PROXY cfg && truthy proxy &&
                     negb (probe_fails (srv env (w_calls (st_w s))
                                          (mkReq "get" ipify_url JUndef JUndef proxy)))
                  then proxy else JNull)) ∈ evs).
Proof.
  unfold register, sovleCaptcha. rewrite !bind_assoc, (bind_Ok _ _ _ _ _ (get_world_run s)).
  rewrite bind_assoc, (bind_Ok _ _ _ _ _ (emit_run _ s)), bind_ret_l.
  destruct (truthy (solve _)) eqn:Ht; cbn [negb].
  - set (s1 := mkSt _ _). destruct (proxy_agent_for_run proxy s1) as [s2 Hr2].
    pose proof (proxy_agent_for_quiet proxy _ _ _ Hr2) as (q1 & Ha1 & Hc1 & Hp1).
    rewrite (bind_Ok _ _ _ _ _ Hr2), (bind_Ok _ _ _ _ _ (http_run env _ s2)).
    edestruct (register_tail_run email password)
      as (s3 & Hr3 & q2 & Ha2 & Hc2 & Hp2).
    rewrite Hr3. eexists _, s3. split; [done|]. split.
    { eapply appends_trans; [eapply appends_trans; [eapply appends_trans|]|];
        [apply appends_event|exact Ha1|apply appends_event|exact Ha2]. }
    rewrite !captcha_count_app, !reg_posts_app, Hc1, Hc2, Hp1, Hp2. split; [done|split; [done|]].
    intros _. eexists. apply elem_of_app. right. apply elem_of_app. left. apply list_elem_of_here.
  - destruct (quiet_run (console_error "Failed to solve CAPTCHA.")
                (mkSt (st_c s) (apply_event (EvCaptcha (solve (captcha_count (w_trace (st_w s))))) (st_w s))))
      as (s1 & Hr1 & q & Ha & Hc & Hp); [solve_struct|solve_struct|].
    rewrite Hr1. eexists _, s1. split; [done|]. split.
    { eapply appends_trans; [apply appends_event|exact Ha]. }
    rewrite captcha_count_app, reg_posts_app, Hc, Hp. by split.
Qed.

Lemma process_account_run accounts proxies i s :
  exists evs s', process_account cfg env solve accounts proxies i s = (Ok tt, s') /\
    appends evs s s' /\ captcha_count evs = 1%nat /\
    reg_posts evs = (if truthy (solve (captcha_count (w_trace (st_w s))))
                     then [account_email (default "" (nth_error accounts i))] else []).
Proof.
  unfold process_account. cbv zeta.
  destruct (quiet_run (console_log ("Processing account: " ++
             to_str (js_index (js_split "|"%char (default "" (nth_error accounts i))) 0))) s)
    as (s1 & Hr1 & q1 & Ha1 & Hc1 & Hp1); [solve_struct|solve_struct|].
  rewrite (bind_Ok _ _ _ _ _ Hr1).
  destruct (register_run (account_email (default "" (nth_error accounts i))) (js_index (js_split "|"%char (default "" (nth_error accounts i))) 1) (js_index proxies i) s1)
    as (e2 & s2 & Hr2 & Ha2 & Hc2 & Hp2 & _).
  unfold account_email in Hr2. rewrite (bind_Ok _ _ _ _ _ Hr2).
  destruct (quiet_run (console_log (newline ++ "=====================" ++ newline)) s2) as (s3 & Hr3 & q3 & Ha3 & Hc3 & Hp3); [solve_struct|solve_struct|].
  rewrite Hr3. eexists _, s3. split; [done|]. split.
  { eapply appends_trans; [eapply appends_trans|]; [exact Ha1|exact Ha2|exact Ha3]. }
  rewrite Ha1, captcha_count_app, Hc1 in Hp2.
  rewrite !captcha_count_app, !reg_posts_app, Hc1, Hc2, Hc3, Hp1, Hp3, Hp2.
  split; [done|]. cbn. by rewrite app_nil_r.
Qed.

Lemma expected_posts_S c0 accounts n :
  expected_posts solve c0 accounts (S n) =
  (expected_posts solve c0 accounts n ++
   (if truthy (solve (c0 + n)%nat)
    then [account_email (default "" (nth_error accounts n))] else []))%list.
Proof.
  unfold expected_posts. rewrite seq_S, omap_app. cbn.
  by destruct (truthy (solve (c0 + n)%nat)).
Qed.

(** The first [n] iterations of the loop of [main]. *)
Lemma reg_loop_run accounts proxies n s :
  exists evs s', for_each (seq 0 n) (process_account cfg env solve accounts proxies) s = (Ok tt, s') /\
    appends evs s s' /\ captcha_count evs = n /\
    reg_posts evs = expected_posts solve (captcha_count (w_trace (st_w s))) accounts n.
Proof.
  induction n as [|n IH]; [by exists [], s|].
  destruct IH as (e1 & s1 & Hr1 & Ha1 & Hc1 & Hp1).
  destruct (process_account_run accounts proxies n s1) as (e2 & s2 & Hr2 & Ha2 & Hc2 & Hp2).
  exists (e2 ++ e1)%list, s2. rewrite seq_S, for_each_app, (bind_Ok _ _ _ _ _ Hr1).
  split; [cbn [for_each Nat.add]; by rewrite (bind_Ok _ _ _ _ _ Hr2)|].
  split; [exact (appends_trans _ _ _ _ _ Ha1 Ha2)|].
  rewrite captcha_count_app, reg_posts_app, Hc1, Hc2, Hp1, Hp2, Ha1, captcha_count_app, Hc1.
  rewrite expected_posts_S, (Nat.add_comm n). split; [lia|done].
Qed.
End RegisterLemmas.

(** ** Properties of the registration flow *)

(** C33. [main] of [autoref.js] never throws and always terminates: it
    calls the solver once per line of [register.txt], in order, whatever
    happens to each registration, and sends a registration request for
    exactly the accounts whose CAPTCHA was solved, in their order. *)
Theorem reg_main_attempts_all cfg env solve accounts proxies s :
  exists evs s', reg_main cfg env solve accounts proxies s = (Ok tt, s') /\ appends evs s s' /\
    captcha_count evs = length accounts /\
    reg_posts evs = expected_posts solve (captcha_count (w_trace (st_w s))) accounts (length accounts).
Proof.
  destruct (reg_loop_run cfg env solve accounts proxies (length accounts) s)
    as (e1 & s1 & Hr1 & Ha1 & Hc1 & Hp1).
  unfold reg_main. rewrite (bind_Ok _ _ _ _ _ Hr1).
  destruct (quiet_run (console_log "All accounts processed.") s1) as (s2 & Hr2 & q & Ha & Hc & Hp);
    [solve_struct|solve_struct|].
  exists (q ++ e1)%list, s2. split; [exact Hr2|]. split; [exact (appends_trans _ _ _ _ _ Ha1 Ha)|].
  rewrite captcha_count_app, reg_posts_app, Hc, Hp, Hc1, Hp1. split; [done|]. by rewrite app_nil_r.
Qed.

(** C36. When the solver gives no token, [register] only logs the
    failure: no request, no file write. *)
Theorem register_captcha_failure cfg env solve email password proxy s :
  truthy (solve (captcha_count (w_trace (st_w s)))) = false ->
  register cfg env solve email password proxy s =
    (Ok tt, mkSt (st_c s) (apply_events [EvLog LError "Failed to solve CAPTCHA.";
                                         EvCaptcha (solve (captcha_count (w_trace (st_w s))))]
                             (st_w s))).
Proof.
  intros Ht. unfold register, sovleCaptcha.
  rewrite !bind_assoc, (bind_Ok _ _ _ _ _ (get_world_run s)).
  rewrite bind_assoc, (bind_Ok _ _ _ _ _ (emit_run _ s)), bind_ret_l. cbn [st_w st_c].
  by rewrite Ht.
Qed.

Lemma register_captcha_failure_witness :
  let s := sample_state JNull (JObj []) in
  truthy (JStr "") = false /\
  register sample_cfg (sample_env reg_server) (fun _ => JStr "") (JStr "a@b.c") (JStr "pw") JUndef s =
    (Ok tt, mkSt (st_c s) (apply_events [EvLog LError "Failed to solve CAPTCHA."; EvCaptcha (JStr "")]
                             (st_w s))).
Proof.
  split; [reflexivity|].
  apply (register_captcha_failure sample_cfg (sample_env reg_server) (fun _ => JStr "")). reflexivity.
Defined.

(** C34. Unless proxies are in use, the account has a proxy and the probe
    of that proxy answers, the registration request is sent without a
    proxy agent: a failed probe, or a missing line of [proxy.txt], falls
    back to a direct connection. *)
Theorem register_direct_unless_probe_ok cfg env solve email password proxy s :
  truthy (solve (captcha_count (w_trace (st_w s)))) = true ->
  USE_PROXY cfg && truthy proxy &&
    negb (probe_fails (srv env (w_calls (st_w s)) (mkReq "get" ipify_url JUndef JUndef proxy)))
  = false ->
  exists evs s' n, register cfg env solve email password proxy s = (Ok tt, s') /\
    appends evs s s' /\
    EvHttp n (mkReq "post" register_url register_headers
                (register_payload cfg email password (solve (captcha_count (w_trace (st_w s)))))
                JNull) ∈ evs.
Proof.
  intros Ht Hp.
  destruct (register_run cfg env solve email password proxy s) as (evs & s' & Hr & Ha & _ & _ & Hin).
  destruct (Hin Ht) as [n Hn]. rewrite Hp in Hn. by exists evs, s', n.
Qed.

Lemma register_direct_unless_probe_ok_witness :
  let s := sample_state JNull (JObj []) in
  exists evs s' n,
    register proxy_cfg (sample_env reg_server) solved (JStr "a@b.c") (JStr "pw") (JStr "http://p:1") s =
      (Ok tt, s') /\ appends evs s s' /\
    EvHttp n (mkReq "post" register_url register_headers
                (register_payload proxy_cfg (JStr "a@b.c") (JStr "pw") (solved 0)) JNull) ∈ evs.
Proof.
  apply (register_direct_unless_probe_ok proxy_cfg (sample_env reg_server) solved
           (JStr "a@b.c") (JStr "pw") (JStr "http://p:1")); vm_compute; reflexivity.
Defined.

(** C35. Without proxies, a solved CAPTCHA and an answer with an
    [accessToken]: [register] appends ["\n" + email + "|" + password] to
    [accounts.txt] and saves the answer under the email in
    [localStorage.json]. *)
Theorem register_success_records cfg env solve email password proxy s status body :
  USE_PROXY cfg = false ->
  truthy (solve (captcha_count (w_trace (st_w s)))) = true ->
  srv env (w_calls (st_w s))
      (mkReq "post" register_url register_headers
         (register_payload cfg email password (solve (captcha_count (w_trace (st_w s))))) JNull)
    = RespOk status body ->
  truthy (jget body "accessToken") = true ->
  exists s', register cfg env solve email password proxy s = (Ok tt, s') /\
    w_file (st_w s') !! to_str email = Some body /\
    appended "accounts.txt" (w_trace (st_w s')) =
      appended "accounts.txt" (w_trace (st_w s)) ++ newline ++ to_str email ++ "|" ++ to_str password.
Proof.
  intros Hp Ht Hs Ha. unfold register, sovleCaptcha.
  rewrite !bind_assoc, (bind_Ok _ _ _ _ _ (get_world_run s)).
  rewrite bind_assoc, (bind_Ok _ _ _ _ _ (emit_run _ s)), bind_ret_l. cbn [st_w st_c].
  rewrite Ht. cbn [negb]. unfold proxy_agent_for. rewrite Hp. cbn [andb]. rewrite bind_ret_l.
  rewrite (bind_Ok _ _ _ _ _ (http_run env _ _)). cbn [st_w apply_event w_calls]. rewrite Hs, Ha.
  unfold console_log. rewrite (bind_Ok _ _ _ _ _ (emit_run _ _)), (bind_Ok _ _ _ _ _ (emit_run _ _)).
  eexists. split; [apply saveJson_run|]. cbn. split; [apply lookup_insert_eq|].
  reflexivity.
Qed.

Lemma register_success_records_witness :
  let s := sample_state JNull (JObj []) in
  exists s', register sample_cfg (sample_env reg_server) solved (JStr "a@b.c") (JStr "pw") JUndef s =
      (Ok tt, s') /\
    w_file (st_w s') !! "a@b.c" = Some (JObj [("accessToken", JStr "AT")]) /\
    appended "accounts.txt" (w_trace (st_w s')) =
      appended "accounts.txt" (w_trace (st_w s)) ++ newline ++ "a@b.c" ++ "|" ++ "pw".
Proof.
  apply (register_success_records sample_cfg (sample_env reg_server) solved (JStr "a@b.c") (JStr "pw")
           JUndef (sample_state JNull (JObj [])) 200); vm_compute; reflexivity.
Defined.
